(** * capt_archive_converter: conversion engine, embedded and verified

    A shallow embedding of the format-conversion engine of
    [capt_archive_converter] (format detection and validation, the archive
    helpers, the per-file progress normaliser, the two orchestrators and
    the worker that runs them), followed by theorems about it.

    Conventions of the embedding.
    - Python [int] is [Z]; Python [float] is an IEEE-754 binary64 value of
      [SpecFloat.spec_float] (precision 53, [emax] 1024), so that
      [int((current / total) * 100)] is computed exactly as CPython does.
    - Python [str] is [string] (a byte string); [str.lower] and [str.upper]
      act on the ASCII letters.
    - [pathlib.Path] is the POSIX pure path: a root and a list of parts.
    - An exception is a value [Exn] (class and [str(e)] text); a call that
      can raise returns [Res].
    - Everything the code asks of the operating system or of a third-party
      library ([zipfile], [rarfile], [fitz], [PIL], [subprocess],
      [tempfile]) is a field of [Platform]: a function of the current world
      that may raise and may return a new world. Theorems quantify over
      every platform; [Sim] is one concrete platform used to run the code.
    - The callbacks handed to the engine act on a state [U] of their own and
      may raise.
    - A Qt signal of the worker is recorded when it is emitted; the slots
      connected to it belong to the window and are not part of the engine.
    - Calls to the logger are left out: they write to a log file and do not
      influence any result. *)

From Stdlib Require Import ZArith List String Ascii Bool Lia DecimalString.
From Stdlib Require Import Floats.SpecFloat.
Import ListNotations.

Local Open Scope string_scope.
Local Open Scope Z_scope.

(* ================================================================= *)
(** ** Exceptions and results *)

Inductive ExcClass :=
| ValueError
| KeyError
| AttributeError
| OverflowError
| FileNotFoundError
| OSError
| SubprocessError
| RuntimeError
| ArchiveConversionError
| LibraryError.

Record Exn := mkExn { exn_class : ExcClass; exn_str : string }.

Inductive Res (A : Type) :=
| Ok (a : A)
| Raise (e : Exn).

Arguments Ok {A} a.
Arguments Raise {A} e.

Definition is_file_not_found (e : Exn) : bool :=
  match exn_class e with FileNotFoundError => true | _ => false end.

(* ================================================================= *)
(** ** Python strings *)

Module PyStr.

Definition lower_ascii (c : ascii) : ascii :=
  let n := nat_of_ascii c in
  if (Nat.leb 65 n && Nat.leb n 90)%bool then ascii_of_nat (n + 32) else c.

Definition upper_ascii (c : ascii) : ascii :=
  let n := nat_of_ascii c in
  if (Nat.leb 97 n && Nat.leb n 122)%bool then ascii_of_nat (n - 32) else c.

Fixpoint map_string (f : ascii -> ascii) (s : string) : string :=
  match s with
  | EmptyString => EmptyString
  | String c r => String (f c) (map_string f r)
  end.

Definition lower : string -> string := map_string lower_ascii.
Definition upper : string -> string := map_string upper_ascii.

(** [s.rfind('.')]: index of the last dot, if any. *)
Fixpoint rfind_dot (s : string) : option nat :=
  match s with
  | EmptyString => None
  | String c r =>
      match rfind_dot r with
      | Some i => Some (S i)
      | None => if Ascii.eqb c "." then Some 0%nat else None
      end
  end.

(** [s.split(sep)] *)
Fixpoint split_on (sep : ascii) (s : string) : list string :=
  match s with
  | EmptyString => [EmptyString]
  | String c r =>
      if Ascii.eqb c sep then EmptyString :: split_on sep r
      else match split_on sep r with
           | [] => [String c EmptyString]
           | h :: t => String c h :: t
           end
  end.

Fixpoint leading (c : ascii) (s : string) : nat :=
  match s with
  | String d r => if Ascii.eqb c d then S (leading c r) else 0%nat
  | EmptyString => 0%nat
  end.

(** [sep.join(l)] *)
Fixpoint join (sep : string) (l : list string) : string :=
  match l with
  | [] => ""
  | [x] => x
  | x :: r => x ++ sep ++ join sep r
  end.

Fixpoint contains_char (c : ascii) (s : string) : bool :=
  match s with
  | EmptyString => false
  | String d r => (Ascii.eqb c d || contains_char c r)%bool
  end.

(** [str(n)] for a natural number. *)
Definition of_nat (n : nat) : string := NilZero.string_of_uint (Nat.to_uint n).

(** [f"{n:03d}"] *)
Definition of_nat_03d (n : nat) : string :=
  let s := of_nat n in
  match String.length s with
  | 1%nat => "00" ++ s
  | 2%nat => "0" ++ s
  | _ => s
  end.

Fixpoint insert_sorted (x : string) (l : list string) : list string :=
  match l with
  | [] => [x]
  | y :: r => if String.leb x y then x :: l else y :: insert_sorted x r
  end.

(** [list.sort()] on strings: ascending, byte-wise lexicographic. *)
Definition sort (l : list string) : list string :=
  fold_right insert_sorted [] l.

End PyStr.

(* ================================================================= *)
(** ** pathlib (pure POSIX paths) *)

Record Path := mkPath { path_root : string; path_parts : list string }.

Module PurePath.

(** [Path(s)]: the root is ["/"] (["//"] for exactly two leading slashes),
    empty and ["."] components are dropped. *)
Definition of_string (s : string) : Path :=
  let k := PyStr.leading "/" s in
  {| path_root := match k with
                  | 0%nat => ""
                  | 2%nat => "//"
                  | _ => "/"
                  end;
     path_parts := filter (fun c => negb (String.eqb c "" || String.eqb c "."))
                          (PyStr.split_on "/" s) |}.

(** [str(p)] *)
Definition str (p : Path) : string :=
  match path_root p, path_parts p with
  | EmptyString, [] => "."
  | r, l => r ++ PyStr.join "/" l
  end.

(** [p.name] *)
Definition name (p : Path) : string := last (path_parts p) "".

(** [len(p.parts)]: the root counts as a part. *)
Definition parts_len (p : Path) : nat :=
  ((if String.eqb (path_root p) "" then 0 else 1) + List.length (path_parts p))%nat.

Definition suffix_of_name (nm : string) : string :=
  match PyStr.rfind_dot nm with
  | Some i =>
      if (Nat.ltb 0 i && Nat.ltb i (String.length nm - 1))%bool
      then substring i (String.length nm - i) nm
      else ""
  | None => ""
  end.

(** [p.suffix] *)
Definition suffix (p : Path) : string := suffix_of_name (name p).

Definition valid_suffix (sfx : string) : bool :=
  (negb (PyStr.contains_char "/" sfx)
   && negb (negb (String.eqb sfx "") && negb (prefix "." sfx) || String.eqb sfx "."))%bool.

(** [p.with_suffix(sfx)]; raises [ValueError] on an invalid suffix or on a
    path whose name is empty. *)
Definition with_suffix (p : Path) (sfx : string) : Res Path :=
  if negb (valid_suffix sfx) then
    Raise (mkExn ValueError ("Invalid suffix '" ++ sfx ++ "'"))
  else
    let nm := name p in
    if String.eqb nm "" then
      Raise (mkExn ValueError ("PosixPath('" ++ str p ++ "') has an empty name"))
    else
      let old := suffix p in
      let nm' := substring 0 (String.length nm - String.length old) nm ++ sfx in
      Ok {| path_root := path_root p;
            path_parts := removelast (path_parts p) ++ [nm'] |}.

(** [p / child] *)
Definition joinpath (p : Path) (child : string) : Path :=
  let c := of_string child in
  if String.eqb (path_root c) "" then
    {| path_root := path_root p; path_parts := path_parts p ++ path_parts c |}
  else c.

Fixpoint strip_prefix (pre l : list string) : option (list string) :=
  match pre, l with
  | [], _ => Some l
  | x :: pre', y :: l' => if String.eqb x y then strip_prefix pre' l' else None
  | _ :: _, [] => None
  end.

(** [p.relative_to(base)] *)
Definition relative_to (p base : Path) : Res Path :=
  if String.eqb (path_root p) (path_root base) then
    match strip_prefix (path_parts base) (path_parts p) with
    | Some l => Ok {| path_root := ""; path_parts := l |}
    | None => Raise (mkExn ValueError
                ("'" ++ str p ++ "' is not in the subpath of '" ++ str base ++ "'"))
    end
  else Raise (mkExn ValueError
                ("'" ++ str p ++ "' is not in the subpath of '" ++ str base ++ "'")).

End PurePath.

(* ================================================================= *)
(** ** Python floats (IEEE-754 binary64) *)

Module PyFloat.

Definition float := spec_float.

Definition prec : Z := 53.
Definition emax : Z := 1024.

(** An integer as an exact (not yet rounded) operand. *)
Definition exact (z : Z) : float :=
  match z with
  | Z0 => S754_zero false
  | Zpos p => S754_finite false p 0
  | Zneg p => S754_finite true p 0
  end.

(** [float(z)]: round to nearest even; too large an integer raises. *)
Definition of_int (z : Z) : Res float :=
  match binary_normalize prec emax z 0 false with
  | S754_infinity _ =>
      Raise (mkExn OverflowError "int too large to convert to float")
  | x => Ok x
  end.

(** [a / b] on integers, for [b <> 0]: the correctly rounded quotient. *)
Definition int_truediv (a b : Z) : Res float :=
  match SFdiv prec emax (exact a) (exact b) with
  | S754_infinity _ =>
      Raise (mkExn OverflowError "integer division result too large for a float")
  | x => Ok x
  end.

Definition mul (x y : float) : float := SFmul prec emax x y.
Definition add (x y : float) : float := SFadd prec emax x y.

(** [x * z] with [z] an integer. *)
Definition mul_int (x : float) (z : Z) : Res float :=
  match of_int z with
  | Ok y => Ok (mul x y)
  | Raise e => Raise e
  end.

(** [z + x] with [z] an integer. *)
Definition int_add (z : Z) (x : float) : Res float :=
  match of_int z with
  | Ok y => Ok (add y x)
  | Raise e => Raise e
  end.

(** [int(x)]: truncation toward zero. *)
Definition to_int (x : float) : Res Z :=
  match x with
  | S754_zero _ => Ok 0
  | S754_finite s m e =>
      let a := Z.shiftl (Zpos m) e in
      Ok (if s then - a else a)
  | S754_infinity _ =>
      Raise (mkExn OverflowError "cannot convert float infinity to integer")
  | S754_nan =>
      Raise (mkExn ValueError "cannot convert float NaN to integer")
  end.

End PyFloat.

(** [bind] on results, for the pure computations above. *)
Definition res_bind {A B} (r : Res A) (f : A -> Res B) : Res B :=
  match r with
  | Ok a => f a
  | Raise e => Raise e
  end.

(* ================================================================= *)
(** ** Callbacks *)

Section Callbacks.

Variable U : Type.

(** [progress_callback(current, total)] and [status_callback(message)]. *)
Definition Progress := Z -> Z -> U -> Res unit * U.
Definition Status := string -> U -> Res unit * U.

(** [int((current / total) * 100)] *)
Definition raw_percentage (current total : Z) : Res Z :=
  res_bind (PyFloat.int_truediv current total) (fun q =>
  res_bind (PyFloat.mul_int q 100) PyFloat.to_int).

(** [percent] as computed by the callback before the non-last-file cap. *)
Definition callback_percent (current total : Z) : Res Z :=
  if 0 <? total then
    res_bind (raw_percentage current total) (fun x =>
    Ok (Z.min 100 (Z.max 0 x)))
  else Ok 0.

(** utils/arc_conv_helpers.py, [create_per_file_progress_callback]. *)
Definition create_per_file_progress_callback
    (progress_callback : option Progress) (file_index total_files : Z)
    (is_last_file : bool) : Progress :=
  fun current total u =>
    match progress_callback with
    | Some sink =>
        match callback_percent current total with
        | Ok percent =>
            let percent :=
              if (negb is_last_file && (percent =? 100))%bool then 99
              else percent in
            sink percent 100 u
        | Raise e => (Raise e, u)
        end
    | None => (Ok tt, u)
    end.

End Callbacks.

Arguments create_per_file_progress_callback {U}.

(* ================================================================= *)
(** ** The platform: operating system and third-party libraries *)

Definition Bytes := string.
Definition Image := string.

(** Every field reads the world; those that also change it return the new
    world. A [Res] result is the call raising or returning. *)
Set Implicit Arguments.

Record Platform (W : Type) := {
  (* pathlib, os, builtins *)
  path_exists : Path -> W -> bool;
  path_is_dir : Path -> W -> bool;
  path_stat_size : Path -> W -> Res Z;
  path_unlink : Path -> W -> Res unit * W;
  os_walk_files : Path -> W -> list Path;
  open_wb : Path -> W -> Res unit * W;
  write_bytes : Path -> Bytes -> W -> Res unit * W;
  (* tempfile.TemporaryDirectory *)
  mkdtemp : W -> Res Path * W;
  rmtree : Path -> W -> Res unit * W;
  (* zipfile *)
  zip_is_zipfile : Path -> W -> Res bool;
  zip_namelist : Path -> W -> Res (list string);
  zip_getinfo_size : Path -> string -> W -> Res Z;
  zip_extract : Path -> string -> Path -> W -> Res unit * W;
  zip_open_member : Path -> string -> W -> Res unit;
  zip_read_member : Path -> string -> W -> Res Bytes;
  zip_create : Path -> W -> Res unit * W;
  zip_write : Path -> Path -> Path -> W -> Res unit * W;
  zip_close : Path -> W -> Res unit * W;
  (* rarfile *)
  rar_is_rarfile : Path -> W -> Res bool;
  rar_namelist : Path -> W -> Res (list string);
  rar_getinfo_size : Path -> string -> W -> Res Z;
  rar_extract : Path -> string -> Path -> W -> Res unit * W;
  (* subprocess: [rar] alone, and [rar a -r -ep1 archive dir/*] giving
     the return code and the standard error text *)
  run_rar_probe : W -> Res unit;
  run_rar_add : Path -> Path -> W -> Res (Z * string) * W;
  (* fitz (PyMuPDF): open gives the page count *)
  fitz_open : Path -> W -> Res nat;
  fitz_render_page : Path -> nat -> Path -> W -> Res unit * W;
  (* PIL: open an image and bring it to RGB; save images as one PDF *)
  pil_open_rgb : Path -> W -> Res Image;
  pil_save_pdf : list Image -> Path -> W -> Res unit * W
}.

Unset Implicit Arguments.

(** The calls that can change the world, as they are logged. *)
Inductive Call :=
| CallUnlink (p : Path)
| CallOpenWb (p : Path)
| CallWriteBytes (p : Path)
| CallMkdtemp
| CallRmtree (d : Path)
| CallZipExtract (archive : Path) (member : string) (dest : Path)
| CallZipCreate (archive : Path)
| CallZipWrite (archive file arcname : Path)
| CallZipClose (archive : Path)
| CallRarExtract (archive : Path) (member : string) (dest : Path)
| CallRarAdd (archive source : Path)
| CallRenderPage (pdf : Path) (index : nat) (image : Path)
| CallSavePdf (output : Path).

(* ================================================================= *)
(** ** The execution monad *)

Section Engine.

Variables W U : Type.

(** The world, the log of world-changing calls, the callbacks' state. *)
Record St := mkSt { world : W; calls : list Call; ui : U }.

Definition M (A : Type) := St -> Res A * St.

Definition ret {A} (a : A) : M A := fun s => (Ok a, s).

Definition bind {A B} (m : M A) (f : A -> M B) : M B :=
  fun s => match m s with
           | (Ok a, s') => f a s'
           | (Raise e, s') => (Raise e, s')
           end.

Definition raise {A} (e : Exn) : M A := fun s => (Raise e, s).

(** [try: m  except Exception as e: ...]: the outcome as a value. *)
Definition catch {A} (m : M A) : M (Res A) :=
  fun s => let (r, s') := m s in (Ok r, s').

Definition lift_res {A} (r : Res A) : M A := fun s => (r, s).

(** A call that reads the world. *)
Definition ask {A} (f : W -> A) : M A := fun s => (Ok (f (world s)), s).
Definition ask_res {A} (f : W -> Res A) : M A := fun s => (f (world s), s).

(** A call that may change the world; it is logged. *)
Definition perform {A} (c : Call) (f : W -> Res A * W) : M A :=
  fun s => let (r, w') := f (world s) in
           (r, mkSt w' (calls s ++ [c]) (ui s)).

(** Invoking a callback. *)
Definition call_cb (f : U -> Res unit * U) : M unit :=
  fun s => let (r, u') := f (ui s) in (r, mkSt (world s) (calls s) u').

End Engine.

Arguments mkSt {W U}.
Arguments world {W U}.
Arguments calls {W U}.
Arguments ui {W U}.
Arguments ret {W U A}.
Arguments bind {W U A B}.
Arguments raise {W U A}.
Arguments catch {W U A}.
Arguments lift_res {W U A}.
Arguments ask {W U A}.
Arguments ask_res {W U A}.
Arguments perform {W U A}.
Arguments call_cb {W U}.

Declare Scope py_scope.
Delimit Scope py_scope with py.
Notation "x <- m ;; k" := (bind m (fun x => k))
  (at level 61, m at next level, right associativity) : py_scope.
Notation "m ;; k" := (bind m (fun _ => k))
  (at level 61, right associativity) : py_scope.
Local Open Scope py_scope.

Section Control.

Variables W U : Type.

(** [with resource: body]: the release runs on every exit of the body, and
    an exception of the release replaces the body's outcome. *)
Definition finally_ {A} (body : M W U A) (release : M W U unit) : M W U A :=
  r <- catch body ;;
  release ;;
  lift_res r.

(** [for i, x in enumerate(l): f i x], counting from [i]. *)
Fixpoint for_enumerate {A} (f : nat -> A -> M W U unit) (i : nat) (l : list A)
  : M W U unit :=
  match l with
  | [] => ret tt
  | x :: r => f i x ;; for_enumerate f (S i) r
  end.

(** [[f(x) for x in l]] with an effectful [f]. *)
Fixpoint map_m {A B} (f : A -> M W U B) (l : list A) : M W U (list B) :=
  match l with
  | [] => ret []
  | x :: r => y <- f x ;; ys <- map_m f r ;; ret (y :: ys)
  end.

(** [if progress_callback: progress_callback(current, total)] *)
Definition emit_progress (cb : option (Progress U)) (current total : Z)
  : M W U unit :=
  match cb with
  | Some f => call_cb (f current total)
  | None => ret tt
  end.

(** [if status_callback: status_callback(message)] *)
Definition emit_status (cb : option (Status U)) (message : string)
  : M W U unit :=
  match cb with
  | Some f => call_cb (f message)
  | None => ret tt
  end.

End Control.

Arguments finally_ {W U A}.
Arguments for_enumerate {W U A}.
Arguments map_m {W U A B}.
Arguments emit_progress {W U}.
Arguments emit_status {W U}.

(* ================================================================= *)
(** ** utils/arc_conv_helpers.py *)

Section Helpers.

Variables W U : Type.
Variable P : Platform W.

(** [int(start + (((i + 1) / total) * (end - start)))] *)
Definition interpolate (start_progress end_progress : Z) (i total : nat)
  : Res Z :=
  res_bind (PyFloat.int_truediv (Z.of_nat i + 1) (Z.of_nat total)) (fun q =>
  res_bind (PyFloat.mul_int q (end_progress - start_progress)) (fun x =>
  res_bind (PyFloat.int_add start_progress x) PyFloat.to_int)).

Definition extract_rar_archive (rar_path extract_path : Path)
    (progress_callback : option (Progress U))
    (start_progress end_progress : Z) : M W U unit :=
  r <- catch (
    file_list <- ask_res (rar_namelist P rar_path) ;;
    let total_files := List.length file_list in
    for_enumerate (fun i file_name =>
      perform (CallRarExtract rar_path file_name extract_path)
              (rar_extract P rar_path file_name extract_path) ;;
      if Nat.ltb 0 total_files
      then emit_progress progress_callback (Z.of_nat i + 1) (Z.of_nat total_files)
      else ret tt) 0 file_list) ;;
  match r with
  | Ok _ => ret tt
  | Raise e =>
      raise (mkExn RuntimeError ("Failed to extract RAR archive: " ++ exn_str e))
  end.

Definition extract_zip_archive (zip_path extract_path : Path)
    (progress_callback : option (Progress U))
    (start_progress end_progress : Z) : M W U unit :=
  r <- catch (
    file_list <- ask_res (zip_namelist P zip_path) ;;
    let total_files := List.length file_list in
    for_enumerate (fun i file_name =>
      perform (CallZipExtract zip_path file_name extract_path)
              (zip_extract P zip_path file_name extract_path) ;;
      if Nat.ltb 0 total_files
      then emit_progress progress_callback (Z.of_nat i + 1) (Z.of_nat total_files)
      else ret tt) 0 file_list) ;;
  match r with
  | Ok _ => ret tt
  | Raise e =>
      raise (mkExn RuntimeError ("Failed to extract ZIP archive: " ++ exn_str e))
  end.

Definition create_zip_archive (source_path zip_path : Path)
    (progress_callback : option (Progress U))
    (start_progress end_progress : Z) : M W U unit :=
  ex <- ask (path_exists P source_path) ;;
  isd <- ask (path_is_dir P source_path) ;;
  if (negb ex || negb isd)%bool then
    raise (mkExn RuntimeError
             ("Source directory does not exist: " ++ PurePath.str source_path))
  else
    r <- catch (
      files_to_archive <- ask (os_walk_files P source_path) ;;
      let total_files := List.length files_to_archive in
      perform (CallZipCreate zip_path) (zip_create P zip_path) ;;
      finally_
        (for_enumerate (fun i file_path =>
           relative_path <- lift_res (PurePath.relative_to file_path source_path) ;;
           perform (CallZipWrite zip_path file_path relative_path)
                   (zip_write P zip_path file_path relative_path) ;;
           match progress_callback with
           | Some cb =>
               if Nat.ltb 0 total_files then
                 current_progress <-
                   lift_res (interpolate start_progress end_progress i total_files) ;;
                 call_cb (cb current_progress (Z.of_nat total_files))
               else ret tt
           | None => ret tt
           end) 0 files_to_archive)
        (perform (CallZipClose zip_path) (zip_close P zip_path))) ;;
    match r with
    | Ok _ => ret tt
    | Raise e =>
        raise (mkExn RuntimeError ("Failed to create ZIP archive: " ++ exn_str e))
    end.

Definition rar_tool_not_found : string :=
  "RAR command-line tool not found. Install Rarfile or rar package to create CBR files.".

(** Both handlers of the outer [try] ([subprocess.SubprocessError] and
    [Exception]) raise the same [RuntimeError]; they are one case here. *)
Definition create_rar_archive (source_path rar_path : Path)
    (progress_callback : option (Progress U))
    (start_progress end_progress : Z) : M W U unit :=
  r <- catch (
    probe <- catch (ask_res (run_rar_probe P)) ;;
    match probe with
    | Ok _ => ret tt
    | Raise e =>
        if is_file_not_found e
        then raise (mkExn RuntimeError rar_tool_not_found)
        else raise e
    end ;;
    files_to_archive <- ask (os_walk_files P source_path) ;;
    let total_files := List.length files_to_archive in
    emit_progress progress_callback (start_progress + 10) (Z.of_nat total_files) ;;
    result <- perform (CallRarAdd rar_path source_path)
                      (run_rar_add P rar_path source_path) ;;
    let (returncode, stderr) := (result : Z * string) in
    (if negb (returncode =? 0)
     then raise (mkExn RuntimeError ("RAR creation failed: " ++ stderr))
     else ret tt) ;;
    emit_progress progress_callback end_progress (Z.of_nat total_files)) ;;
  match r with
  | Ok _ => ret tt
  | Raise e =>
      raise (mkExn RuntimeError ("Failed to create RAR archive: " ++ exn_str e))
  end.

End Helpers.

Arguments extract_rar_archive {W U}.
Arguments extract_zip_archive {W U}.
Arguments create_zip_archive {W U}.
Arguments create_rar_archive {W U}.

(* ================================================================= *)
(** ** utils/arc_convert_util.py *)

(** The three formats [detect_archive_format] can name; [None] in the
    source is [None] of [option ArchiveFormat]. *)
Inductive ArchiveFormat := CBZ | CBR | PDF.

Definition format_str (f : ArchiveFormat) : string :=
  match f with CBZ => "CBZ" | CBR => "CBR" | PDF => "PDF" end.

Definition format_eqb (a b : ArchiveFormat) : bool :=
  match a, b with
  | CBZ, CBZ | CBR, CBR | PDF, PDF => true
  | _, _ => false
  end.

(** [x == y] on the values [detect_archive_format] returns. *)
Definition detected_eqb (x y : option ArchiveFormat) : bool :=
  match x, y with
  | Some a, Some b => format_eqb a b
  | None, None => true
  | _, _ => false
  end.

(** [f"{source_format}"] and [repr(source_format)] *)
Definition detected_str (x : option ArchiveFormat) : string :=
  match x with Some f => format_str f | None => "None" end.

Definition detected_repr (x : option ArchiveFormat) : string :=
  match x with Some f => "'" ++ format_str f ++ "'" | None => "None" end.

(** [details], the dictionary filled by the validators. *)
Record Details := mkDetails {
  image_count : Z;
  has_metadata : bool;
  has_folders : bool;
  image_files : list string;
  total_size : Z
}.

Module ArchiveConverter.

Definition supported_image_extensions : list string :=
  [".jpg"; ".jpeg"; ".png"; ".gif"; ".bmp"; ".tiff"; ".webp"].

(** [Path(file_name).suffix.lower() in self.supported_image_extensions] *)
Definition is_image_name (file_name : string) : bool :=
  existsb (String.eqb (PyStr.lower (PurePath.suffix (PurePath.of_string file_name))))
          supported_image_extensions.

Section WithPlatform.

Variable W : Type.
Variable P : Platform W.

(** The body of the [try] of [detect_archive_format]. *)
Definition detect_attempt (archive_path : Path) (w : W)
  : Res (option ArchiveFormat) :=
  if String.eqb (PyStr.lower (PurePath.suffix archive_path)) ".pdf" then Ok (Some PDF)
  else
    res_bind (zip_is_zipfile P archive_path w) (fun is_zip =>
    if is_zip then Ok (Some CBZ)
    else
      res_bind (rar_is_rarfile P archive_path w) (fun is_rar =>
      if is_rar then Ok (Some CBR) else Ok None)).

Definition detect_archive_format (archive_path : Path) (w : W)
  : option ArchiveFormat :=
  match detect_attempt archive_path w with
  | Ok f => f
  | Raise _ => None
  end.

(** One turn of the loop over the entry names of an archive; [getinfo] is
    the size lookup, whose failure is swallowed. *)
Definition validate_entry (getinfo : string -> Res Z) (details : Details)
    (file_name : string) : Details :=
  let file_path := PurePath.of_string file_name in
  let d1 :=
    if String.eqb (PyStr.lower (PurePath.name file_path)) "comicinfo.xml"
    then mkDetails (image_count details) true (has_folders details)
                   (image_files details) (total_size details)
    else details in
  let d2 :=
    if Nat.ltb 1 (PurePath.parts_len file_path)
    then mkDetails (image_count d1) (has_metadata d1) true
                   (image_files d1) (total_size d1)
    else d1 in
  if is_image_name file_name then
    let d3 := mkDetails (image_count d2 + 1) (has_metadata d2) (has_folders d2)
                        (image_files d2 ++ [file_name]) (total_size d2) in
    match getinfo file_name with
    | Ok file_size =>
        mkDetails (image_count d3) (has_metadata d3) (has_folders d3)
                  (image_files d3) (total_size d3 + file_size)
    | Raise _ => d3
    end
  else d2.

Definition _validate_zip_archive (archive_path : Path) (details : Details)
    (w : W) : bool * string * Details :=
  match zip_namelist P archive_path w with
  | Ok file_list =>
      let details' :=
        fold_left (validate_entry (fun n => zip_getinfo_size P archive_path n w))
                  file_list details in
      (0 <? image_count details', "CBZ", details')
  | Raise _ => (false, "CBZ", details)
  end.

Definition _validate_rar_archive (archive_path : Path) (details : Details)
    (w : W) : bool * string * Details :=
  match rar_namelist P archive_path w with
  | Ok file_list =>
      let details' :=
        fold_left (validate_entry (fun n => rar_getinfo_size P archive_path n w))
                  file_list details in
      (0 <? image_count details', "CBR", details')
  | Raise _ => (false, "CBR", details)
  end.

(** [details['image_count']] is assigned before [stat()] is called: when
    [stat()] raises, the handler returns the dictionary as it is then. *)
Definition _validate_pdf_file (archive_path : Path) (details : Details)
    (w : W) : bool * string * Details :=
  match fitz_open P archive_path w with
  | Ok page_count =>
      let d1 := mkDetails (Z.of_nat page_count) (has_metadata details)
                          (has_folders details) (image_files details)
                          (total_size details) in
      match path_stat_size P archive_path w with
      | Ok st_size =>
          let d2 := mkDetails (image_count d1) (has_metadata d1) (has_folders d1)
                              (image_files d1) st_size in
          (0 <? image_count d2, "PDF", d2)
      | Raise _ => (false, "PDF", d1)
      end
  | Raise _ => (false, "PDF", details)
  end.

Definition empty_details : Details := mkDetails 0 false false [] 0.

(** The three validators catch every exception themselves, so the handler
    of [validate_comic_archive] is never entered. *)
Definition validate_comic_archive (archive_path : Path) (w : W)
  : bool * string * Details :=
  let details := empty_details in
  match detect_archive_format archive_path w with
  | None => (false, "UNKNOWN", details)
  | Some CBZ => _validate_zip_archive archive_path details w
  | Some CBR => _validate_rar_archive archive_path details w
  | Some PDF => _validate_pdf_file archive_path details w
  end.

End WithPlatform.

Arguments detect_attempt {W}.
Arguments detect_archive_format {W}.
Arguments _validate_zip_archive {W}.
Arguments _validate_rar_archive {W}.
Arguments _validate_pdf_file {W}.
Arguments validate_comic_archive {W}.

End ArchiveConverter.

(* ================================================================= *)
(** ** The result of one conversion *)

(** [(original_path, converted_path, success, error_message)] *)
Record ConversionResult := mkResult {
  original_path : string;
  converted_path : string;
  success : bool;
  error_message : string
}.

Definition unsupported_conversion : string :=
  "Unsupported conversion type or file extension.".

Definition not_created (converted : Path) : string :=
  "Conversion failed: " ++ PurePath.str converted ++ " was not created.".

(** [lambda msg: status_callback(f"File {idx + 1}/{total_files}: {msg}")
    if status_callback else None] *)
Definition file_status {U} (status_callback : option (Status U))
    (idx total_files : nat) : Status U :=
  fun msg u =>
    match status_callback with
    | Some f =>
        f ("File " ++ PyStr.of_nat (idx + 1) ++ "/" ++ PyStr.of_nat total_files
           ++ ": " ++ msg) u
    | None => (Ok tt, u)
    end.

(** [[g(i, x) for i, x in enumerate(l)]] with an effectful [g]. *)
Fixpoint map_enumerate_m {W U A B} (f : nat -> A -> M W U B) (i : nat)
    (l : list A) : M W U (list B) :=
  match l with
  | [] => ret []
  | x :: r => y <- f i x ;; ys <- map_enumerate_m f (S i) r ;; ret (y :: ys)
  end.

(** [start + int(((i + 1) / total) * (end - start))] *)
Definition stage_progress (extract_start extract_end : Z) (i total : nat)
  : Res Z :=
  res_bind (PyFloat.int_truediv (Z.of_nat i + 1) (Z.of_nat total)) (fun q =>
  res_bind (PyFloat.mul_int q (extract_end - extract_start)) (fun x =>
  res_bind (PyFloat.to_int x) (fun k => Ok (extract_start + k)))).

(* ================================================================= *)
(** ** processors/arc_conv_cb_proc.py *)

Module ArchiveArchiveConverter.

Section WithPlatform.

Variables W U : Type.
Variable P : Platform W.

(** [self.progress_callback], the sink given to the constructor. *)
Variable self_progress_callback : option (Progress U).

Definition Primitive :=
  Path -> Path -> option (Progress U) -> Z -> Z -> M W U unit.

Record FormatEntry := mkEntry {
  extract : Primitive;
  create : Primitive;
  target_suffix : string;
  target_format_name : string
}.

(** [FORMAT_MAP]; a key that is not in the dictionary raises [KeyError]. *)
Definition FORMAT_MAP (source_format : ArchiveFormat) : option FormatEntry :=
  match source_format with
  | CBR => Some (mkEntry (extract_rar_archive P) (create_zip_archive P) ".cbz" "CBZ")
  | CBZ => Some (mkEntry (extract_zip_archive P) (create_rar_archive P) ".cbr" "CBR")
  | PDF => None
  end.

Definition detect_archive_format (archive_path : Path)
  : M W U (option ArchiveFormat) :=
  ask (ArchiveConverter.detect_archive_format P archive_path).

Definition convert_archive (source_path : Path)
    (source_format : option ArchiveFormat)
    (output_path : option Path)
    (progress_callback : option (Progress U))
    (status_callback : option (Status U))
    (extract_start extract_end create_start create_end : Z) : M W U Path :=
  entry <- match source_format with
           | Some f =>
               match FORMAT_MAP f with
               | Some e => ret e
               | None => raise (mkExn KeyError (detected_repr source_format))
               end
           | None => raise (mkExn KeyError (detected_repr source_format))
           end ;;
  src_exists <- ask (path_exists P source_path) ;;
  if negb src_exists then
    raise (mkExn ArchiveConversionError
             ("Source " ++ detected_str source_format ++ " file not found: "
              ++ PurePath.str source_path))
  else
    detected <- detect_archive_format source_path ;;
    if negb (detected_eqb detected source_format) then
      raise (mkExn ArchiveConversionError
               ("File is not a valid " ++ detected_str source_format
                ++ " archive: " ++ PurePath.str source_path))
    else
      output_path <- match output_path with
                     | Some o => ret o
                     | None => lift_res (PurePath.with_suffix source_path
                                                              (target_suffix entry))
                     end ;;
      r <- catch (
        emit_status status_callback
          ("Extracting " ++ detected_str source_format ++ " archive...") ;;
        temp_path <- perform CallMkdtemp (mkdtemp P) ;;
        finally_
          (emit_progress progress_callback extract_start 100 ;;
           extract entry source_path temp_path progress_callback
                   extract_start extract_end ;;
           emit_progress progress_callback extract_end 100 ;;
           emit_status status_callback "Converting format..." ;;
           create entry temp_path output_path progress_callback
                  create_start create_end ;;
           emit_status status_callback
             ("Packing into " ++ target_format_name entry ++ " archive..."))
          (perform (CallRmtree temp_path) (rmtree P temp_path)) ;;
        emit_status status_callback "Cleaning up temporary files..." ;;
        emit_progress progress_callback 100 100 ;;
        ret output_path) ;;
      match r with
      | Ok p => ret p
      | Raise e =>
          raise (mkExn ArchiveConversionError
                   ("Failed to convert " ++ detected_str source_format ++ " to "
                    ++ target_format_name entry ++ ": " ++ exn_str e))
      end.

(** The condition of the gate of [convert_file]. *)
Definition supported (target_format : string)
    (source_format : option ArchiveFormat) : bool :=
  (String.eqb target_format "cbz" && detected_eqb source_format (Some CBR)
   || String.eqb target_format "cbr" && detected_eqb source_format (Some CBZ))%bool.

(** The statements of the [try] of [convert_file] up to the existence
    check: detection, the gate and the conversion (extraction spans 10 to
    60, creation 60 to 90, the defaults of [convert_archive]). *)
Definition convert_step (file_path : Path) (target_format : string)
    (converted : Path)
    (progress_callback : option (Progress U))
    (status_callback : option (Status U)) : M W U unit :=
  source_format <- detect_archive_format file_path ;;
  if supported target_format source_format then
    emit_status status_callback
      ("Processing " ++ PurePath.name file_path ++ "...") ;;
    convert_archive file_path source_format (Some converted)
                    progress_callback status_callback 10 60 60 90 ;;
    ret tt
  else raise (mkExn ArchiveConversionError unsupported_conversion).

(** [converted_path] is computed before the [try], so a [ValueError] of
    [with_suffix] leaves [convert_file]. Inside the [try], [success] is
    assigned before [unlink] is called: when [unlink] raises, the handler
    only sets [error_message]. *)
Definition convert_file (file_path : Path) (target_format : string)
    (delete_original : bool)
    (progress_callback : option (Progress U))
    (status_callback : option (Status U)) : M W U ConversionResult :=
  let original := file_path in
  converted <- lift_res (PurePath.with_suffix original ("." ++ target_format)) ;;
  let result := mkResult (PurePath.str original) (PurePath.str converted) in
  r <- catch (convert_step file_path target_format converted
                           progress_callback status_callback) ;;
  match r with
  | Raise exc => ret (result false (exn_str exc))
  | Ok _ =>
      success <- ask (path_exists P converted) ;;
      if success then
        if delete_original then
          d <- catch (perform (CallUnlink original) (path_unlink P original)) ;;
          match d with
          | Ok _ => ret (result true "")
          | Raise exc => ret (result true (exn_str exc))
          end
        else ret (result true "")
      else ret (result false (not_created converted))
  end.

(** The loop of [convert_batch], from index [idx] on. *)
Fixpoint convert_batch_from (total_files : nat) (target_format : string)
    (delete_original : bool) (status_callback : option (Status U))
    (idx : nat) (file_paths : list string) (results : list ConversionResult)
  : M W U (list ConversionResult) :=
  match file_paths with
  | [] => ret results
  | file_path :: rest =>
      let is_last_file := Z.of_nat idx =? Z.of_nat total_files - 1 in
      let file_progress_callback :=
        create_per_file_progress_callback self_progress_callback
          (Z.of_nat idx) (Z.of_nat total_files) is_last_file in
      result <- convert_file (PurePath.of_string file_path) target_format
                  delete_original (Some file_progress_callback)
                  (Some (file_status status_callback idx total_files)) ;;
      convert_batch_from total_files target_format delete_original
                         status_callback (S idx) rest (results ++ [result])
  end.

Definition convert_batch (file_paths : list string) (target_format : string)
    (delete_original : bool) (status_callback : option (Status U))
  : M W U (list ConversionResult) :=
  convert_batch_from (List.length file_paths) target_format delete_original
                     status_callback 0 file_paths [].

End WithPlatform.

Arguments FORMAT_MAP {W U}.
Arguments detect_archive_format {W U}.
Arguments convert_archive {W U}.
Arguments convert_step {W U}.
Arguments convert_file {W U}.
Arguments convert_batch_from {W U}.
Arguments convert_batch {W U}.

End ArchiveArchiveConverter.

(* ================================================================= *)
(** ** processors/arc_conv_pdf_proc.py *)

Module PdfArchiveConverter.

Section WithPlatform.

Variables W U : Type.
Variable P : Platform W.

(** [self.progress_callback], the sink given to the constructor. *)
Variable self_progress_callback : option (Progress U).

Definition detect_archive_format (archive_path : Path)
  : M W U (option ArchiveFormat) :=
  ask (ArchiveConverter.detect_archive_format P archive_path).

(** [source_format.upper()]; [None] has no such method. *)
Definition upper_of (source_format : option ArchiveFormat) : Res string :=
  match source_format with
  | Some f => Ok (PyStr.upper (format_str f))
  | None =>
      Raise (mkExn AttributeError "'NoneType' object has no attribute 'upper'")
  end.

(** [a and b], [b] evaluated only when [a] holds. *)
Definition lazy_and (a : bool) (b : Res bool) : Res bool :=
  if a then b else Ok false.

(** The condition of the gate of [convert_file], evaluated left to right
    with the short circuits of [and] and [or]. *)
Definition supported (target_format : string)
    (source_format : option ArchiveFormat) : Res bool :=
  res_bind
    (lazy_and (String.eqb (PyStr.lower target_format) "cbz")
              (res_bind (upper_of source_format) (fun s => Ok (String.eqb s "PDF"))))
    (fun left =>
       if left then Ok true
       else lazy_and (String.eqb (PyStr.lower target_format) "pdf")
                     (res_bind (upper_of source_format)
                               (fun s => Ok (String.eqb s "CBZ")))).

Definition page_image_name (i : nat) : string :=
  "page_" ++ PyStr.of_nat_03d (i + 1) ++ ".png".

Definition convert_pdf_to_cbz (pdf_path : Path) (output_path : option Path)
    (progress_callback : option (Progress U))
    (status_callback : option (Status U))
    (extract_start extract_end create_start create_end : Z) : M W U unit :=
  src_exists <- ask (path_exists P pdf_path) ;;
  if negb src_exists then
    raise (mkExn ArchiveConversionError
             ("Source PDF file not found: " ++ PurePath.str pdf_path))
  else
    detected <- detect_archive_format pdf_path ;;
    if negb (detected_eqb detected (Some PDF)) then
      raise (mkExn ArchiveConversionError
               ("File is not a valid PDF: " ++ PurePath.str pdf_path))
    else
      output_path <- match output_path with
                     | Some o => ret o
                     | None => lift_res (PurePath.with_suffix pdf_path ".cbz")
                     end ;;
      r <- catch (
        emit_status status_callback
          ("Processing " ++ PurePath.name pdf_path ++ "...") ;;
        temp_path <- perform CallMkdtemp (mkdtemp P) ;;
        finally_
          (emit_progress progress_callback extract_start 100 ;;
           emit_status status_callback "Extracting PDF pages..." ;;
           total_pages <- ask_res (fitz_open P pdf_path) ;;
           emit_progress progress_callback (extract_start + 20) 100 ;;
           for_enumerate (fun i _ =>
             let img_path := PurePath.joinpath temp_path (page_image_name i) in
             perform (CallRenderPage pdf_path i img_path)
                     (fitz_render_page P pdf_path i img_path) ;;
             match progress_callback with
             | Some cb =>
                 if Nat.ltb 0 total_pages then
                   progress <- lift_res (stage_progress extract_start extract_end
                                                        i total_pages) ;;
                   call_cb (cb progress 100)
                 else ret tt
             | None => ret tt
             end) 0 (seq 0 total_pages) ;;
           emit_progress progress_callback create_start 100 ;;
           emit_status status_callback "Packing into CBZ archive..." ;;
           create_zip_archive P temp_path output_path progress_callback
                              create_start create_end ;;
           emit_progress progress_callback create_end 100 ;;
           emit_status status_callback "Cleaning up temporary files...")
          (perform (CallRmtree temp_path) (rmtree P temp_path))) ;;
      match r with
      | Ok _ => ret tt
      | Raise e =>
          raise (mkExn ArchiveConversionError
                   ("Failed to convert PDF to CBZ: " ++ exn_str e))
      end.

Definition no_images_found : string := "No images found in CBZ archive.".

Definition convert_cbz_to_pdf (cbz_path : Path) (output_path : option Path)
    (progress_callback : option (Progress U))
    (status_callback : option (Status U))
    (extract_start extract_end create_start create_end : Z) : M W U unit :=
  src_exists <- ask (path_exists P cbz_path) ;;
  if negb src_exists then
    raise (mkExn ArchiveConversionError
             ("Source CBZ file not found: " ++ PurePath.str cbz_path))
  else
    detected <- detect_archive_format cbz_path ;;
    if negb (detected_eqb detected (Some CBZ)) then
      raise (mkExn ArchiveConversionError
               ("File is not a valid CBZ archive: " ++ PurePath.str cbz_path))
    else
      output_path <- match output_path with
                     | Some o => ret o
                     | None => lift_res (PurePath.with_suffix cbz_path ".pdf")
                     end ;;
      r <- catch (
        emit_status status_callback
          ("Processing " ++ PurePath.name cbz_path ++ "...") ;;
        temp_path <- perform CallMkdtemp (mkdtemp P) ;;
        finally_
          (namelist <- ask_res (zip_namelist P cbz_path) ;;
           let image_files :=
             PyStr.sort (filter ArchiveConverter.is_image_name namelist) in
           let total_images := List.length image_files in
           (if Nat.eqb total_images 0
            then raise (mkExn ArchiveConversionError no_images_found)
            else ret tt) ;;
           emit_status status_callback "Extracting images from CBZ..." ;;
           extracted_images <-
             map_enumerate_m (fun i img_name =>
               let img_path :=
                 PurePath.joinpath temp_path
                   (PurePath.name (PurePath.of_string img_name)) in
               ask_res (zip_open_member P cbz_path img_name) ;;
               perform (CallOpenWb img_path) (open_wb P img_path) ;;
               data <- ask_res (zip_read_member P cbz_path img_name) ;;
               perform (CallWriteBytes img_path) (write_bytes P img_path data) ;;
               match progress_callback with
               | Some cb =>
                   progress <- lift_res (stage_progress extract_start extract_end
                                                        i total_images) ;;
                   call_cb (cb progress 100)
               | None => ret tt
               end ;;
               ret img_path) 0 image_files ;;
           pil_images <- map_m (fun img_file => ask_res (pil_open_rgb P img_file))
                               extracted_images ;;
           (match pil_images with
            | [] => raise (mkExn ArchiveConversionError
                             "No valid images to convert to PDF.")
            | _ :: _ => ret tt
            end) ;;
           emit_status status_callback "Converting images to PDF..." ;;
           perform (CallSavePdf output_path)
                   (pil_save_pdf P pil_images output_path) ;;
           emit_progress progress_callback create_start 100 ;;
           emit_status status_callback "Creating PDF file..." ;;
           emit_progress progress_callback create_end 100 ;;
           emit_status status_callback "Cleaning up temporary files...")
          (perform (CallRmtree temp_path) (rmtree P temp_path))) ;;
      match r with
      | Ok _ => ret tt
      | Raise e =>
          raise (mkExn ArchiveConversionError
                   ("Failed to convert CBZ to PDF: " ++ exn_str e))
      end.

(** The statements of the [try] of [convert_file] up to the existence
    check (extraction spans 10 to 80, creation 90 to 100, the defaults of
    the two conversions). *)
Definition convert_step (file_path : Path) (target_format : string)
    (converted : Path)
    (progress_callback : option (Progress U))
    (status_callback : option (Status U)) : M W U unit :=
  source_format <- detect_archive_format file_path ;;
  ok <- lift_res (supported target_format source_format) ;;
  if ok then
    emit_status status_callback "Initializing PDF converter..." ;;
    if String.eqb (PyStr.lower target_format) "cbz" then
      convert_pdf_to_cbz file_path (Some converted) progress_callback
                         status_callback 10 80 90 100
    else
      convert_cbz_to_pdf file_path (Some converted) progress_callback
                         status_callback 10 80 90 100
  else raise (mkExn ArchiveConversionError unsupported_conversion).

Definition convert_file (file_path : Path) (target_format : string)
    (delete_original : bool)
    (progress_callback : option (Progress U))
    (status_callback : option (Status U)) : M W U ConversionResult :=
  let original := file_path in
  converted <- lift_res (PurePath.with_suffix original
                           ("." ++ PyStr.lower target_format)) ;;
  let result := mkResult (PurePath.str original) (PurePath.str converted) in
  r <- catch (convert_step file_path target_format converted
                           progress_callback status_callback) ;;
  match r with
  | Raise exc => ret (result false (exn_str exc))
  | Ok _ =>
      success <- ask (path_exists P converted) ;;
      if success then
        if delete_original then
          d <- catch (perform (CallUnlink original) (path_unlink P original)) ;;
          match d with
          | Ok _ => ret (result true "")
          | Raise exc => ret (result true (exn_str exc))
          end
        else ret (result true "")
      else ret (result false (not_created converted))
  end.

Fixpoint convert_batch_from (total_files : nat) (target_format : string)
    (delete_original : bool) (status_callback : option (Status U))
    (idx : nat) (file_paths : list string) (results : list ConversionResult)
  : M W U (list ConversionResult) :=
  match file_paths with
  | [] => ret results
  | file_path :: rest =>
      let is_last_file := Z.of_nat idx =? Z.of_nat total_files - 1 in
      let file_progress_callback :=
        create_per_file_progress_callback self_progress_callback
          (Z.of_nat idx) (Z.of_nat total_files) is_last_file in
      result <- convert_file (PurePath.of_string file_path) target_format
                  delete_original (Some file_progress_callback)
                  (Some (file_status status_callback idx total_files)) ;;
      convert_batch_from total_files target_format delete_original
                         status_callback (S idx) rest (results ++ [result])
  end.

Definition convert_batch (file_paths : list string) (target_format : string)
    (delete_original : bool) (status_callback : option (Status U))
  : M W U (list ConversionResult) :=
  convert_batch_from (List.length file_paths) target_format delete_original
                     status_callback 0 file_paths [].

End WithPlatform.

Arguments detect_archive_format {W U}.
Arguments convert_pdf_to_cbz {W U}.
Arguments convert_cbz_to_pdf {W U}.
Arguments convert_step {W U}.
Arguments convert_file {W U}.
Arguments convert_batch_from {W U}.
Arguments convert_batch {W U}.

End PdfArchiveConverter.

(* ================================================================= *)
(** ** A concrete platform *)

(** A small file system in which the code can be run: files are keyed by
    [str(path)]; an archive holds named members; an image is a file whose
    data starts with ["img:"]. *)
Module Sim.

Inductive Node :=
| Zip (members : list (string * Bytes))
| Rar (members : list (string * Bytes))
| Pdf (page_count : nat)
| File (data : Bytes)
| Dir.

Record World := mkWorld {
  files : list (string * Node);
  rar_installed : bool;
  undeletable : list string;
  temp_counter : nat
}.

Fixpoint lookup {A} (k : string) (l : list (string * A)) : option A :=
  match l with
  | [] => None
  | (k', v) :: r => if String.eqb k k' then Some v else lookup k r
  end.

Definition remove {A} (k : string) (l : list (string * A)) : list (string * A) :=
  filter (fun kv => negb (String.eqb k (fst kv))) l.

Definition node_at (p : Path) (w : World) : option Node :=
  lookup (PurePath.str p) (files w).

Definition put (p : Path) (n : Node) (w : World) : World :=
  mkWorld (remove (PurePath.str p) (files w) ++ [(PurePath.str p, n)])
          (rar_installed w) (undeletable w) (temp_counter w).

Definition under (d : Path) (k : string) : bool :=
  prefix (PurePath.str d ++ "/") k.

Definition no_such_file (what : string) : Exn :=
  mkExn FileNotFoundError ("[Errno 2] No such file or directory: '" ++ what ++ "'").

Definition members_of (d : Path) (w : World) : list (string * Bytes) :=
  flat_map (fun kv =>
    match snd kv with
    | File data =>
        if under d (fst kv)
        then [(substring (String.length (PurePath.str d) + 1)
                         (String.length (fst kv)) (fst kv), data)]
        else []
    | _ => []
    end) (files w).

Definition zip_members (p : Path) (w : World) : Res (list (string * Bytes)) :=
  match node_at p w with
  | Some (Zip ms) => Ok ms
  | Some _ => Raise (mkExn LibraryError "File is not a zip file")
  | None => Raise (no_such_file (PurePath.str p))
  end.

Definition rar_members (p : Path) (w : World) : Res (list (string * Bytes)) :=
  match node_at p w with
  | Some (Rar ms) => Ok ms
  | Some _ => Raise (mkExn LibraryError "Not a RAR file")
  | None => Raise (no_such_file (PurePath.str p))
  end.

Definition member (ms : Res (list (string * Bytes))) (n : string) : Res Bytes :=
  res_bind ms (fun l =>
  match lookup n l with
  | Some data => Ok data
  | None => Raise (mkExn KeyError ("There is no item named '" ++ n ++ "' in the archive"))
  end).

Definition extract_to (ms : Res (list (string * Bytes))) (n : string)
    (dest : Path) (w : World) : Res unit * World :=
  match member ms n with
  | Ok data => (Ok tt, put (PurePath.joinpath dest n) (File data) w)
  | Raise e => (Raise e, w)
  end.

Definition platform : Platform World := {|
  path_exists := fun p w =>
    match node_at p w with Some _ => true | None => false end;
  path_is_dir := fun p w =>
    match node_at p w with Some Dir => true | _ => false end;
  path_stat_size := fun p w =>
    match node_at p w with
    | Some (File data) => Ok (Z.of_nat (String.length data))
    | Some _ => Ok 4096
    | None => Raise (no_such_file (PurePath.str p))
    end;
  path_unlink := fun p w =>
    match node_at p w with
    | Some _ =>
        if existsb (String.eqb (PurePath.str p)) (undeletable w)
        then (Raise (mkExn OSError ("[Errno 13] Permission denied: '"
                                      ++ PurePath.str p ++ "'")), w)
        else (Ok tt, mkWorld (remove (PurePath.str p) (files w))
                             (rar_installed w) (undeletable w) (temp_counter w))
    | None => (Raise (no_such_file (PurePath.str p)), w)
    end;
  os_walk_files := fun d w =>
    flat_map (fun kv =>
      match snd kv with
      | Dir => []
      | _ => if under d (fst kv) then [PurePath.of_string (fst kv)] else []
      end) (files w);
  open_wb := fun p w => (Ok tt, put p (File "") w);
  write_bytes := fun p data w => (Ok tt, put p (File data) w);
  mkdtemp := fun w =>
    let d := PurePath.of_string ("/tmp/tmp" ++ PyStr.of_nat (temp_counter w)) in
    (Ok d, mkWorld (files w ++ [(PurePath.str d, Dir)]) (rar_installed w)
                   (undeletable w) (S (temp_counter w)));
  rmtree := fun d w =>
    (Ok tt, mkWorld (filter (fun kv => negb (String.eqb (PurePath.str d) (fst kv)
                                             || under d (fst kv))) (files w))
                    (rar_installed w) (undeletable w) (temp_counter w));
  zip_is_zipfile := fun p w =>
    Ok match node_at p w with Some (Zip _) => true | _ => false end;
  zip_namelist := fun p w => res_bind (zip_members p w) (fun ms => Ok (map fst ms));
  zip_getinfo_size := fun p n w =>
    res_bind (member (zip_members p w) n) (fun data =>
    Ok (Z.of_nat (String.length data)));
  zip_extract := fun p n dest w => extract_to (zip_members p w) n dest w;
  zip_open_member := fun p n w =>
    res_bind (member (zip_members p w) n) (fun _ => Ok tt);
  zip_read_member := fun p n w => member (zip_members p w) n;
  zip_create := fun p w => (Ok tt, put p (Zip []) w);
  zip_write := fun p file arcname w =>
    match node_at p w, node_at file w with
    | Some (Zip ms), Some (File data) =>
        (Ok tt, put p (Zip (ms ++ [(PurePath.str arcname, data)])) w)
    | _, _ => (Raise (no_such_file (PurePath.str file)), w)
    end;
  zip_close := fun p w => (Ok tt, w);
  rar_is_rarfile := fun p w =>
    Ok match node_at p w with Some (Rar _) => true | _ => false end;
  rar_namelist := fun p w => res_bind (rar_members p w) (fun ms => Ok (map fst ms));
  rar_getinfo_size := fun p n w =>
    res_bind (member (rar_members p w) n) (fun data =>
    Ok (Z.of_nat (String.length data)));
  rar_extract := fun p n dest w => extract_to (rar_members p w) n dest w;
  run_rar_probe := fun w =>
    if rar_installed w then Ok tt else Raise (no_such_file "rar");
  run_rar_add := fun p src w =>
    if rar_installed w
    then (Ok (0, ""), put p (Rar (members_of src w)) w)
    else (Raise (no_such_file "rar"), w);
  fitz_open := fun p w =>
    match node_at p w with
    | Some (Pdf n) => Ok n
    | Some _ => Raise (mkExn LibraryError "Failed to open file")
    | None => Raise (mkExn LibraryError ("no such file: '" ++ PurePath.str p ++ "'"))
    end;
  fitz_render_page := fun pdf i img w => (Ok tt, put img (File "img:page") w);
  pil_open_rgb := fun p w =>
    match node_at p w with
    | Some (File data) =>
        if prefix "img:" data then Ok data
        else Raise (mkExn LibraryError
                      ("cannot identify image file '" ++ PurePath.str p ++ "'"))
    | _ => Raise (no_such_file (PurePath.str p))
    end;
  pil_save_pdf := fun images out w => (Ok tt, put out (Pdf (List.length images)) w)
|}.

(** What the callbacks of the caller record. *)
Inductive Signal :=
| SigProgress (current total : Z)
| SigStatus (message : string).

Definition UI := list Signal.

Definition progress_sink : Progress UI :=
  fun current total u => (Ok tt, (u ++ [SigProgress current total])%list).

Definition status_sink : Status UI :=
  fun message u => (Ok tt, (u ++ [SigStatus message])%list).

Definition start (w : World) : St World UI := mkSt w [] [].

End Sim.

(* ================================================================= *)
(** ** Definitions that follow the specification's words *)

(** From the specification (section 4.4): [round(100 * current / total)],
    rounding to the nearest integer (a half rounds up), then clamped to
    [0, 100]. Used only to compare with [callback_percent]. *)
Definition spec_rounded_percent (current total : Z) : Z :=
  Z.min 100 (Z.max 0 ((2 * (100 * current) + total) / (2 * total))).

(** The double [1.0]. *)
Definition float_one : PyFloat.float := S754_finite false 4503599627370496 (-52).

(** [x] is [100 * current / total] truncated, or one less where the
    quotient is an integer. *)
Definition truncation_check (current total : Z) : bool :=
  match raw_percentage current total with
  | Ok x =>
      ((x =? 100 * current / total)
       || ((x =? 100 * current / total - 1) && ((100 * current) mod total =? 0)))%bool
  | Raise _ => false
  end.

Definition truncation_grid (n : nat) : bool :=
  forallb (fun t =>
    forallb (fun c => truncation_check (Z.of_nat c) (Z.of_nat t)) (seq 0 (S t)))
    (seq 1 n).

(* ================================================================= *)
(** ** The two orchestrators under one name *)

(** processors/arc_convert_worker.py builds one of the two converters and
    calls its [convert_batch]. *)
Inductive Converter := UseArchiveArchiveConverter | UsePdfArchiveConverter.

Section Dispatch.

Variables W U : Type.
Variable P : Platform W.

(** The suffix handed to [with_suffix] by [convert_file]. *)
Definition converter_suffix (c : Converter) (target_format : string) : string :=
  match c with
  | UseArchiveArchiveConverter => "." ++ target_format
  | UsePdfArchiveConverter => "." ++ PyStr.lower target_format
  end.

Definition converter_convert_step (c : Converter)
  : Path -> string -> Path -> option (Progress U) -> option (Status U)
    -> M W U unit :=
  match c with
  | UseArchiveArchiveConverter => ArchiveArchiveConverter.convert_step P
  | UsePdfArchiveConverter => PdfArchiveConverter.convert_step P
  end.

Definition converter_convert_file (c : Converter)
  : Path -> string -> bool -> option (Progress U) -> option (Status U)
    -> M W U ConversionResult :=
  match c with
  | UseArchiveArchiveConverter => ArchiveArchiveConverter.convert_file P
  | UsePdfArchiveConverter => PdfArchiveConverter.convert_file P
  end.

Definition converter_convert_batch_from (c : Converter)
    (self_progress_callback : option (Progress U))
  : nat -> string -> bool -> option (Status U) -> nat -> list string
    -> list ConversionResult -> M W U (list ConversionResult) :=
  match c with
  | UseArchiveArchiveConverter =>
      ArchiveArchiveConverter.convert_batch_from P self_progress_callback
  | UsePdfArchiveConverter =>
      PdfArchiveConverter.convert_batch_from P self_progress_callback
  end.

Definition converter_convert_batch (c : Converter)
    (self_progress_callback : option (Progress U))
  : list string -> string -> bool -> option (Status U)
    -> M W U (list ConversionResult) :=
  match c with
  | UseArchiveArchiveConverter =>
      ArchiveArchiveConverter.convert_batch P self_progress_callback
  | UsePdfArchiveConverter =>
      PdfArchiveConverter.convert_batch P self_progress_callback
  end.

(** What [convert_file] does once the conversion step has returned [r] in
    state [s1]. *)
Definition conclude (original converted : Path) (delete_original : bool)
    (r : Res unit) (s1 : St W U) : Res ConversionResult * St W U :=
  let result := mkResult (PurePath.str original) (PurePath.str converted) in
  match r with
  | Raise exc => (Ok (result false (exn_str exc)), s1)
  | Ok _ =>
      if path_exists P converted (world s1) then
        if delete_original then
          let (d, w2) := path_unlink P original (world s1) in
          (Ok (result true match d with Ok _ => "" | Raise exc => exn_str exc end),
           mkSt w2 (calls s1 ++ [CallUnlink original]) (ui s1))
        else (Ok (result true ""), s1)
      else (Ok (result false (not_created converted)), s1)
  end.

End Dispatch.

Arguments converter_convert_step {W U}.
Arguments converter_convert_file {W U}.
Arguments converter_convert_batch_from {W U}.
Arguments converter_convert_batch {W U}.
Arguments conclude {W U}.

(* ================================================================= *)
(** ** Properties of runs *)

(** The run [m] adds to the call log only calls that satisfy [Q]. *)
Definition logs_only {W U A} (Q : Call -> Prop) (m : M W U A) : Prop :=
  forall s, exists l, calls (snd (m s)) = (calls s ++ l)%list /\ Forall Q l.

(** The run [m] raises from every state. *)
Definition fails {W U A} (m : M W U A) : Prop :=
  forall s, exists e s', m s = (Raise e, s').

Definition not_unlink (c : Call) : Prop :=
  match c with CallUnlink _ => False | _ => True end.

(* ================================================================= *)
(** ** Concrete worlds *)

Definition sample_world : Sim.World :=
  Sim.mkWorld
    [("/c/a.cbr", Sim.Rar [("1.png", "img:1"); ("2.png", "img:2")]);
     ("/c/b.cbz", Sim.Zip [("readme.txt", "x")]);
     ("/c/e.pdf", Sim.Pdf 0);
     ("/c/p.pdf", Sim.Pdf 3);
     ("/c/z.cbz", Sim.Zip [("2.png", "img:2"); ("d/1.jpg", "img:1");
                           ("ComicInfo.xml", "<x/>")])]
    true [] 0.


(** [/c/z.cbr] is already there and the [rar] tool is not installed. *)
Definition world_without_rar : Sim.World :=
  Sim.mkWorld
    [("/c/z.cbz", Sim.Zip [("1.png", "img:1"); ("2.png", "img:2")]);
     ("/c/z.cbr", Sim.Rar [("old.png", "img:0")])]
    false [] 0.

(** [/c/z.cbz] cannot be removed. *)
Definition world_undeletable : Sim.World :=
  Sim.mkWorld
    [("/c/z.cbz", Sim.Zip [("1.png", "img:1"); ("2.png", "img:2")])]
    true ["/c/z.cbz"] 0.

Definition z_cbz : Path := PurePath.of_string "/c/z.cbz".
Definition z_cbr : Path := PurePath.of_string "/c/z.cbr".

(** The result and the final state of a run that returned. *)
Definition result_of {S} (x : Res ConversionResult * S) : ConversionResult :=
  match fst x with
  | Ok r => r
  | Raise _ => mkResult "" "" false ""
  end.

Definition run_undeletable : Res ConversionResult * St Sim.World Sim.UI :=
  converter_convert_file Sim.platform UseArchiveArchiveConverter z_cbz "cbr"
    true None None (Sim.start world_undeletable).

(** What [create_rar_archive] raises when the tool is missing. *)
Definition tool_missing_error : Exn :=
  mkExn RuntimeError ("Failed to create RAR archive: " ++ rar_tool_not_found).

(** The concrete platform on a machine that has no [rar] at all. *)
Definition platform_without_rar : Platform Sim.World := {|
  path_exists := path_exists Sim.platform;
  path_is_dir := path_is_dir Sim.platform;
  path_stat_size := path_stat_size Sim.platform;
  path_unlink := path_unlink Sim.platform;
  os_walk_files := os_walk_files Sim.platform;
  open_wb := open_wb Sim.platform;
  write_bytes := write_bytes Sim.platform;
  mkdtemp := mkdtemp Sim.platform;
  rmtree := rmtree Sim.platform;
  zip_is_zipfile := zip_is_zipfile Sim.platform;
  zip_namelist := zip_namelist Sim.platform;
  zip_getinfo_size := zip_getinfo_size Sim.platform;
  zip_extract := zip_extract Sim.platform;
  zip_open_member := zip_open_member Sim.platform;
  zip_read_member := zip_read_member Sim.platform;
  zip_create := zip_create Sim.platform;
  zip_write := zip_write Sim.platform;
  zip_close := zip_close Sim.platform;
  rar_is_rarfile := rar_is_rarfile Sim.platform;
  rar_namelist := rar_namelist Sim.platform;
  rar_getinfo_size := rar_getinfo_size Sim.platform;
  rar_extract := rar_extract Sim.platform;
  run_rar_probe := fun _ => Raise (Sim.no_such_file "rar");
  run_rar_add := fun _ _ w => (Raise (Sim.no_such_file "rar"), w);
  fitz_open := fitz_open Sim.platform;
  fitz_render_page := fitz_render_page Sim.platform;
  pil_open_rgb := pil_open_rgb Sim.platform;
  pil_save_pdf := pil_save_pdf Sim.platform
|}.

(** [str(e)] of the [AttributeError] raised by [None.upper()]. *)
Definition none_has_no_upper : string :=
  "'NoneType' object has no attribute 'upper'".

Definition not_save_pdf (c : Call) : Prop :=
  match c with CallSavePdf _ => False | _ => True end.

(* ================================================================= *)
(** ** Vocabulary for the properties of validation *)

(** [Path(file_name).name.lower() == 'comicinfo.xml'] *)
Definition entry_is_metadata (file_name : string) : bool :=
  String.eqb (PyStr.lower (PurePath.name (PurePath.of_string file_name)))
             "comicinfo.xml".

(** [len(Path(file_name).parts) > 1] *)
Definition entry_in_folder (file_name : string) : bool :=
  Nat.ltb 1 (PurePath.parts_len (PurePath.of_string file_name)).

(** The size [getinfo] gives for an entry, nothing when it raises. *)
Definition known_size (getinfo : string -> Res Z) (file_name : string) : Z :=
  match getinfo file_name with
  | Ok file_size => file_size
  | Raise _ => 0
  end.

Definition sum_sizes (getinfo : string -> Res Z) (names : list string) : Z :=
  fold_right (fun n acc => known_size getinfo n + acc) 0 names.

(** The entry list and the size lookup of a ZIP or RAR archive. *)
Definition archive_namelist {W} (P : Platform W) (f : ArchiveFormat)
  : Path -> W -> Res (list string) :=
  match f with
  | CBR => rar_namelist P
  | _ => zip_namelist P
  end.

Definition archive_getinfo_size {W} (P : Platform W) (f : ArchiveFormat)
  : Path -> string -> W -> Res Z :=
  match f with
  | CBR => rar_getinfo_size P
  | _ => zip_getinfo_size P
  end.

(* ================================================================= *)
(** ** Vocabulary for the properties of the archive helpers *)

(** The call by which an entry of a ZIP or RAR archive is extracted. *)
Definition extract_call (f : ArchiveFormat) (archive : Path) (dest : Path)
    (member : string) : Call :=
  match f with
  | CBR => CallRarExtract archive member dest
  | _ => CallZipExtract archive member dest
  end.

(** What [create_zip_archive] logs for one file of the walk: the write
    under the relative name, nothing when the file is not under the
    source directory. *)
Definition zip_write_calls (source_path zip_path : Path) (file_path : Path)
  : list Call :=
  match PurePath.relative_to file_path source_path with
  | Ok relative_path => [CallZipWrite zip_path file_path relative_path]
  | Raise _ => []
  end.

(** One turn of the loop of [create_zip_archive], for the file at index
    [i] of [total_files]. *)
Definition create_zip_turn {W U} (P : Platform W) (source_path zip_path : Path)
    (progress_callback : option (Progress U)) (start_progress end_progress : Z)
    (total_files : nat) (i : nat) (file_path : Path) : M W U unit :=
  relative_path <- lift_res (PurePath.relative_to file_path source_path) ;;
  perform (CallZipWrite zip_path file_path relative_path)
          (zip_write P zip_path file_path relative_path) ;;
  match progress_callback with
  | Some cb =>
      if Nat.ltb 0 total_files then
        current_progress <-
          lift_res (interpolate start_progress end_progress i total_files) ;;
        call_cb (cb current_progress (Z.of_nat total_files))
      else ret tt
  | None => ret tt
  end.

(** The [RuntimeError] in which [create_zip_archive] wraps an exception. *)
Definition zip_creation_error (e : Exn) : Exn :=
  mkExn RuntimeError ("Failed to create ZIP archive: " ++ exn_str e).

(** The [RuntimeError] in which [create_rar_archive] wraps an exception. *)
Definition rar_creation_error (e : Exn) : Exn :=
  mkExn RuntimeError ("Failed to create RAR archive: " ++ exn_str e).

(* ================================================================= *)
(** ** Vocabulary for the scope of the temporary directory *)

(** A call other than creating or removing a temporary directory. *)
Definition inside_scope (c : Call) : Prop :=
  match c with
  | CallMkdtemp | CallRmtree _ => False
  | _ => True
  end.

(** The calls [l] made from world [w] use no temporary directory, or
    fail to create one, or create one, work, and remove that same
    directory as their last call. *)
Definition scoped_log {W} (P : Platform W) (w : W) (l : list Call) : Prop :=
  l = []
  \/ (exists e w1, mkdtemp P w = (Raise e, w1) /\ l = [CallMkdtemp])
  \/ (exists d w1 mid,
        mkdtemp P w = (Ok d, w1)
        /\ l = (CallMkdtemp :: mid ++ [CallRmtree d])%list
        /\ Forall inside_scope mid).

Definition scoped {W U A} (P : Platform W) (m : M W U A) : Prop :=
  forall s, exists l,
    calls (snd (m s)) = (calls s ++ l)%list /\ scoped_log P (world s) l.

(** The run [m] leaves the world and the call log as they are. *)
Definition silent {W U A} (m : M W U A) : Prop :=
  forall s, world (snd (m s)) = world s /\ calls (snd (m s)) = calls s.

(* ================================================================= *)
(** ** What reaches the callbacks *)

(** The run [m] keeps [J] on the callbacks' state. *)
Definition ui_keeps {W U A} (J : U -> Prop) (m : M W U A) : Prop :=
  forall s, J (ui s) -> J (ui (snd (m s))).

(** Every call of the callback keeps [J]. *)
Definition progress_keeps {U} (J : U -> Prop) (cb : option (Progress U)) : Prop :=
  match cb with
  | Some f => forall current total u, J u -> J (snd (f current total u))
  | None => True
  end.

Definition status_keeps {U} (J : U -> Prop) (cb : option (Status U)) : Prop :=
  match cb with
  | Some f => forall message u, J u -> J (snd (f message u))
  | None => True
  end.

(** [f"File {k}/{n}: {msg}"] *)
Definition file_message (k n : nat) (msg : string) : string :=
  "File " ++ PyStr.of_nat k ++ "/" ++ PyStr.of_nat n ++ ": " ++ msg.

(* ================================================================= *)
(** ** processors/arc_convert_worker.py *)

(** [s.endswith(suffix)] *)
Definition str_endswith (s suffix : string) : bool :=
  (Nat.leb (String.length suffix) (String.length s)
   && String.eqb (substring (String.length s - String.length suffix)
                            (String.length suffix) s) suffix)%bool.

Module ConversionWorker.

(** The four signals of the class. Emitting one is recorded in the order of
    emission; what the connected slots do with it is the window's
    business. *)
Inductive Signal :=
| progress (current total : Z)
| result (results : list ConversionResult)
| finished
| status (message : string).

(** The attributes set by [__init__], and the signals emitted so far. *)
Record Self := mkSelf {
  file_paths : list string;
  target_format : string;
  delete_original : bool;
  conversion_done : bool;
  last_progress_percent : Z;
  emitted : list Signal
}.

Definition __init__ (file_paths : list string) (target_format : string)
    (delete_original : bool) : Self :=
  mkSelf file_paths target_format delete_original false (-1) [].

Definition emit (sig : Signal) (self : Self) : Self :=
  mkSelf (file_paths self) (target_format self) (delete_original self)
         (conversion_done self) (last_progress_percent self)
         (emitted self ++ [sig]).

Definition set_last_progress_percent (percent : Z) (self : Self) : Self :=
  mkSelf (file_paths self) (target_format self) (delete_original self)
         (conversion_done self) percent (emitted self).

Definition set_conversion_done (self : Self) : Self :=
  mkSelf (file_paths self) (target_format self) (delete_original self)
         true (last_progress_percent self) (emitted self).

Definition emit_progress : Progress Self :=
  fun current total self =>
    if 0 <? total then
      match raw_percentage current total with
      | Ok percent =>
          if ((1 <=? Z.abs (percent - last_progress_percent self))
              || (percent =? 100))%bool
          then (Ok tt, emit (progress current total)
                         (set_last_progress_percent percent self))
          else (Ok tt, self)
      | Raise e => (Raise e, self)
      end
    else (Ok tt, emit (progress current total) self).

Definition status_callback : Status Self :=
  fun message self => (Ok tt, emit (status message) self).

(** [self.target_format == "pdf" or
     any(str(f).lower().endswith(".pdf") for f in self.file_paths)] *)
Definition wants_pdf_converter (self : Self) : bool :=
  (String.eqb (target_format self) "pdf"
   || existsb (fun f => str_endswith (PyStr.lower f) ".pdf") (file_paths self))%bool.

Definition starting_message (self : Self) : string :=
  "Starting conversion of " ++ PyStr.of_nat (List.length (file_paths self))
  ++ " file(s)...".

Section WithPlatform.

Variable W : Type.
Variable P : Platform W.

Definition signal (sig : Signal) : M W Self unit :=
  call_cb (fun self => (Ok tt, emit sig self)).

(** The [try] of [run] with its handler. *)
Definition run_conversion (converter : Converter) (self : Self) : M W Self unit :=
  r <- catch (
    results <- converter_convert_batch P converter (Some emit_progress)
                 (file_paths self) (target_format self) (delete_original self)
                 (Some status_callback) ;;
    emit_status (Some status_callback) "Conversion completed successfully." ;;
    signal (result results) ;;
    call_cb (fun self => (Ok tt, set_conversion_done self)) ;;
    signal (progress 100 100)) ;;
  match r with
  | Ok _ => ret tt
  | Raise _ =>
      emit_status (Some status_callback) "Conversion failed." ;;
      signal (result []) ;;
      call_cb (fun self => (Ok tt, set_conversion_done self)) ;;
      signal (progress 100 100)
  end.

Definition run : M W Self unit :=
  fun s =>
    let self := ui s in
    let converter := if wants_pdf_converter self then UsePdfArchiveConverter
                     else UseArchiveArchiveConverter in
    (emit_status (Some status_callback)
       (if wants_pdf_converter self then "Initializing PDF converter..."
        else "Initializing archive converter...") ;;
     emit_status (Some status_callback) (starting_message self) ;;
     finally_ (run_conversion converter self) (signal finished)) s.

End WithPlatform.

Arguments signal {W}.
Arguments run_conversion {W}.
Arguments run {W}.


End ConversionWorker.


(** A recorded signal of the simulated window is a percentage out of 100
    or a message about a numbered file. *)
Definition well_formed_signal (n : nat) (sig : Sim.Signal) : Prop :=
  match sig with
  | Sim.SigProgress p t => t = 100 /\ 0 <= p <= 100
  | Sim.SigStatus m =>
      exists k msg, (1 <= k <= n)%nat /\ m = file_message k n msg
  end.

(* ================================================================= *)
(** * Theorems *)

(* ================================================================= *)
(** ** The per-file progress normaliser *)

Section Normaliser.

Lemma div_eucl_shiftl_self (p : positive) (k : Z) :
  0 <= k -> Z.div_eucl (Z.shiftl (Zpos p) k) (Zpos p) = (2 ^ k, 0).
Proof.
  intros Hk.
  rewrite Z.shiftl_mul_pow2 by assumption.
  pose proof (Z.div_eucl_eq (Zpos p * 2 ^ k) (Zpos p)) as E.
  pose proof (Z.mod_pos_bound (Zpos p * 2 ^ k) (Zpos p)) as B.
  unfold Z.modulo, Z.div in *.
  destruct (Z.div_eucl (Zpos p * 2 ^ k) (Zpos p)) as [q r] eqn:D.
  specialize (E ltac:(lia)). specialize (B ltac:(lia)).
  assert (Hq : q = 2 ^ k) by nia.
  subst q. f_equal. lia.
Qed.

Lemma new_location_zero (m : Z) : new_location m 0 = loc_Exact.
Proof.
  unfold new_location, new_location_even, new_location_odd.
  destruct (Z.even m); reflexivity.
Qed.

(** [t / t] is exactly [1.0], whatever the size of [t]. *)
Lemma int_truediv_self (t : Z) : 0 < t -> PyFloat.int_truediv t t = Ok float_one.
Proof.
  intros Ht. destruct t as [|p|p]; try lia.
  unfold PyFloat.int_truediv, PyFloat.exact, SFdiv, SFdiv_core_binary.
  replace (Z.sub (Z.add (Zdigits2 (Zpos p)) 0) (Z.add (Zdigits2 (Zpos p)) 0))
    with 0 by lia.
  change (Z.min (fexp PyFloat.prec PyFloat.emax 0) (0 - 0)) with (-53).
  change (0 - 0 - -53) with 53.
  cbv iota.
  rewrite div_eucl_shiftl_self by lia.
  rewrite new_location_zero.
  reflexivity.
Qed.

Lemma raw_percentage_self (t : Z) : 0 < t -> raw_percentage t t = Ok 100.
Proof.
  intros Ht. unfold raw_percentage. rewrite (int_truediv_self t Ht).
  reflexivity.
Qed.

Lemma callback_percent_self (t : Z) : 0 < t -> callback_percent t t = Ok 100.
Proof.
  intros Ht. unfold callback_percent.
  destruct (Z.ltb_spec 0 t); try lia.
  rewrite (raw_percentage_self t Ht). reflexivity.
Qed.

(** C4. For a file that is not the last one, the raw pair [(total, total)]
    with [total > 0], and any raw pair whose percentage is 100, reaches the
    sink as [(99, 100)]; for the last file [(total, total)] reaches it as
    [(100, 100)]. *)
Theorem C4_hundred_only_for_last_file
    (U : Type) (sink : Progress U) (file_index total_files total : Z) (u : U) :
  0 < total ->
  create_per_file_progress_callback (Some sink) file_index total_files false
    total total u = sink 99 100 u
  /\ create_per_file_progress_callback (Some sink) file_index total_files true
       total total u = sink 100 100 u
  /\ (forall current total',
        callback_percent current total' = Ok 100 ->
        create_per_file_progress_callback (Some sink) file_index total_files
          false current total' u = sink 99 100 u).
Proof.
  intros Ht. unfold create_per_file_progress_callback.
  rewrite (callback_percent_self total Ht). repeat split.
  intros current total' E. rewrite E. reflexivity.
Qed.

Lemma C4_witness :
  0 < 7
  /\ create_per_file_progress_callback (Some Sim.progress_sink) 0 2 false 7 7 []
     = (Ok tt, [Sim.SigProgress 99 100])
  /\ create_per_file_progress_callback (Some Sim.progress_sink) 1 2 true 7 7 []
     = (Ok tt, [Sim.SigProgress 100 100]).
Proof.
  split; [lia|].
  destruct (C4_hundred_only_for_last_file Sim.UI Sim.progress_sink 0 2 7 []
              ltac:(lia)) as [H1 _].
  destruct (C4_hundred_only_for_last_file Sim.UI Sim.progress_sink 1 2 7 []
              ltac:(lia)) as [_ [H2 _]].
  split; [exact H1 | exact H2].
Defined.

(** C5, as stated, fails: at [(2, 3)] the sink receives 66, where rounding
    to the nearest integer gives 67. *)
Lemma C5_counterexample :
  create_per_file_progress_callback (Some Sim.progress_sink) 0 1 true 2 3 []
  = (Ok tt, [Sim.SigProgress 66 100])
  /\ spec_rounded_percent 2 3 = 67.
Proof. split; vm_compute; reflexivity. Qed.

Lemma truncation_grid_100 : truncation_grid 100 = true.
Proof. vm_compute. reflexivity. Qed.

Lemma truncation_grid_sound (n : nat) (current total : Z) :
  truncation_grid n = true ->
  0 <= current <= total -> 0 < total <= Z.of_nat n ->
  truncation_check current total = true.
Proof.
  intros G Hc Ht. unfold truncation_grid in G.
  rewrite forallb_forall in G.
  specialize (G (Z.to_nat total)).
  rewrite forallb_forall in G.
  specialize (G ltac:(apply in_seq; lia) (Z.to_nat current) ltac:(apply in_seq; lia)).
  rewrite !Z2Nat.id in G by lia. exact G.
Qed.

Lemma truncation_on_grid (current total : Z) :
  0 <= current <= total -> 0 < total <= 100 ->
  truncation_check current total = true.
Proof.
  intros Hc Ht.
  exact (truncation_grid_sound 100 current total truncation_grid_100 Hc Ht).
Qed.

(** C5, amended. The sink receives [(p, 100)] where [p] is
    [int((current / total) * 100)] clamped to [0, 100], with the cap to 99
    applied afterwards for a file that is not the last; [int] truncates the
    double-precision product toward zero. When [total <= 0] the sink
    receives [(0, 100)]. For [0 <= current <= total <= 100] the truncated
    value is [100 * current / total] rounded down, or one less where that
    quotient is an integer. *)
Theorem C5_forwarded_percent_is_truncated
    (U : Type) (sink : Progress U) (file_index total_files : Z)
    (is_last_file : bool) (current total : Z) (u : U) :
  create_per_file_progress_callback (Some sink) file_index total_files
    is_last_file current total u
  = (if 0 <? total then
       match raw_percentage current total with
       | Ok x =>
           let p := Z.min 100 (Z.max 0 x) in
           sink (if (negb is_last_file && (p =? 100))%bool then 99 else p) 100 u
       | Raise e => (Raise e, u)
       end
     else sink 0 100 u)
  /\ (0 <= current <= total -> 0 < total <= 100 ->
      exists x, raw_percentage current total = Ok x
                /\ (x = 100 * current / total
                    \/ (x = 100 * current / total - 1
                        /\ (100 * current) mod total = 0))).
Proof.
  split.
  - unfold create_per_file_progress_callback, callback_percent.
    destruct (0 <? total).
    + destruct (raw_percentage current total); reflexivity.
    + destruct is_last_file; reflexivity.
  - intros Hc Ht. pose proof (truncation_on_grid current total Hc Ht) as T.
    unfold truncation_check in T.
    destruct (raw_percentage current total) as [x|e]; [|discriminate].
    exists x. split; [reflexivity|].
    apply orb_true_iff in T. destruct T as [T|T].
    + left. apply Z.eqb_eq. exact T.
    + right. apply andb_true_iff in T. destruct T as [T1 T2].
      split; apply Z.eqb_eq; assumption.
Qed.

Lemma C5_witness :
  (0 <= 29 <= 100 /\ 0 < 100 <= 100)
  /\ exists x, raw_percentage 29 100 = Ok x
               /\ (x = 100 * 29 / 100
                   \/ (x = 100 * 29 / 100 - 1 /\ (100 * 29) mod 100 = 0)).
Proof.
  split; [lia|].
  exact (proj2 (C5_forwarded_percent_is_truncated Sim.UI Sim.progress_sink 0 1
                  true 29 100 []) ltac:(lia) ltac:(lia)).
Defined.

End Normaliser.

(* ================================================================= *)
(** ** Format detection and validation *)

Section Detection.

Variable W : Type.
Variable P : Platform W.

(** C7. [detect_archive_format] returns a value for every path and every
    world (it is a total function into the three formats and [None], the
    source's unknown), and it decides in this order: a [.pdf] suffix in any
    letter case gives PDF whatever the file holds; otherwise a file that
    [zipfile] accepts gives CBZ; otherwise a file that [rarfile] accepts
    gives CBR; otherwise, and whenever a check raises, the format is
    unknown. *)
Theorem C7_detection_total_and_ordered (archive_path : Path) (w : W) :
  ArchiveConverter.detect_archive_format P archive_path w
  = if String.eqb (PyStr.lower (PurePath.suffix archive_path)) ".pdf"
    then Some PDF
    else match zip_is_zipfile P archive_path w with
         | Ok true => Some CBZ
         | Ok false =>
             match rar_is_rarfile P archive_path w with
             | Ok true => Some CBR
             | Ok false => None
             | Raise _ => None
             end
         | Raise _ => None
         end.
Proof.
  unfold ArchiveConverter.detect_archive_format, ArchiveConverter.detect_attempt.
  destruct (String.eqb _ ".pdf"); [reflexivity|].
  destruct (zip_is_zipfile P archive_path w) as [[|]|e]; cbn; try reflexivity.
  destruct (rar_is_rarfile P archive_path w) as [[|]|e]; reflexivity.
Qed.

(** The loop over the entries never raises, so a report built from an
    archive that opened carries the count the verdict was taken from. *)
Lemma zip_report_invariant (archive_path : Path) (details : Details) (w : W) :
  image_count details = 0 ->
  let '(is_valid, _, d) :=
    ArchiveConverter._validate_zip_archive P archive_path details w in
  is_valid = true <-> 0 < image_count d.
Proof.
  intros H0. unfold ArchiveConverter._validate_zip_archive.
  destruct (zip_namelist P archive_path w) as [l|e].
  - apply Z.ltb_lt.
  - rewrite H0. split; [discriminate | lia].
Qed.

Lemma rar_report_invariant (archive_path : Path) (details : Details) (w : W) :
  image_count details = 0 ->
  let '(is_valid, _, d) :=
    ArchiveConverter._validate_rar_archive P archive_path details w in
  is_valid = true <-> 0 < image_count d.
Proof.
  intros H0. unfold ArchiveConverter._validate_rar_archive.
  destruct (rar_namelist P archive_path w) as [l|e].
  - apply Z.ltb_lt.
  - rewrite H0. split; [discriminate | lia].
Qed.

(** Without that coherence the PDF validator can return a negative verdict
    next to the page count it has already written. *)
Remark pdf_report_when_stat_raises (archive_path : Path) (details : Details)
    (w : W) (n : nat) (e : Exn) :
  fitz_open P archive_path w = Ok n ->
  path_stat_size P archive_path w = Raise e ->
  ArchiveConverter._validate_pdf_file P archive_path details w
  = (false, "PDF",
     mkDetails (Z.of_nat n) (has_metadata details) (has_folders details)
               (image_files details) (total_size details)).
Proof.
  intros Ho Hs. unfold ArchiveConverter._validate_pdf_file.
  rewrite Ho, Hs. reflexivity.
Qed.

(** C6. Every report of [validate_comic_archive] is valid exactly when its
    image count is positive. For a PDF the count is written before the
    file size is read, so the statement supposes what holds of any one
    file system state: a file that [fitz] opened can be [stat]ed. *)
Theorem C6_valid_iff_images (archive_path : Path) (w : W) :
  (forall n, fitz_open P archive_path w = Ok n ->
             exists size, path_stat_size P archive_path w = Ok size) ->
  let '(is_valid, _, details) :=
    ArchiveConverter.validate_comic_archive P archive_path w in
  is_valid = true <-> 0 < image_count details.
Proof.
  intros Hstat. unfold ArchiveConverter.validate_comic_archive.
  destruct (ArchiveConverter.detect_archive_format P archive_path w) as [[| |]|].
  - apply zip_report_invariant. reflexivity.
  - apply rar_report_invariant. reflexivity.
  - unfold ArchiveConverter._validate_pdf_file.
    destruct (fitz_open P archive_path w) as [n|e] eqn:E.
    + destruct (Hstat n eq_refl) as [size Hs]. rewrite Hs. apply Z.ltb_lt.
    + cbn. split; [discriminate | lia].
  - cbn. split; [discriminate | lia].
Qed.

End Detection.

(** A path that is not there, with and without the [.pdf] suffix. *)
Remark detection_of_missing_files :
  ArchiveConverter.detect_archive_format Sim.platform
    (PurePath.of_string "/c/missing.cbz") sample_world = None
  /\ ArchiveConverter.detect_archive_format Sim.platform
       (PurePath.of_string "/c/missing.PDF") sample_world = Some PDF.
Proof. split; reflexivity. Qed.

Lemma C6_witness :
  let '(is_valid, _, details) :=
    ArchiveConverter.validate_comic_archive Sim.platform
      (PurePath.of_string "/c/p.pdf") sample_world in
  is_valid = true <-> 0 < image_count details.
Proof.
  apply (C6_valid_iff_images Sim.World Sim.platform
           (PurePath.of_string "/c/p.pdf") sample_world).
  intros n _. exists 4096. reflexivity.
Defined.

(* ================================================================= *)
(** ** Runs of the execution monad *)

Section Runs.

Variables W U : Type.

Lemma logs_ret {A} Q (a : A) : logs_only Q (ret a : M W U A).
Proof. intros s. exists []. cbn. rewrite app_nil_r. auto. Qed.

Lemma logs_raise {A} Q e : logs_only Q (raise e : M W U A).
Proof. intros s. exists []. cbn. rewrite app_nil_r. auto. Qed.

Lemma logs_lift_res {A} Q (r : Res A) : logs_only Q (lift_res r : M W U A).
Proof. intros s. exists []. cbn. rewrite app_nil_r. auto. Qed.

Lemma logs_ask {A} Q (f : W -> A) : logs_only Q (ask f : M W U A).
Proof. intros s. exists []. cbn. rewrite app_nil_r. auto. Qed.

Lemma logs_ask_res {A} Q (f : W -> Res A) : logs_only Q (ask_res f : M W U A).
Proof. intros s. exists []. cbn. rewrite app_nil_r. auto. Qed.

Lemma logs_call_cb Q (f : U -> Res unit * U) : logs_only Q (call_cb f : M W U unit).
Proof.
  intros s. exists []. unfold call_cb. destruct (f (ui s)). cbn.
  rewrite app_nil_r. auto.
Qed.

Lemma logs_perform {A} (Q : Call -> Prop) c (f : W -> Res A * W) :
  Q c -> logs_only Q (perform c f : M W U A).
Proof.
  intros H s. exists [c]. unfold perform. destruct (f (world s)). cbn. auto.
Qed.

Lemma logs_bind {A B} Q (m : M W U A) (f : A -> M W U B) :
  logs_only Q m -> (forall a, logs_only Q (f a)) -> logs_only Q (bind m f).
Proof.
  intros Hm Hf s. unfold bind. destruct (Hm s) as [l1 [E1 F1]].
  destruct (m s) as [[a|e] s1]; cbn in E1.
  - destruct (Hf a s1) as [l2 [E2 F2]]. exists (l1 ++ l2)%list.
    rewrite E2, E1, app_assoc. split; [reflexivity | apply Forall_app; auto].
  - exists l1. cbn. auto.
Qed.

Lemma logs_bind_ret {A B} Q (a : A) (f : A -> M W U B) :
  logs_only Q (f a) -> logs_only Q (bind (ret a) f).
Proof. intros H s. exact (H s). Qed.

Lemma logs_bind_raise {A B} Q e (f : A -> M W U B) :
  logs_only Q (bind (raise e) f).
Proof. intros s. exists []. cbn. rewrite app_nil_r. auto. Qed.

Lemma logs_catch {A} Q (m : M W U A) : logs_only Q m -> logs_only Q (catch m).
Proof.
  intros Hm s. unfold catch. destruct (Hm s) as [l [E F]].
  destruct (m s) as [r s1]. exists l. auto.
Qed.

Lemma logs_finally {A} Q (body : M W U A) (release : M W U unit) :
  logs_only Q body -> logs_only Q release -> logs_only Q (finally_ body release).
Proof.
  intros Hb Hr. unfold finally_.
  apply logs_bind; [apply logs_catch; exact Hb | intros r].
  apply logs_bind; [exact Hr | intros _]. apply logs_lift_res.
Qed.

Lemma logs_for_enumerate {A} Q (f : nat -> A -> M W U unit) :
  (forall i x, logs_only Q (f i x)) ->
  forall l i, logs_only Q (for_enumerate f i l).
Proof.
  intros Hf l. induction l as [|x r IH]; intros i; cbn.
  - apply logs_ret.
  - apply logs_bind; [apply Hf | intros _; apply IH].
Qed.

Lemma logs_map_m {A B} Q (f : A -> M W U B) :
  (forall x, logs_only Q (f x)) -> forall l, logs_only Q (map_m f l).
Proof.
  intros Hf l. induction l as [|x r IH]; cbn.
  - apply logs_ret.
  - apply logs_bind; [apply Hf | intros y].
    apply logs_bind; [apply IH | intros ys; apply logs_ret].
Qed.

Lemma logs_map_enumerate_m {A B} Q (f : nat -> A -> M W U B) :
  (forall i x, logs_only Q (f i x)) ->
  forall l i, logs_only Q (map_enumerate_m f i l).
Proof.
  intros Hf l. induction l as [|x r IH]; intros i; cbn.
  - apply logs_ret.
  - apply logs_bind; [apply Hf | intros y].
    apply logs_bind; [apply IH | intros ys; apply logs_ret].
Qed.

Lemma logs_emit_progress Q cb current total :
  logs_only Q (emit_progress cb current total : M W U unit).
Proof. destruct cb; cbn; [apply logs_call_cb | apply logs_ret]. Qed.

Lemma logs_emit_status Q cb message :
  logs_only Q (emit_status cb message : M W U unit).
Proof. destruct cb; cbn; [apply logs_call_cb | apply logs_ret]. Qed.

Lemma fails_raise {A} e : fails (raise e : M W U A).
Proof. intros s. exists e, s. reflexivity. Qed.

Lemma fails_bind {A B} (m : M W U A) (f : A -> M W U B) :
  (forall a, fails (f a)) -> fails (bind m f).
Proof.
  intros Hf s. unfold bind. destruct (m s) as [[a|e] s1].
  - apply Hf.
  - exists e, s1. reflexivity.
Qed.

Lemma fails_bind_left {A B} (m : M W U A) (f : A -> M W U B) :
  fails m -> fails (bind m f).
Proof.
  intros Hm s. unfold bind. destruct (Hm s) as [e [s1 E]]. rewrite E.
  exists e, s1. reflexivity.
Qed.

Lemma fails_bind_ret {A B} (a : A) (f : A -> M W U B) :
  fails (f a) -> fails (bind (ret a) f).
Proof. intros H s. exact (H s). Qed.

Lemma fails_catch_reraise {A B} (body : M W U A) (h : Res A -> M W U B) :
  fails body -> (forall e, fails (h (Raise e))) -> fails (bind (catch body) h).
Proof.
  intros Hb Hh s. unfold bind, catch. destruct (Hb s) as [e [s1 E]]. rewrite E.
  apply Hh.
Qed.

Lemma fails_finally {A} (body : M W U A) (release : M W U unit) :
  fails body -> fails (finally_ body release).
Proof.
  intros Hb s. unfold finally_, bind, catch, lift_res.
  destruct (Hb s) as [e [s1 E]]. rewrite E.
  destruct (release s1) as [[[]|e'] s2]; eauto.
Qed.

End Runs.

Create HintDb footprint.

(** One step along a run: the head of the run decides the lemma, so that
    no definition is unfolded on the way. *)
Ltac footprint_step :=
  lazymatch goal with
  | |- logs_only _ (ret _) => apply logs_ret
  | |- logs_only _ (raise _) => apply logs_raise
  | |- logs_only _ (lift_res _) => apply logs_lift_res
  | |- logs_only _ (ask _) => apply logs_ask
  | |- logs_only _ (ask_res _) => apply logs_ask_res
  | |- logs_only _ (call_cb _) => apply logs_call_cb
  | |- logs_only _ (emit_progress _ _ _) => apply logs_emit_progress
  | |- logs_only _ (emit_status _ _) => apply logs_emit_status
  | |- logs_only _ (perform _ _) => apply logs_perform; exact I
  | |- logs_only _ (catch _) => apply logs_catch
  | |- logs_only _ (finally_ _ _) => apply logs_finally
  | |- logs_only _ (for_enumerate _ _ _) => apply logs_for_enumerate; intros
  | |- logs_only _ (map_enumerate_m _ _ _) => apply logs_map_enumerate_m; intros
  | |- logs_only _ (map_m _ _) => apply logs_map_m; intros
  | |- logs_only _ (bind (ret _) _) => apply logs_bind_ret
  | |- logs_only _ (bind (raise _) _) => apply logs_bind_raise
  | |- logs_only _ (bind _ _) => apply logs_bind; [|intros]
  | |- logs_only _ (match ?x with _ => _ end) => destruct x
  end.

Ltac footprint := repeat footprint_step; auto with footprint.

Section Footprints.

Variables W U : Type.
Variable P : Platform W.

Lemma extract_rar_keeps_original src dst cb a b :
  logs_only not_unlink (extract_rar_archive (U := U) P src dst cb a b).
Proof. unfold extract_rar_archive. footprint. Qed.

Lemma extract_zip_keeps_original src dst cb a b :
  logs_only not_unlink (extract_zip_archive (U := U) P src dst cb a b).
Proof. unfold extract_zip_archive. footprint. Qed.

Lemma create_zip_keeps_original src dst cb a b :
  logs_only not_unlink (create_zip_archive (U := U) P src dst cb a b).
Proof. unfold create_zip_archive. footprint. Qed.

Lemma create_rar_keeps_original src dst cb a b :
  logs_only not_unlink (create_rar_archive (U := U) P src dst cb a b).
Proof. unfold create_rar_archive. footprint. Qed.

Hint Resolve extract_rar_keeps_original extract_zip_keeps_original
  create_zip_keeps_original create_rar_keeps_original : footprint.

Lemma convert_archive_keeps_original src fmt out pcb scb a b c d :
  logs_only not_unlink
    (ArchiveArchiveConverter.convert_archive (U := U) P src fmt out pcb scb a b c d).
Proof.
  unfold ArchiveArchiveConverter.convert_archive,
    ArchiveArchiveConverter.detect_archive_format.
  destruct fmt as [[| |]|]; cbn [ArchiveArchiveConverter.FORMAT_MAP];
    footprint;
    cbn [ArchiveArchiveConverter.extract ArchiveArchiveConverter.create];
    auto with footprint.
Qed.

Lemma convert_pdf_to_cbz_keeps_original src out pcb scb a b c d :
  logs_only not_unlink
    (PdfArchiveConverter.convert_pdf_to_cbz (U := U) P src out pcb scb a b c d).
Proof.
  unfold PdfArchiveConverter.convert_pdf_to_cbz,
    PdfArchiveConverter.detect_archive_format.
  footprint.
Qed.

Lemma convert_cbz_to_pdf_keeps_original src out pcb scb a b c d :
  logs_only not_unlink
    (PdfArchiveConverter.convert_cbz_to_pdf (U := U) P src out pcb scb a b c d).
Proof.
  unfold PdfArchiveConverter.convert_cbz_to_pdf,
    PdfArchiveConverter.detect_archive_format.
  footprint.
Qed.

Hint Resolve convert_archive_keeps_original convert_pdf_to_cbz_keeps_original
  convert_cbz_to_pdf_keeps_original : footprint.

(** The conversion step of either orchestrator never calls [unlink]. *)
Lemma convert_step_keeps_original (c : Converter) file target converted pcb scb :
  logs_only not_unlink
    (converter_convert_step (U := U) P c file target converted pcb scb).
Proof.
  destruct c; cbn.
  - unfold ArchiveArchiveConverter.convert_step,
      ArchiveArchiveConverter.detect_archive_format.
    footprint.
  - unfold PdfArchiveConverter.convert_step,
      PdfArchiveConverter.detect_archive_format.
    footprint.
Qed.

Lemma run_bind_ok {A B} (a : A) (f : A -> M W U B) (s : St W U) :
  bind (lift_res (Ok a)) f s = f a s.
Proof. reflexivity. Qed.

Lemma run_bind_catch {A B} (m : M W U A) (f : Res A -> M W U B) (s : St W U) :
  bind (catch m) f s = f (fst (m s)) (snd (m s)).
Proof. unfold bind, catch. destruct (m s). reflexivity. Qed.

(** The statements of [convert_file] after the conversion step. *)
Lemma conclude_run (file converted : Path) (del : bool) (r : Res unit)
    (s1 : St W U) :
  match r return M W U ConversionResult with
  | Raise exc =>
      ret (mkResult (PurePath.str file) (PurePath.str converted) false (exn_str exc))
  | Ok _ =>
      success <- ask (path_exists P converted) ;;
      if success then
        if del then
          d <- catch (perform (CallUnlink file) (path_unlink P file)) ;;
          match d with
          | Ok _ => ret (mkResult (PurePath.str file) (PurePath.str converted) true "")
          | Raise exc =>
              ret (mkResult (PurePath.str file) (PurePath.str converted) true
                            (exn_str exc))
          end
        else ret (mkResult (PurePath.str file) (PurePath.str converted) true "")
      else ret (mkResult (PurePath.str file) (PurePath.str converted) false
                         (not_created converted))
  end s1
  = conclude P file converted del r s1.
Proof.
  unfold conclude. destruct r as [[]|e]; [|reflexivity].
  unfold bind at 1, ask at 1.
  destruct (path_exists P converted (world s1)); [|reflexivity].
  destruct del; [|reflexivity].
  unfold bind, catch, perform, ret.
  destruct (path_unlink P file (world s1)) as [[[]|e] w2]; reflexivity.
Qed.

(** [convert_file] is its conversion step followed by [conclude]. *)
Lemma convert_file_unfold (c : Converter) file target del pcb scb converted
    (s : St W U) :
  PurePath.with_suffix file (converter_suffix c target) = Ok converted ->
  converter_convert_file P c file target del pcb scb s
  = let (r, s1) := converter_convert_step P c file target converted pcb scb s in
    conclude P file converted del r s1.
Proof.
  intros E.
  destruct c;
    cbn [converter_convert_file converter_convert_step converter_suffix] in *;
    [ unfold ArchiveArchiveConverter.convert_file
    | unfold PdfArchiveConverter.convert_file ];
    rewrite E, run_bind_ok, run_bind_catch.
  - destruct (ArchiveArchiveConverter.convert_step P file target converted pcb scb s)
      as [r s1].
    apply conclude_run.
  - destruct (PdfArchiveConverter.convert_step P file target converted pcb scb s)
      as [r s1].
    apply conclude_run.
Qed.

(** When [with_suffix] raises, so does [convert_file], before its [try]. *)
Lemma convert_file_escapes (c : Converter) file target del pcb scb e
    (s : St W U) :
  PurePath.with_suffix file (converter_suffix c target) = Raise e ->
  converter_convert_file P c file target del pcb scb s = (Raise e, s).
Proof.
  intros E.
  destruct c;
    cbn [converter_convert_file converter_convert_step converter_suffix] in *;
    [ unfold ArchiveArchiveConverter.convert_file
    | unfold PdfArchiveConverter.convert_file ];
    rewrite E; reflexivity.
Qed.

End Footprints.

(* ================================================================= *)
(** ** One file: success, failure and the original *)

Section OneFile.

Variables W U : Type.
Variable P : Platform W.

(** What [conclude] adds to the call log, and what it reports. *)
Lemma conclude_spec (file converted : Path) (del : bool) (r : Res unit)
    (s1 : St W U) (res : ConversionResult) (s2 : St W U) :
  conclude P file converted del r s1 = (Ok res, s2) ->
  exists l2,
    calls s2 = (calls s1 ++ l2)%list
    /\ (l2 = []
        \/ l2 = [CallUnlink file] /\ del = true /\ success res = true
           /\ r = Ok tt /\ path_exists P converted (world s1) = true)
    /\ (forall e w2,
          r = Ok tt -> path_exists P converted (world s1) = true -> del = true ->
          path_unlink P file (world s1) = (Raise e, w2) ->
          success res = true /\ error_message res = exn_str e).
Proof.
  unfold conclude. intros H.
  destruct r as [[]|e].
  - destruct (path_exists P converted (world s1)) eqn:X.
    + destruct del.
      * destruct (path_unlink P file (world s1)) as [d w2] eqn:D.
        injection H as <- <-. exists [CallUnlink file]. cbn.
        split; [reflexivity|]. split; [right; repeat split|].
        intros e w2' _ _ _ Hu. injection Hu as -> _. split; reflexivity.
      * injection H as <- <-. exists []. rewrite app_nil_r.
        split; [reflexivity|]. split; [left; reflexivity|]. discriminate.
    + injection H as <- <-. exists []. rewrite app_nil_r.
      split; [reflexivity|]. split; [left; reflexivity|]. discriminate.
  - injection H as <- <-. exists []. rewrite app_nil_r.
    split; [reflexivity|]. split; [left; reflexivity|]. discriminate.
Qed.

(** C1, amended. [convert_file] reports success exactly when its conversion
    step (detection, gate, extraction and packing) returned without an
    exception and the computed output path exists in the state the step
    left; when the step returned and the path does not exist, the result is
    a failure whose message says that the converted path was not created. *)
Theorem C1_success_iff_step_returned_and_output_exists
    (c : Converter) (file : Path) (target : string) (del : bool)
    (pcb : option (Progress U)) (scb : option (Status U)) (s : St W U)
    (converted : Path) :
  PurePath.with_suffix file (converter_suffix c target) = Ok converted ->
  exists r s1 res s2,
    converter_convert_step P c file target converted pcb scb s = (r, s1)
    /\ converter_convert_file P c file target del pcb scb s = (Ok res, s2)
    /\ converted_path res = PurePath.str converted
    /\ (success res = true
        <-> r = Ok tt /\ path_exists P converted (world s1) = true)
    /\ (r = Ok tt -> path_exists P converted (world s1) = false ->
        success res = false /\ error_message res = not_created converted).
Proof.
  intros E. rewrite (convert_file_unfold W U P c file target del pcb scb converted s E).
  destruct (converter_convert_step P c file target converted pcb scb s) as [r s1].
  exists r, s1. unfold conclude.
  destruct r as [[]|e].
  - destruct (path_exists P converted (world s1)) eqn:X.
    + destruct del.
      * destruct (path_unlink P file (world s1)) as [d w2].
        eexists _, _. repeat split; cbn; auto; discriminate.
      * eexists _, _. repeat split; cbn; auto; discriminate.
    + eexists _, _. repeat split; cbn; auto; try discriminate.
      intros [_ H]. discriminate.
  - eexists _, _. repeat split; cbn; auto; try discriminate.
    intros [H _]. discriminate.
Qed.

(** C10, amended. [unlink] is called on nothing but the original, and only
    when deletion was requested, the conversion step returned and the
    output path exists; a failed conversion calls no [unlink]; and when
    [unlink] itself raises, the result keeps [success = true] and carries
    the text of that exception as its error message. *)
Theorem C10_original_removed_only_after_success
    (c : Converter) (file : Path) (target : string) (del : bool)
    (pcb : option (Progress U)) (scb : option (Status U)) (s : St W U)
    (res : ConversionResult) (s2 : St W U) :
  converter_convert_file P c file target del pcb scb s = (Ok res, s2) ->
  exists converted r s1 l,
    PurePath.with_suffix file (converter_suffix c target) = Ok converted
    /\ converter_convert_step P c file target converted pcb scb s = (r, s1)
    /\ calls s2 = (calls s ++ l)%list
    /\ (forall p, In (CallUnlink p) l ->
          p = file /\ del = true /\ success res = true
          /\ r = Ok tt /\ path_exists P converted (world s1) = true)
    /\ (success res = false -> forall p, ~ In (CallUnlink p) l)
    /\ (forall e w2,
          r = Ok tt -> path_exists P converted (world s1) = true -> del = true ->
          path_unlink P file (world s1) = (Raise e, w2) ->
          success res = true /\ error_message res = exn_str e).
Proof.
  intros H.
  destruct (PurePath.with_suffix file (converter_suffix c target))
    as [converted|e] eqn:E.
  2:{ rewrite (convert_file_escapes W U P c file target del pcb scb e s E) in H.
      discriminate. }
  rewrite (convert_file_unfold W U P c file target del pcb scb converted s E) in H.
  destruct (convert_step_keeps_original W U P c file target converted pcb scb s)
    as [l1 [L1 F1]].
  destruct (converter_convert_step P c file target converted pcb scb s)
    as [r s1] eqn:Step.
  cbn [snd] in L1.
  assert (N1 : forall p, ~ In (CallUnlink p) l1).
  { intros p Hin. rewrite Forall_forall in F1. exact (F1 _ Hin). }
  destruct (conclude_spec file converted del r s1 res s2 H) as [l2 [L2 [Shape Fail]]].
  exists converted, r, s1, (l1 ++ l2)%list.
  split; [reflexivity|]. split; [exact Step|].
  split; [rewrite L2, L1; symmetry; apply app_assoc|].
  assert (Only : forall p, In (CallUnlink p) (l1 ++ l2) ->
                   p = file /\ del = true /\ success res = true
                   /\ r = Ok tt /\ path_exists P converted (world s1) = true).
  { intros p Hin. apply in_app_or in Hin. destruct Hin as [Hin|Hin].
    - destruct (N1 p Hin).
    - destruct Shape as [->|[-> Rest]]; [destruct Hin|].
      destruct Hin as [Hin|[]]. injection Hin as <-. split; [reflexivity|exact Rest]. }
  split; [exact Only|].
  split; [|exact Fail].
  intros Hs p Hin. destruct (Only p Hin) as [_ [_ [Ht _]]]. congruence.
Qed.

End OneFile.

Lemma C1_witness :
  exists r s1 res s2,
    converter_convert_step Sim.platform UseArchiveArchiveConverter z_cbz "cbr"
      z_cbr None None (Sim.start world_undeletable) = (r, s1)
    /\ converter_convert_file Sim.platform UseArchiveArchiveConverter z_cbz "cbr"
         false None None (Sim.start world_undeletable) = (Ok res, s2)
    /\ converted_path res = PurePath.str z_cbr
    /\ (success res = true
        <-> r = Ok tt /\ path_exists Sim.platform z_cbr (world s1) = true)
    /\ (r = Ok tt -> path_exists Sim.platform z_cbr (world s1) = false ->
        success res = false /\ error_message res = not_created z_cbr).
Proof.
  exact (C1_success_iff_step_returned_and_output_exists Sim.World Sim.UI
           Sim.platform UseArchiveArchiveConverter z_cbz "cbr" false None None
           (Sim.start world_undeletable) z_cbr eq_refl).
Defined.

(** C1, as stated, fails: [/c/z.cbr] exists before and after the packing
    step, the [rar] tool is missing, and the result is a failure although
    the output path exists on disk. *)
Lemma C1_counterexample :
  PurePath.with_suffix z_cbz ".cbr" = Ok z_cbr
  /\ exists res s2,
       ArchiveArchiveConverter.convert_file Sim.platform z_cbz "cbr" false
         None None (Sim.start world_without_rar) = (Ok res, s2)
       /\ success res = false
       /\ path_exists Sim.platform z_cbr (world s2) = true
       /\ error_message res
          = "Failed to convert CBZ to CBR: Failed to create RAR archive: "
            ++ rar_tool_not_found.
Proof.
  split; [reflexivity|].
  eexists _, _. split; [vm_compute; reflexivity|].
  repeat split; vm_compute; reflexivity.
Qed.

(** C10, as stated, fails in its last part: when [unlink] raises after a
    successful conversion the result has [success = true], which no
    conversion failure has. *)
Lemma C10_counterexample :
  exists res s2,
    ArchiveArchiveConverter.convert_file Sim.platform z_cbz "cbr" true
      None None (Sim.start world_undeletable) = (Ok res, s2)
    /\ success res = true
    /\ error_message res = "[Errno 13] Permission denied: '/c/z.cbz'"
    /\ path_exists Sim.platform z_cbr (world s2) = true
    /\ path_exists Sim.platform z_cbz (world s2) = true.
Proof.
  eexists _, _. split; [vm_compute; reflexivity|].
  repeat split; vm_compute; reflexivity.
Qed.

Lemma C10_witness :
  converter_convert_file Sim.platform UseArchiveArchiveConverter z_cbz "cbr"
    true None None (Sim.start world_undeletable)
  = (Ok (result_of run_undeletable), snd run_undeletable)
  /\ exists converted r s1 l,
       PurePath.with_suffix z_cbz
         (converter_suffix UseArchiveArchiveConverter "cbr") = Ok converted
       /\ converter_convert_step Sim.platform UseArchiveArchiveConverter z_cbz
            "cbr" converted None None (Sim.start world_undeletable) = (r, s1)
       /\ calls (snd run_undeletable)
          = (calls (Sim.start world_undeletable) ++ l)%list
       /\ (forall p, In (CallUnlink p) l ->
             p = z_cbz /\ true = true /\ success (result_of run_undeletable) = true
             /\ r = Ok tt /\ path_exists Sim.platform converted (world s1) = true)
       /\ (success (result_of run_undeletable) = false ->
           forall p, ~ In (CallUnlink p) l)
       /\ (forall e w2,
             r = Ok tt -> path_exists Sim.platform converted (world s1) = true ->
             true = true ->
             path_unlink Sim.platform z_cbz (world s1) = (Raise e, w2) ->
             success (result_of run_undeletable) = true
             /\ error_message (result_of run_undeletable) = exn_str e).
Proof.
  assert (H : converter_convert_file Sim.platform UseArchiveArchiveConverter
                z_cbz "cbr" true None None (Sim.start world_undeletable)
              = (Ok (result_of run_undeletable), snd run_undeletable))
    by (vm_compute; reflexivity).
  split; [exact H|].
  exact (C10_original_removed_only_after_success Sim.World Sim.UI Sim.platform
           UseArchiveArchiveConverter z_cbz "cbr" true None None
           (Sim.start world_undeletable) _ _ H).
Defined.

(* ================================================================= *)
(** ** The batch driver *)

Section Batch.

Variables W U : Type.
Variable P : Platform W.

Lemma with_suffix_ok (p : Path) (sfx : string) :
  PurePath.valid_suffix sfx = true -> PurePath.name p <> "" ->
  exists converted, PurePath.with_suffix p sfx = Ok converted.
Proof.
  intros Hs Hn. unfold PurePath.with_suffix. rewrite Hs. cbn [negb].
  destruct (String.eqb_spec (PurePath.name p) ""); [contradiction|].
  eexists. reflexivity.
Qed.

(** Whatever happens inside its [try], [convert_file] returns a result
    that names its own file. *)
Lemma convert_file_returns (c : Converter) file target del pcb scb converted
    (s : St W U) :
  PurePath.with_suffix file (converter_suffix c target) = Ok converted ->
  exists res s2,
    converter_convert_file P c file target del pcb scb s = (Ok res, s2)
    /\ original_path res = PurePath.str file
    /\ converted_path res = PurePath.str converted.
Proof.
  intros E. rewrite (convert_file_unfold W U P c file target del pcb scb converted s E).
  destruct (converter_convert_step P c file target converted pcb scb s) as [r s1].
  unfold conclude.
  destruct r as [[]|e]; [|eexists _, _; repeat split].
  destruct (path_exists P converted (world s1)); [|eexists _, _; repeat split].
  destruct del; [|eexists _, _; repeat split].
  destruct (path_unlink P file (world s1)) as [d w2].
  eexists _, _; repeat split.
Qed.

(** One turn of the loop of [convert_batch]. *)
Lemma convert_batch_from_cons (c : Converter) spc total target del scb idx
    (file_path : string) (rest : list string) (results : list ConversionResult) :
  converter_convert_batch_from (U := U) P c spc total target del scb idx
    (file_path :: rest) results
  = bind
      (converter_convert_file P c (PurePath.of_string file_path) target del
         (Some (create_per_file_progress_callback spc (Z.of_nat idx)
                  (Z.of_nat total) (Z.of_nat idx =? Z.of_nat total - 1)))
         (Some (file_status scb idx total)))
      (fun result =>
         converter_convert_batch_from P c spc total target del scb (S idx) rest
           (results ++ [result])%list).
Proof. destruct c; reflexivity. Qed.

Lemma convert_batch_from_nil (c : Converter) spc total target del scb idx
    (results : list ConversionResult) (s : St W U) :
  converter_convert_batch_from P c spc total target del scb idx [] results s
  = (Ok results, s).
Proof. destruct c; reflexivity. Qed.

(** The loop from index [idx] with [acc] already collected: it returns,
    it appends one result per path, and the result at offset [k] is what
    [convert_file] returns for the path at offset [k] in the state the
    loop reaches after the [k] paths before it. *)
Lemma convert_batch_from_spec (c : Converter) spc total target del scb :
  PurePath.valid_suffix (converter_suffix c target) = true ->
  forall (l : list string) (idx : nat) (acc : list ConversionResult) (s : St W U),
    Forall (fun p => PurePath.name (PurePath.of_string p) <> "") l ->
    exists rs s',
      converter_convert_batch_from P c spc total target del scb idx l acc s
      = (Ok (acc ++ rs)%list, s')
      /\ List.length rs = List.length l
      /\ forall k p, nth_error l k = Some p ->
           exists r sk sk',
             converter_convert_batch_from P c spc total target del scb idx
               (firstn k l) acc s = (Ok (acc ++ firstn k rs)%list, sk)
             /\ converter_convert_file P c (PurePath.of_string p) target del
                  (Some (create_per_file_progress_callback spc
                           (Z.of_nat (idx + k)) (Z.of_nat total)
                           (Z.of_nat (idx + k) =? Z.of_nat total - 1)))
                  (Some (file_status scb (idx + k) total)) sk = (Ok r, sk')
             /\ nth_error rs k = Some r
             /\ original_path r = PurePath.str (PurePath.of_string p).
Proof.
  intros Hs l. induction l as [|p0 rest IH]; intros idx acc s Hall.
  - exists [], s. rewrite convert_batch_from_nil, app_nil_r.
    split; [reflexivity|]. split; [reflexivity|].
    intros [|k] p Hk; discriminate.
  - inversion Hall as [|? ? Hp0 Hrest]; subst.
    destruct (with_suffix_ok _ _ Hs Hp0) as [conv0 E0].
    destruct (convert_file_returns c (PurePath.of_string p0) target del
                (Some (create_per_file_progress_callback spc (Z.of_nat idx)
                         (Z.of_nat total) (Z.of_nat idx =? Z.of_nat total - 1)))
                (Some (file_status scb idx total)) conv0 s E0)
      as [r0 [s0 [R0 [O0 _]]]].
    destruct (IH (S idx) (acc ++ [r0])%list s0 Hrest) as [rs [s' [B [L K]]]].
    exists (r0 :: rs), s'.
    split.
    { rewrite convert_batch_from_cons. unfold bind at 1. rewrite R0, B.
      rewrite <- app_assoc. reflexivity. }
    split; [cbn; rewrite L; reflexivity|].
    intros [|k] p Hk.
    + cbn in Hk. injection Hk as <-.
      exists r0, s, s0. cbn [firstn]. rewrite convert_batch_from_nil, app_nil_r.
      rewrite Nat.add_0_r. repeat split; assumption.
    + cbn in Hk. destruct (K k p Hk) as [r [sk [sk' [Bk [Fk [Nk Ok']]]]]].
      exists r, sk, sk'. cbn [firstn].
      rewrite convert_batch_from_cons. unfold bind at 1. rewrite R0, Bk.
      rewrite <- app_assoc. rewrite Nat.add_succ_r. cbn [Nat.add] in Fk.
      repeat split; assumption.
Qed.

(** C3. For paths that name a file (a non-empty final component) and a
    target token that forms a suffix, [convert_batch] returns exactly one
    result per input path, in input order; the result at index [k] is what
    [convert_file] returns for path [k], run in the state reached after the
    [k] files before it, and whatever those files did (failure included) the
    loop goes on to the end of the list. *)
Theorem C3_batch_gives_one_result_per_file
    (c : Converter) (spc : option (Progress U)) (file_paths : list string)
    (target : string) (del : bool) (scb : option (Status U)) (s : St W U) :
  PurePath.valid_suffix (converter_suffix c target) = true ->
  Forall (fun p => PurePath.name (PurePath.of_string p) <> "") file_paths ->
  exists results s',
    converter_convert_batch P c spc file_paths target del scb s = (Ok results, s')
    /\ List.length results = List.length file_paths
    /\ forall k p, nth_error file_paths k = Some p ->
         exists r sk sk',
           converter_convert_batch_from P c spc (List.length file_paths) target
             del scb 0 (firstn k file_paths) [] s = (Ok (firstn k results), sk)
           /\ converter_convert_file P c (PurePath.of_string p) target del
                (Some (create_per_file_progress_callback spc (Z.of_nat k)
                         (Z.of_nat (List.length file_paths))
                         (Z.of_nat k =? Z.of_nat (List.length file_paths) - 1)))
                (Some (file_status scb k (List.length file_paths))) sk
              = (Ok r, sk')
           /\ nth_error results k = Some r
           /\ original_path r = PurePath.str (PurePath.of_string p).
Proof.
  intros Hs Hall.
  destruct (convert_batch_from_spec c spc (List.length file_paths) target del scb
              Hs file_paths 0%nat [] s Hall) as [rs [s' [B [L K]]]].
  exists rs, s'. split; [destruct c; exact B|]. split; [exact L|exact K].
Qed.

End Batch.

Lemma C3_witness :
  (PurePath.valid_suffix (converter_suffix UseArchiveArchiveConverter "cbz") = true
   /\ Forall (fun p => PurePath.name (PurePath.of_string p) <> "")
             ["/c/a.cbr"; "/c/nope.cbr"; "/c/z.cbz"])
  /\ exists results s',
       converter_convert_batch Sim.platform UseArchiveArchiveConverter
         (Some Sim.progress_sink) ["/c/a.cbr"; "/c/nope.cbr"; "/c/z.cbz"] "cbz"
         false (Some Sim.status_sink) (Sim.start sample_world) = (Ok results, s')
       /\ List.length results = 3%nat
       /\ forall k p,
            nth_error ["/c/a.cbr"; "/c/nope.cbr"; "/c/z.cbz"] k = Some p ->
            exists r sk sk',
              converter_convert_batch_from Sim.platform UseArchiveArchiveConverter
                (Some Sim.progress_sink) 3 "cbz" false (Some Sim.status_sink) 0
                (firstn k ["/c/a.cbr"; "/c/nope.cbr"; "/c/z.cbz"]) []
                (Sim.start sample_world) = (Ok (firstn k results), sk)
              /\ converter_convert_file Sim.platform UseArchiveArchiveConverter
                   (PurePath.of_string p) "cbz" false
                   (Some (create_per_file_progress_callback
                            (Some Sim.progress_sink) (Z.of_nat k) (Z.of_nat 3)
                            (Z.of_nat k =? Z.of_nat 3 - 1)))
                   (Some (file_status (Some Sim.status_sink) k 3)) sk
                 = (Ok r, sk')
              /\ nth_error results k = Some r
              /\ original_path r = PurePath.str (PurePath.of_string p).
Proof.
  assert (Hs : PurePath.valid_suffix
                 (converter_suffix UseArchiveArchiveConverter "cbz") = true)
    by reflexivity.
  assert (Hall : Forall (fun p => PurePath.name (PurePath.of_string p) <> "")
                        ["/c/a.cbr"; "/c/nope.cbr"; "/c/z.cbz"])
    by (repeat constructor; cbn; discriminate).
  split; [split; assumption|].
  exact (C3_batch_gives_one_result_per_file Sim.World Sim.UI Sim.platform
           UseArchiveArchiveConverter (Some Sim.progress_sink)
           ["/c/a.cbr"; "/c/nope.cbr"; "/c/z.cbz"] "cbz" false
           (Some Sim.status_sink) (Sim.start sample_world) Hs Hall).
Defined.

(** Outside the hypotheses of C3: a path without a final component makes
    [with_suffix] raise before the [try] of [convert_file], and the
    exception leaves [convert_batch]. *)
Remark batch_stops_on_a_path_without_name :
  ArchiveArchiveConverter.convert_batch Sim.platform (Some Sim.progress_sink)
    ["/"; "/c/a.cbr"] "cbz" false (Some Sim.status_sink) (Sim.start sample_world)
  = (Raise (mkExn ValueError "PosixPath('/') has an empty name"),
     Sim.start sample_world).
Proof. vm_compute. reflexivity. Qed.

(* ================================================================= *)
(** ** Creating a RAR archive without the tool *)

Section MissingTool.

Variables W U : Type.
Variable P : Platform W.

(** The tool is absent in every state of the world. *)
Hypothesis tool_missing :
  forall w, exists e, run_rar_probe P w = Raise e /\ is_file_not_found e = true.

Lemma create_rar_archive_without_tool source rar pcb a b (s : St W U) :
  create_rar_archive P source rar pcb a b s = (Raise tool_missing_error, s).
Proof.
  unfold create_rar_archive.
  destruct (tool_missing (world s)) as [e [Hp Hf]].
  unfold bind, catch, ask_res. rewrite Hp, Hf. reflexivity.
Qed.

Lemma create_rar_archive_fails source rar pcb a b :
  fails (create_rar_archive (U := U) P source rar pcb a b).
Proof.
  intros s. exists tool_missing_error, s. apply create_rar_archive_without_tool.
Qed.

(** A CBZ source never gets past the packing step. *)
Lemma convert_archive_to_cbr_fails file out pcb scb a b c d :
  fails (ArchiveArchiveConverter.convert_archive (U := U) P file (Some CBZ) out
           pcb scb a b c d).
Proof.
  unfold ArchiveArchiveConverter.convert_archive.
  cbn [ArchiveArchiveConverter.FORMAT_MAP].
  apply fails_bind_ret.
  apply fails_bind; intros src_exists.
  destruct (negb src_exists); [apply fails_raise|].
  apply fails_bind; intros detected.
  destruct (negb (detected_eqb detected (Some CBZ))); [apply fails_raise|].
  apply fails_bind; intros output_path.
  apply fails_catch_reraise; [|intros e; apply fails_raise].
  apply fails_bind; intros _.
  apply fails_bind; intros temp_path.
  apply fails_bind_left. apply fails_finally.
  do 4 (apply fails_bind; intros _).
  apply fails_bind_left.
  cbn [ArchiveArchiveConverter.create].
  apply create_rar_archive_fails.
Qed.

Lemma convert_step_to_cbr_fails file converted pcb scb :
  fails (ArchiveArchiveConverter.convert_step (U := U) P file "cbr" converted
           pcb scb).
Proof.
  unfold ArchiveArchiveConverter.convert_step.
  apply fails_bind; intros source_format.
  destruct source_format as [[| |]|];
    cbn [ArchiveArchiveConverter.supported String.eqb Ascii.eqb Bool.eqb
         detected_eqb format_eqb andb orb];
    try apply fails_raise.
  apply fails_bind; intros _.
  apply fails_bind_left. apply convert_archive_to_cbr_fails.
Qed.

(** C9. With the [rar] tool absent, [create_rar_archive] raises, before
    touching anything, an error whose text names the tool as missing; that
    text differs from the one of a [rar] run that ended with an error; and
    every conversion to [cbr] that returns a result returns a failure. *)
Theorem C9_missing_rar_tool_is_named :
  (forall source rar pcb a b (s : St W U),
     create_rar_archive P source rar pcb a b s
     = (Raise (mkExn RuntimeError
                 ("Failed to create RAR archive: " ++ rar_tool_not_found)), s))
  /\ (forall stderr,
        "Failed to create RAR archive: " ++ rar_tool_not_found
        <> "Failed to create RAR archive: " ++ ("RAR creation failed: " ++ stderr))
  /\ (forall file del pcb scb (s : St W U) converted,
        PurePath.with_suffix file ".cbr" = Ok converted ->
        exists res s2,
          ArchiveArchiveConverter.convert_file P file "cbr" del pcb scb s
          = (Ok res, s2)
          /\ success res = false).
Proof.
  split; [intros; apply create_rar_archive_without_tool|].
  split; [intros stderr H; unfold rar_tool_not_found in H;
          cbn [append] in H; discriminate H|].
  intros file del pcb scb s converted E.
  pose proof (convert_file_unfold W U P UseArchiveArchiveConverter file "cbr"
                del pcb scb converted s E) as Hu.
  cbn [converter_convert_file converter_convert_step] in Hu. rewrite Hu.
  destruct (convert_step_to_cbr_fails file converted pcb scb s) as [e [s1 Hs]].
  rewrite Hs. cbn. eexists _, _. split; reflexivity.
Qed.

End MissingTool.

Lemma C9_witness :
  (forall w, exists e,
      run_rar_probe platform_without_rar w = Raise e
      /\ is_file_not_found e = true)
  /\ exists res s2,
       ArchiveArchiveConverter.convert_file platform_without_rar z_cbz "cbr"
         false (Some Sim.progress_sink) (Some Sim.status_sink)
         (Sim.start world_without_rar) = (Ok res, s2)
       /\ success res = false.
Proof.
  assert (H : forall w, exists e,
                run_rar_probe platform_without_rar w = Raise e
                /\ is_file_not_found e = true)
    by (intros w; eexists; split; reflexivity).
  split; [exact H|].
  exact (proj2 (proj2 (C9_missing_rar_tool_is_named Sim.World Sim.UI
                         platform_without_rar H))
           z_cbz false (Some Sim.progress_sink) (Some Sim.status_sink)
           (Sim.start world_without_rar) z_cbr eq_refl).
Defined.

(** The text that reaches the result when packing is reached without the
    tool. *)
Remark missing_tool_text_in_the_result :
  fst (ArchiveArchiveConverter.convert_file platform_without_rar z_cbz "cbr"
         false (Some Sim.progress_sink) (Some Sim.status_sink)
         (Sim.start world_without_rar))
  = Ok (mkResult "/c/z.cbz" "/c/z.cbr" false
          ("Failed to convert CBZ to CBR: Failed to create RAR archive: "
           ++ rar_tool_not_found)).
Proof. vm_compute. reflexivity. Qed.

(* ================================================================= *)
(** ** The gate of [convert_file] *)

Section Gate.

Variables W U : Type.
Variable P : Platform W.

(** The container orchestrator: a pair outside its table, an unknown
    format included, gives the unsupported-conversion failure and changes
    nothing. *)
Lemma container_gate_rejects file target del pcb scb converted (s : St W U) :
  PurePath.with_suffix file ("." ++ target) = Ok converted ->
  ArchiveArchiveConverter.supported target
    (ArchiveConverter.detect_archive_format P file (world s)) = false ->
  ArchiveArchiveConverter.convert_file P file target del pcb scb s
  = (Ok (mkResult (PurePath.str file) (PurePath.str converted) false
                  unsupported_conversion), s).
Proof.
  intros E G.
  pose proof (convert_file_unfold W U P UseArchiveArchiveConverter file target
                del pcb scb converted s E) as Hu.
  cbn [converter_convert_file converter_convert_step] in Hu. rewrite Hu.
  unfold ArchiveArchiveConverter.convert_step,
    ArchiveArchiveConverter.detect_archive_format.
  unfold bind at 1, ask at 1. rewrite G. reflexivity.
Qed.

(** The PDF orchestrator: when detection names a format and the pair is
    outside its table, the same failure. *)
Lemma pdf_gate_rejects_known_format file target del pcb scb converted f
    (s : St W U) :
  PurePath.with_suffix file ("." ++ PyStr.lower target) = Ok converted ->
  ArchiveConverter.detect_archive_format P file (world s) = Some f ->
  PdfArchiveConverter.supported target (Some f) = Ok false ->
  PdfArchiveConverter.convert_file P file target del pcb scb s
  = (Ok (mkResult (PurePath.str file) (PurePath.str converted) false
                  unsupported_conversion), s).
Proof.
  intros E D G.
  pose proof (convert_file_unfold W U P UsePdfArchiveConverter file target
                del pcb scb converted s E) as Hu.
  cbn [converter_convert_file converter_convert_step] in Hu. rewrite Hu.
  unfold PdfArchiveConverter.convert_step,
    PdfArchiveConverter.detect_archive_format.
  unfold bind at 1, ask at 1. rewrite D.
  unfold bind at 1, lift_res at 1. rewrite G. reflexivity.
Qed.

(** C2, where the code departs from it. In the PDF orchestrator, when
    detection yields no format and the target is [cbz] or [pdf] in any
    letter case, the gate calls [upper] on [None]: the result is a failure
    whose message is the text of that [AttributeError], not the
    unsupported-conversion message. Nothing is created. *)
Theorem C2_pdf_gate_on_unknown_format
    (file : Path) (target : string) (del : bool)
    (pcb : option (Progress U)) (scb : option (Status U)) (s : St W U)
    (converted : Path) :
  PurePath.with_suffix file ("." ++ PyStr.lower target) = Ok converted ->
  ArchiveConverter.detect_archive_format P file (world s) = None ->
  PyStr.lower target = "cbz" \/ PyStr.lower target = "pdf" ->
  PdfArchiveConverter.convert_file P file target del pcb scb s
  = (Ok (mkResult (PurePath.str file) (PurePath.str converted) false
                  none_has_no_upper), s)
  /\ none_has_no_upper <> unsupported_conversion.
Proof.
  intros E D T. split; [|discriminate].
  pose proof (convert_file_unfold W U P UsePdfArchiveConverter file target
                del pcb scb converted s E) as Hu.
  cbn [converter_convert_file converter_convert_step] in Hu. rewrite Hu.
  unfold PdfArchiveConverter.convert_step,
    PdfArchiveConverter.detect_archive_format.
  unfold bind at 1, ask at 1. rewrite D.
  unfold bind at 1, lift_res at 1.
  unfold PdfArchiveConverter.supported.
  destruct T as [T|T]; rewrite T; reflexivity.
Qed.

End Gate.

Lemma C2_witness :
  (PurePath.with_suffix (PurePath.of_string "/c/notes.txt")
     ("." ++ PyStr.lower "cbz") = Ok (PurePath.of_string "/c/notes.cbz")
   /\ ArchiveConverter.detect_archive_format Sim.platform
        (PurePath.of_string "/c/notes.txt") (world (Sim.start sample_world)) = None
   /\ (PyStr.lower "cbz" = "cbz" \/ PyStr.lower "cbz" = "pdf"))
  /\ PdfArchiveConverter.convert_file Sim.platform
       (PurePath.of_string "/c/notes.txt") "cbz" false
       (Some Sim.progress_sink) (Some Sim.status_sink) (Sim.start sample_world)
     = (Ok (mkResult "/c/notes.txt" "/c/notes.cbz" false
                     "'NoneType' object has no attribute 'upper'"),
        Sim.start sample_world).
Proof.
  split; [repeat split; left; reflexivity|].
  exact (proj1 (C2_pdf_gate_on_unknown_format Sim.World Sim.UI Sim.platform
                  (PurePath.of_string "/c/notes.txt") "cbz" false
                  (Some Sim.progress_sink) (Some Sim.status_sink)
                  (Sim.start sample_world) (PurePath.of_string "/c/notes.cbz")
                  eq_refl eq_refl (or_introl eq_refl))).
Defined.

(* ================================================================= *)
(** ** Sources without images *)

Section NoImages.

Variables W U : Type.
Variable P : Platform W.

Lemma logs_bind_ask_res {A B} Q (f : W -> Res A) (k : A -> M W U B) :
  (forall a w, f w = Ok a -> logs_only Q (k a)) ->
  logs_only Q (bind (ask_res f) k).
Proof.
  intros Hk s. unfold bind, ask_res.
  destruct (f (world s)) as [a|e] eqn:E.
  - exact (Hk a (world s) E s).
  - exists []. cbn. rewrite app_nil_r. auto.
Qed.

Lemma fails_bind_ask_res {A B} (f : W -> Res A) (k : A -> M W U B) :
  (forall a w, f w = Ok a -> fails (k a)) -> fails (bind (ask_res f) k).
Proof.
  intros Hk s. unfold bind, ask_res.
  destruct (f (world s)) as [a|e] eqn:E.
  - exact (Hk a (world s) E s).
  - exists e, s. reflexivity.
Qed.

(** The half of C8 that holds: a CBZ that lists no image entry is refused
    before anything is written to the output path. *)
Lemma cbz_without_images_is_refused cbz out pcb scb a b c d :
  (forall w names, zip_namelist P cbz w = Ok names ->
                   filter ArchiveConverter.is_image_name names = []) ->
  fails (PdfArchiveConverter.convert_cbz_to_pdf (U := U) P cbz out pcb scb a b c d)
  /\ logs_only not_save_pdf
       (PdfArchiveConverter.convert_cbz_to_pdf (U := U) P cbz out pcb scb a b c d).
Proof.
  intros Hn. unfold PdfArchiveConverter.convert_cbz_to_pdf,
    PdfArchiveConverter.detect_archive_format. split.
  - apply fails_bind; intros src_exists.
    destruct (negb src_exists); [apply fails_raise|].
    apply fails_bind; intros detected.
    destruct (negb (detected_eqb detected (Some CBZ))); [apply fails_raise|].
    apply fails_bind; intros output_path.
    apply fails_catch_reraise; [|intros e; apply fails_raise].
    apply fails_bind; intros _.
    apply fails_bind; intros temp_path.
    apply fails_finally.
    apply fails_bind_ask_res; intros names w E. rewrite (Hn w names E).
    apply fails_bind_left. apply fails_raise.
  - apply logs_bind; [footprint|intros src_exists].
    destruct (negb src_exists); [footprint|].
    apply logs_bind; [footprint|intros detected].
    destruct (negb (detected_eqb detected (Some CBZ))); [footprint|].
    apply logs_bind; [footprint|intros output_path].
    apply logs_bind; [|intros r; footprint].
    apply logs_catch.
    apply logs_bind; [footprint|intros _].
    apply logs_bind; [footprint|intros temp_path].
    apply logs_finally; [|footprint].
    apply logs_bind_ask_res; intros names w E. rewrite (Hn w names E).
    apply logs_bind_raise.
Qed.

End NoImages.

(** The same on the concrete platform: [/c/b.cbz] holds only a text file. *)
Remark cbz_without_images_on_the_concrete_platform :
  exists s2,
    PdfArchiveConverter.convert_file Sim.platform (PurePath.of_string "/c/b.cbz")
      "pdf" false (Some Sim.progress_sink) (Some Sim.status_sink)
      (Sim.start sample_world)
    = (Ok (mkResult "/c/b.cbz" "/c/b.pdf" false
             "Failed to convert CBZ to PDF: No images found in CBZ archive."), s2)
    /\ Sim.node_at (PurePath.of_string "/c/b.pdf") (world s2) = None.
Proof. eexists. split; vm_compute; reflexivity. Qed.

(** C8, where the code departs from it. A PDF with no page, converted to
    CBZ: no page is rendered, [create_zip_archive] writes an archive
    without entries at the output path, and the result is a success. *)
Theorem C8_pdf_without_pages_gives_empty_archive :
  exists s2,
    PdfArchiveConverter.convert_file Sim.platform (PurePath.of_string "/c/e.pdf")
      "cbz" false (Some Sim.progress_sink) (Some Sim.status_sink)
      (Sim.start sample_world)
    = (Ok (mkResult "/c/e.pdf" "/c/e.cbz" true ""), s2)
    /\ Sim.node_at (PurePath.of_string "/c/e.pdf") sample_world = Some (Sim.Pdf 0)
    /\ Sim.node_at (PurePath.of_string "/c/e.cbz") sample_world = None
    /\ Sim.node_at (PurePath.of_string "/c/e.cbz") (world s2) = Some (Sim.Zip [])
    /\ In (CallZipCreate (PurePath.of_string "/c/e.cbz")) (calls s2).
Proof.
  eexists. split; [vm_compute; reflexivity|].
  repeat split; vm_compute; auto.
Qed.

(* ================================================================= *)
(** * Further properties *)

(* ================================================================= *)
(** ** The normaliser forwards a percentage *)

(** X1. Whatever pair it is called with, the per-file callback either
    raises without calling the sink (a quotient too large for a float), or
    calls the sink exactly once with [(p, 100)] where [0 <= p <= 100], and
    [p <= 99] when the file is not the last one; without a sink it does
    nothing. *)
Theorem X1_callback_forwards_a_bounded_percentage
    (U : Type) (sink : Progress U) (file_index total_files : Z)
    (is_last_file : bool) (current total : Z) (u : U) :
  ((exists e,
      create_per_file_progress_callback (Some sink) file_index total_files
        is_last_file current total u = (Raise e, u))
   \/ exists p,
        0 <= p <= 100 /\ (is_last_file = false -> p <= 99)
        /\ create_per_file_progress_callback (Some sink) file_index total_files
             is_last_file current total u = sink p 100 u)
  /\ create_per_file_progress_callback None file_index total_files
       is_last_file current total u = (Ok tt, u).
Proof.
  split; [|reflexivity].
  unfold create_per_file_progress_callback, callback_percent.
  destruct (0 <? total).
  - destruct (raw_percentage current total) as [x|e]; cbn [res_bind].
    + right.
      destruct (negb is_last_file && (Z.min 100 (Z.max 0 x) =? 100))%bool eqn:C.
      * exists 99. repeat split; lia.
      * exists (Z.min 100 (Z.max 0 x)). repeat split; try lia.
        intros ->. cbn in C. apply Z.eqb_neq in C. lia.
    + left. exists e. reflexivity.
  - right. exists 0. destruct is_last_file; cbn; repeat split; lia.
Qed.

(* ================================================================= *)
(** ** What a validation report holds *)

Section Reports.

Variable W : Type.
Variable P : Platform W.

Lemma validate_entries_fold (getinfo : string -> Res Z) (names : list string) :
  forall d,
    fold_left (ArchiveConverter.validate_entry getinfo) names d
    = mkDetails
        (image_count d
         + Z.of_nat (List.length (filter ArchiveConverter.is_image_name names)))
        (has_metadata d || existsb entry_is_metadata names)
        (has_folders d || existsb entry_in_folder names)
        (image_files d ++ filter ArchiveConverter.is_image_name names)
        (total_size d
         + sum_sizes getinfo (filter ArchiveConverter.is_image_name names)).
Proof.
  induction names as [|n rest IH]; intros d.
  - cbn. rewrite !Z.add_0_r, !orb_false_r, app_nil_r. destruct d; reflexivity.
  - cbn [fold_left]. rewrite IH. clear IH.
    unfold ArchiveConverter.validate_entry.
    fold (entry_is_metadata n). fold (entry_in_folder n).
    cbn [filter existsb].
    destruct (entry_is_metadata n), (entry_in_folder n),
      (ArchiveConverter.is_image_name n);
      cbn [image_count has_metadata has_folders image_files total_size
           List.length sum_sizes fold_right];
      unfold known_size; try destruct (getinfo n);
      cbn [image_count has_metadata has_folders image_files total_size];
      f_equal;
      rewrite ?orb_true_r, ?orb_false_r, ?orb_true_l, ?orb_false_l,
        <- ?app_assoc; try reflexivity; try lia;
      try (destruct (has_metadata d); reflexivity);
      try (destruct (has_folders d); reflexivity);
      try (unfold sum_sizes, known_size; lia).
Qed.

(** X2. For a ZIP or RAR archive whose entry list can be read, the report
    lists the image entries in archive order, counts exactly those, is
    valid when there is at least one, flags metadata when some entry is
    named [comicinfo.xml] in any letter case, flags folders when some entry
    has more than one path part, and sums the sizes of the image entries
    whose size can be looked up. *)
Theorem X2_archive_report_contents
    (f : ArchiveFormat) (archive_path : Path) (w : W) (names : list string) :
  f <> PDF ->
  ArchiveConverter.detect_archive_format P archive_path w = Some f ->
  archive_namelist P f archive_path w = Ok names ->
  let images := filter ArchiveConverter.is_image_name names in
  ArchiveConverter.validate_comic_archive P archive_path w
  = (Nat.ltb 0 (List.length images), format_str f,
     mkDetails (Z.of_nat (List.length images))
               (existsb entry_is_metadata names)
               (existsb entry_in_folder names)
               images
               (sum_sizes (fun n => archive_getinfo_size P f archive_path n w)
                          images)).
Proof.
  intros Hf Hd Hn images. unfold ArchiveConverter.validate_comic_archive.
  rewrite Hd.
  assert (L : (0 <? Z.of_nat (List.length images))
              = Nat.ltb 0 (List.length images)).
  { destruct (List.length images); reflexivity. }
  destruct f; [| |contradiction]; cbn [archive_namelist archive_getinfo_size] in *.
  - unfold ArchiveConverter._validate_zip_archive. rewrite Hn.
    rewrite validate_entries_fold. cbn -[filter]. fold images. rewrite L.
    reflexivity.
  - unfold ArchiveConverter._validate_rar_archive. rewrite Hn.
    rewrite validate_entries_fold. cbn -[filter]. fold images. rewrite L.
    reflexivity.
Qed.

(** X3. The format named by a report is the detected one, ["UNKNOWN"] when
    detection finds none: a file that is detected but cannot be validated
    keeps its format. *)
Theorem X3_report_names_the_detected_format (archive_path : Path) (w : W) :
  snd (fst (ArchiveConverter.validate_comic_archive P archive_path w))
  = match ArchiveConverter.detect_archive_format P archive_path w with
    | Some f => format_str f
    | None => "UNKNOWN"
    end.
Proof.
  unfold ArchiveConverter.validate_comic_archive.
  destruct (ArchiveConverter.detect_archive_format P archive_path w) as [[| |]|];
    [ unfold ArchiveConverter._validate_zip_archive;
      destruct (zip_namelist P archive_path w)
    | unfold ArchiveConverter._validate_rar_archive;
      destruct (rar_namelist P archive_path w)
    | unfold ArchiveConverter._validate_pdf_file;
      destruct (fitz_open P archive_path w);
      [destruct (path_stat_size P archive_path w)|]
    | ]; reflexivity.
Qed.

End Reports.

Lemma X2_witness :
  (CBZ <> PDF
   /\ ArchiveConverter.detect_archive_format Sim.platform
        (PurePath.of_string "/c/z.cbz") sample_world = Some CBZ
   /\ archive_namelist Sim.platform CBZ (PurePath.of_string "/c/z.cbz")
        sample_world = Ok ["2.png"; "d/1.jpg"; "ComicInfo.xml"])
  /\ ArchiveConverter.validate_comic_archive Sim.platform
       (PurePath.of_string "/c/z.cbz") sample_world
     = (true, "CBZ", mkDetails 2 true true ["2.png"; "d/1.jpg"] 10).
Proof.
  assert (Hf : CBZ <> PDF) by discriminate.
  split; [repeat split; assumption|].
  exact (X2_archive_report_contents Sim.World Sim.platform CBZ
           (PurePath.of_string "/c/z.cbz") sample_world
           ["2.png"; "d/1.jpg"; "ComicInfo.xml"] Hf eq_refl eq_refl).
Defined.

(* ================================================================= *)
(** ** The archive helpers, call by call *)

Section HelperLogs.

Variables W U : Type.
Variable P : Platform W.

Lemma emit_progress_keeps_calls cb current total (s : St W U) :
  calls (snd (emit_progress cb current total s)) = calls s.
Proof.
  destruct cb as [f|]; [|reflexivity].
  cbn. unfold call_cb. destruct (f current total (ui s)). reflexivity.
Qed.

(** A loop whose turn for [x] logs exactly [c x]: the log grows by the
    calls of the entries tried, in order, and by all of them when the loop
    returns. *)
Lemma for_enumerate_log {A} (c : A -> list Call)
    (body : nat -> A -> M W U unit) :
  (forall i x s, calls (snd (body i x s)) = (calls s ++ c x)%list) ->
  forall l i s,
    exists k,
      (k <= List.length l)%nat
      /\ calls (snd (for_enumerate body i l s))
         = (calls s ++ flat_map c (firstn k l))%list
      /\ (fst (for_enumerate body i l s) = Ok tt -> k = List.length l).
Proof.
  intros Hb l. induction l as [|x r IH]; intros i s.
  - exists 0%nat. cbn. rewrite app_nil_r. auto.
  - cbn [for_enumerate]. unfold bind.
    pose proof (Hb i x s) as Hx.
    destruct (body i x s) as [[[]|e] s1]; cbn [snd] in Hx.
    + destruct (IH (S i) s1) as [k [Hk [Hc Hr]]].
      exists (S k). cbn [firstn flat_map List.length].
      rewrite Hc, Hx, <- app_assoc. repeat split; auto. lia.
    + exists 1%nat. cbn [firstn flat_map List.length snd fst].
      rewrite Hx, app_nil_r. repeat split; [lia|discriminate].
Qed.

(** X4. The extractor that [FORMAT_MAP] gives for a source format reads
    that format's entry list first; when the list cannot be read it raises
    without extracting anything; otherwise it extracts the entries in
    archive order, stops at the first failure, and has extracted every
    entry when it returns. Every exception leaves as a [RuntimeError]. *)
Theorem X4_extraction_follows_the_entry_list
    (f : ArchiveFormat) (entry : ArchiveArchiveConverter.FormatEntry W U)
    (source dest : Path) (cb : option (Progress U)) (a b : Z) (s : St W U) :
  ArchiveArchiveConverter.FORMAT_MAP P f = Some entry ->
  let run := ArchiveArchiveConverter.extract W U entry source dest cb a b s in
  (forall e, fst run = Raise e -> exn_class e = RuntimeError)
  /\ match archive_namelist P f source (world s) with
     | Raise _ => calls (snd run) = calls s /\ fst run <> Ok tt
     | Ok names =>
         exists k,
           (k <= List.length names)%nat
           /\ calls (snd run)
              = (calls s ++ map (extract_call f source dest) (firstn k names))%list
           /\ (fst run = Ok tt -> k = List.length names)
     end.
Proof.
  intros Hf run.
  assert (Shape :
    forall (namelist : Path -> W -> Res (list string))
           (op : Path -> string -> Path -> W -> Res unit * W)
           (c : string -> Call) (text : string),
      let m : M W U unit :=
        (r <- catch (
           file_list <- ask_res (namelist source) ;;
           let total_files := List.length file_list in
           for_enumerate (fun i file_name =>
             perform (c file_name) (op source file_name dest) ;;
             if Nat.ltb 0 total_files
             then emit_progress cb (Z.of_nat i + 1) (Z.of_nat total_files)
             else ret tt) 0 file_list) ;;
         match r with
         | Ok _ => ret tt
         | Raise e => raise (mkExn RuntimeError (text ++ exn_str e))
         end)%py in
      (forall e, fst (m s) = Raise e -> exn_class e = RuntimeError)
      /\ match namelist source (world s) with
         | Raise _ => calls (snd (m s)) = calls s /\ fst (m s) <> Ok tt
         | Ok names =>
             exists k,
               (k <= List.length names)%nat
               /\ calls (snd (m s)) = (calls s ++ map c (firstn k names))%list
               /\ (fst (m s) = Ok tt -> k = List.length names)
         end).
  { intros namelist op c text m.
    pose (body := fun (names : list string) (i : nat) (file_name : string) =>
                    (perform (c file_name) (op source file_name dest) ;;
                     if Nat.ltb 0 (List.length names)
                     then emit_progress cb (Z.of_nat i + 1)
                            (Z.of_nat (List.length names))
                     else ret tt : M W U unit)%py).
    assert (E : m s
                = match namelist source (world s) with
                  | Raise e0 =>
                      (Raise (mkExn RuntimeError (text ++ exn_str e0)), s)
                  | Ok names =>
                      let (r, s1) := for_enumerate (body names) 0 names s in
                      (match r with
                       | Ok _ => Ok tt
                       | Raise e =>
                           Raise (mkExn RuntimeError (text ++ exn_str e))
                       end, s1)
                  end).
    { subst m. unfold bind at 1, catch at 1, bind at 1, ask_res at 1.
      destruct (namelist source (world s)) as [names|e0]; [|reflexivity].
      fold (body names).
      destruct (for_enumerate (body names) 0 names s) as [[[]|e] s1];
        reflexivity. }
    rewrite E. clear E.
    destruct (namelist source (world s)) as [names|e0].
    - assert (Hb : forall i x s0,
                 calls (snd (body names i x s0)) = (calls s0 ++ [c x])%list).
      { intros i x s0. unfold body, bind, perform.
        destruct (op source x dest (world s0)) as [[[]|e] w1];
          cbn -[emit_progress]; [|reflexivity].
        destruct (List.length names); [reflexivity|].
        rewrite emit_progress_keeps_calls. reflexivity. }
      destruct (for_enumerate_log (fun x => [c x]) (body names) Hb names 0%nat s)
        as [k [Hk [Hc Hr]]].
      assert (Hm : forall l, flat_map (fun x => [c x]) l = map c l).
      { induction l; cbn; congruence. }
      rewrite Hm in Hc.
      destruct (for_enumerate (body names) 0 names s) as [[[]|e] s1]; cbn in *.
      + split; [discriminate|]. exists k. auto.
      + split; [intros e' He'; injection He' as <-; reflexivity|].
        exists k. repeat split; auto. discriminate.
    - cbn. split; [intros e' He'; injection He' as <-; reflexivity|].
      split; [reflexivity|discriminate]. }
  destruct f; cbn [ArchiveArchiveConverter.FORMAT_MAP] in Hf;
    [ injection Hf as <- | injection Hf as <- | discriminate ];
    subst run; cbn [ArchiveArchiveConverter.extract archive_namelist].
  - exact (Shape (zip_namelist P) (zip_extract P)
             (fun n => CallZipExtract source n dest)
             "Failed to extract ZIP archive: ").
  - exact (Shape (rar_namelist P) (rar_extract P)
             (fun n => CallRarExtract source n dest)
             "Failed to extract RAR archive: ").
Qed.

End HelperLogs.

Section ZipCreation.

Variables W U : Type.
Variable P : Platform W.

Lemma create_zip_turn_log cb a b (source_path zip_path : Path) n i x
    (s0 : St W U) :
  calls (snd (create_zip_turn P source_path zip_path cb a b n i x s0))
  = (calls s0 ++ zip_write_calls source_path zip_path x)%list.
Proof.
  unfold create_zip_turn, zip_write_calls, bind, lift_res, perform.
  destruct (PurePath.relative_to x source_path) as [rel|e];
    [|cbn; rewrite app_nil_r; reflexivity].
  destruct (zip_write P zip_path x rel (world s0)) as [[[]|e] w1];
    [|reflexivity].
  destruct cb as [f|]; [|reflexivity].
  destruct (Nat.ltb 0 n); [|reflexivity].
  destruct (interpolate a b i n) as [p|e]; [|reflexivity].
  unfold call_cb. cbn [ui world calls].
  destruct (f p (Z.of_nat n) (ui s0)). reflexivity.
Qed.

(** [create_zip_archive], statement by statement. *)
Lemma create_zip_archive_run (source_path zip_path : Path)
    (cb : option (Progress U)) (a b : Z) (s : St W U) :
  create_zip_archive P source_path zip_path cb a b s
  = if (negb (path_exists P source_path (world s))
        || negb (path_is_dir P source_path (world s)))%bool
    then (Raise (mkExn RuntimeError
                   ("Source directory does not exist: "
                    ++ PurePath.str source_path)), s)
    else
      let files := os_walk_files P source_path (world s) in
      match zip_create P zip_path (world s) with
      | (Raise e0, w1) =>
          (Raise (zip_creation_error e0),
           mkSt w1 (calls s ++ [CallZipCreate zip_path]) (ui s))
      | (Ok _, w1) =>
          let (rl, s2) :=
            for_enumerate
              (create_zip_turn P source_path zip_path cb a b (List.length files))
              0 files (mkSt w1 (calls s ++ [CallZipCreate zip_path]) (ui s)) in
          match zip_close P zip_path (world s2) with
          | (Ok _, w3) =>
              (match rl with
               | Ok _ => Ok tt
               | Raise e => Raise (zip_creation_error e)
               end,
               mkSt w3 (calls s2 ++ [CallZipClose zip_path]) (ui s2))
          | (Raise ec, w3) =>
              (Raise (zip_creation_error ec),
               mkSt w3 (calls s2 ++ [CallZipClose zip_path]) (ui s2))
          end
      end.
Proof.
  unfold create_zip_archive.
  unfold bind at 1, ask at 1. unfold bind at 1, ask at 1.
  destruct (negb (path_exists P source_path (world s))
            || negb (path_is_dir P source_path (world s)))%bool; [reflexivity|].
  unfold bind at 1, catch at 1, bind at 1, ask at 1.
  unfold bind at 1, perform at 1.
  destruct (zip_create P zip_path (world s)) as [[[]|e0] w1]; [|reflexivity].
  unfold finally_. unfold bind at 1, catch at 1.
  fold (create_zip_turn P source_path zip_path cb a b
          (List.length (os_walk_files P source_path (world s)))).
  cbv zeta.
  destruct (for_enumerate _ 0 _ _) as [rl s2].
  unfold bind, perform, lift_res.
  destruct (zip_close P zip_path (world s2)) as [[[]|ec] w3];
    [destruct rl as [[]|el]|]; reflexivity.
Qed.

(** X5. [create_zip_archive] refuses a source that is missing or not a
    directory with its own message and without any call. Otherwise it opens
    the archive, writes the files of the walk in order under their relative
    names, stops at the first failure, and closes the archive on every exit
    once it was opened; when it returns, every file was written. Apart from
    the refusal, every exception leaves as a [RuntimeError]. *)
Theorem X5_zip_creation_writes_the_walk_and_closes
    (source_path zip_path : Path) (cb : option (Progress U)) (a b : Z)
    (s : St W U) :
  let run := create_zip_archive P source_path zip_path cb a b s in
  let files := os_walk_files P source_path (world s) in
  if (negb (path_exists P source_path (world s))
      || negb (path_is_dir P source_path (world s)))%bool
  then run = (Raise (mkExn RuntimeError
                       ("Source directory does not exist: "
                        ++ PurePath.str source_path)), s)
  else
    (forall e, fst run = Raise e -> exn_class e = RuntimeError)
    /\ match fst (zip_create P zip_path (world s)) with
       | Raise _ =>
           calls (snd run) = (calls s ++ [CallZipCreate zip_path])%list
           /\ fst run <> Ok tt
       | Ok _ =>
           exists k,
             (k <= List.length files)%nat
             /\ calls (snd run)
                = (calls s
                   ++ CallZipCreate zip_path
                      :: flat_map (zip_write_calls source_path zip_path)
                                  (firstn k files)
                      ++ [CallZipClose zip_path])%list
             /\ (fst run = Ok tt -> k = List.length files)
       end.
Proof.
  intros run files. subst run. rewrite create_zip_archive_run.
  destruct (negb (path_exists P source_path (world s))
            || negb (path_is_dir P source_path (world s)))%bool; [reflexivity|].
  fold files.
  destruct (zip_create P zip_path (world s)) as [[[]|e0] w1]; cbn [fst].
  2:{ cbn. split; [intros e He; injection He as <-; reflexivity|].
      split; [reflexivity|discriminate]. }
  set (s1 := mkSt w1 (calls s ++ [CallZipCreate zip_path]) (ui s)).
  destruct (for_enumerate_log W U (zip_write_calls source_path zip_path)
              (create_zip_turn P source_path zip_path cb a b (List.length files))
              (create_zip_turn_log cb a b source_path zip_path (List.length files))
              files 0%nat s1)
    as [k [Hk [Hc Hr]]].
  destruct (for_enumerate
              (create_zip_turn P source_path zip_path cb a b (List.length files))
              0 files s1) as [rl s2].
  cbn [fst snd] in Hc, Hr.
  assert (Hlog : (calls s2 ++ [CallZipClose zip_path])%list
                 = (calls s
                    ++ CallZipCreate zip_path
                       :: flat_map (zip_write_calls source_path zip_path)
                                   (firstn k files)
                       ++ [CallZipClose zip_path])%list).
  { rewrite Hc. subst s1. cbn [calls]. rewrite <- !app_assoc. reflexivity. }
  destruct (zip_close P zip_path (world s2)) as [[[]|ec] w3]; cbn [fst snd calls].
  - destruct rl as [[]|el]; cbn [fst snd calls].
    + split; [discriminate|]. exists k. auto.
    + split; [intros e He; injection He as <-; reflexivity|].
      exists k. repeat split; auto. discriminate.
  - split; [intros e He; injection He as <-; reflexivity|].
    exists k. repeat split; auto. discriminate.
Qed.

End ZipCreation.

(** Closes the four parts of the statement about [create_rar_archive] in
    the cases where they are immediate. *)
Ltac rar_case :=
  repeat split; auto;
  try discriminate;
  try (intros e He; injection He as <-; reflexivity);
  try (intros ? ? ? H; discriminate H);
  try (intros ? ? ? H Hn; injection H as <- _ _; contradiction);
  try (intros ? ? ? H _ _; injection H as <- <- _; reflexivity).

Section RarCreation.

Variables W U : Type.
Variable P : Platform W.

Lemma emit_progress_keeps_world cb current total (s : St W U) :
  world (snd (emit_progress cb current total s)) = world s.
Proof.
  destruct cb as [f|]; [|reflexivity].
  cbn. unfold call_cb. destruct (f current total (ui s)). reflexivity.
Qed.

(** [create_rar_archive] once the probe has found the tool. *)
Lemma create_rar_archive_run (source_path rar_path : Path)
    (cb : option (Progress U)) (a b : Z) (s : St W U) :
  run_rar_probe P (world s) = Ok tt ->
  create_rar_archive P source_path rar_path cb a b s
  = let total := Z.of_nat (List.length (os_walk_files P source_path (world s))) in
    match emit_progress cb (a + 10) total s with
    | (Raise e, s0) => (Raise (rar_creation_error e), s0)
    | (Ok _, s0) =>
        let s1 w1 := mkSt w1 (calls s0 ++ [CallRarAdd rar_path source_path])
                          (ui s0) in
        match run_rar_add P rar_path source_path (world s0) with
        | (Raise e, w1) => (Raise (rar_creation_error e), s1 w1)
        | (Ok (returncode, stderr), w1) =>
            if returncode =? 0 then
              match emit_progress cb b total (s1 w1) with
              | (Ok _, s2) => (Ok tt, s2)
              | (Raise e, s2) => (Raise (rar_creation_error e), s2)
              end
            else
              (Raise (rar_creation_error
                        (mkExn RuntimeError ("RAR creation failed: " ++ stderr))),
               s1 w1)
        end
    end.
Proof.
  intros Hp. unfold create_rar_archive.
  unfold bind at 1, catch at 1.
  unfold bind at 1, bind at 1, catch at 1, ask_res at 1. rewrite Hp.
  cbv beta iota. unfold ret at 1.
  unfold bind at 1, ask at 1. cbv beta iota.
  unfold bind at 1.
  destruct (emit_progress cb (a + 10) _ s) as [[[]|e] s0]; [|reflexivity].
  unfold bind at 1, perform at 1.
  destruct (run_rar_add P rar_path source_path (world s0))
    as [[[returncode stderr]|e] w1]; [|reflexivity].
  cbv beta iota. unfold bind at 1.
  destruct (returncode =? 0); cbn [negb]; [|reflexivity].
  unfold ret at 1. cbv beta iota.
  destruct (emit_progress cb b _ _) as [[[]|e] s2]; reflexivity.
Qed.

(** X6. With the tool present, [create_rar_archive] runs [rar] at most
    once and makes no other call; it returns only when [rar] ended with
    code 0; a run that ends with another code makes it raise with the
    standard error text of [rar] in the message; and whatever it raises is
    a [RuntimeError]. *)
Theorem X6_rar_creation_reports_the_exit_code
    (source_path rar_path : Path) (cb : option (Progress U)) (a b : Z)
    (s : St W U) :
  run_rar_probe P (world s) = Ok tt ->
  let run := create_rar_archive P source_path rar_path cb a b s in
  (calls (snd run) = calls s
   \/ calls (snd run) = (calls s ++ [CallRarAdd rar_path source_path])%list)
  /\ (forall e, fst run = Raise e -> exn_class e = RuntimeError)
  /\ (fst run = Ok tt ->
      exists stderr w1,
        run_rar_add P rar_path source_path (world s) = (Ok (0, stderr), w1))
  /\ (forall returncode stderr w1,
        run_rar_add P rar_path source_path (world s)
        = (Ok (returncode, stderr), w1) ->
        returncode <> 0 ->
        fst (emit_progress cb (a + 10)
               (Z.of_nat (List.length (os_walk_files P source_path (world s)))) s)
        = Ok tt ->
        fst run
        = Raise (mkExn RuntimeError
                   ("Failed to create RAR archive: RAR creation failed: "
                    ++ stderr))).
Proof.
  intros Hp run. subst run. rewrite (create_rar_archive_run _ _ _ _ _ _ Hp).
  cbv zeta.
  pose proof (emit_progress_keeps_calls W U cb (a + 10)
                (Z.of_nat (List.length (os_walk_files P source_path (world s)))) s)
    as C0.
  pose proof (emit_progress_keeps_world cb (a + 10)
                (Z.of_nat (List.length (os_walk_files P source_path (world s)))) s)
    as W0.
  destruct (emit_progress cb (a + 10) _ s) as [[[]|e0] s0]; cbn [fst snd] in *.
  2:{ rar_case. }
  rewrite W0.
  destruct (run_rar_add P rar_path source_path (world s))
    as [[[returncode stderr]|e1] w1]; cbn [fst snd calls].
  2:{ rewrite C0. rar_case. }
  destruct (Z.eqb_spec returncode 0) as [->|Hne].
  - pose proof (emit_progress_keeps_calls W U cb b
                  (Z.of_nat (List.length (os_walk_files P source_path (world s))))
                  (mkSt w1 (calls s0 ++ [CallRarAdd rar_path source_path]) (ui s0)))
      as C2.
    destruct (emit_progress cb b _ _) as [[[]|e2] s2]; cbn [fst snd calls] in *;
      rewrite C2, C0; rar_case.
    intros _. exists stderr, w1. reflexivity.
  - rewrite C0. rar_case.
Qed.

End RarCreation.

(* ================================================================= *)
(** ** The temporary directory is scoped *)

Section Scope.

Variables W U : Type.
Variable P : Platform W.

Lemma silent_ret {A} (a : A) : silent (ret a : M W U A).
Proof. intros s. split; reflexivity. Qed.

Lemma silent_raise {A} e : silent (raise e : M W U A).
Proof. intros s. split; reflexivity. Qed.

Lemma silent_lift_res {A} (r : Res A) : silent (lift_res r : M W U A).
Proof. intros s. split; reflexivity. Qed.

Lemma silent_ask {A} (f : W -> A) : silent (ask f : M W U A).
Proof. intros s. split; reflexivity. Qed.

Lemma silent_ask_res {A} (f : W -> Res A) : silent (ask_res f : M W U A).
Proof. intros s. split; reflexivity. Qed.

Lemma silent_call_cb (f : U -> Res unit * U) : silent (call_cb f : M W U unit).
Proof. intros s. unfold call_cb. destruct (f (ui s)). split; reflexivity. Qed.

Lemma silent_emit_progress cb current total :
  silent (emit_progress cb current total : M W U unit).
Proof. destruct cb; cbn; [apply silent_call_cb | apply silent_ret]. Qed.

Lemma silent_emit_status cb message :
  silent (emit_status cb message : M W U unit).
Proof. destruct cb; cbn; [apply silent_call_cb | apply silent_ret]. Qed.

Lemma silent_bind {A B} (m : M W U A) (f : A -> M W U B) :
  silent m -> (forall a, silent (f a)) -> silent (bind m f).
Proof.
  intros Hm Hf s. unfold bind. destruct (Hm s) as [Hw Hc].
  destruct (m s) as [[a|e] s1]; cbn [snd] in *.
  - destruct (Hf a s1) as [Hw' Hc']. split; congruence.
  - split; assumption.
Qed.

Lemma scoped_of_silent {A} (m : M W U A) : silent m -> scoped P m.
Proof.
  intros Hm s. exists []. rewrite app_nil_r.
  split; [apply Hm | left; reflexivity].
Qed.

Lemma scoped_bind_ret {A B} (a : A) (f : A -> M W U B) :
  scoped P (f a) -> scoped P (bind (ret a) f).
Proof. intros H s. exact (H s). Qed.

Lemma scoped_bind_raise {A B} e (f : A -> M W U B) :
  scoped P (bind (raise e) f).
Proof.
  intros s. exists []. cbn. rewrite app_nil_r. split; [reflexivity|].
  left. reflexivity.
Qed.

Lemma scoped_bind_silent {A B} (m : M W U A) (f : A -> M W U B) :
  silent m -> (forall a, scoped P (f a)) -> scoped P (bind m f).
Proof.
  intros Hm Hf s. unfold bind. destruct (Hm s) as [Hw Hc].
  destruct (m s) as [[a|e] s1]; cbn [snd] in *.
  - destruct (Hf a s1) as [l [Hl Hs]]. exists l. rewrite Hl, Hc, <- Hw. auto.
  - exists []. rewrite app_nil_r. split; [assumption | left; reflexivity].
Qed.

Lemma scoped_then_silent {A B} (m : M W U A) (f : A -> M W U B) :
  scoped P m -> (forall a, silent (f a)) -> scoped P (bind m f).
Proof.
  intros Hm Hf s. unfold bind. destruct (Hm s) as [l [Hl Hs]].
  destruct (m s) as [[a|e] s1]; cbn [snd] in *.
  - destruct (Hf a s1) as [_ Hc]. exists l. rewrite Hc. auto.
  - exists l. auto.
Qed.

Lemma scoped_catch {A} (m : M W U A) : scoped P m -> scoped P (catch m).
Proof.
  intros Hm s. unfold catch. destruct (Hm s) as [l [Hl Hs]].
  destruct (m s) as [r s1]. exists l. auto.
Qed.

(** [with tempfile.TemporaryDirectory() as t: body], followed by steps that
    make no call. *)
Lemma scoped_tempdir {A B} (body : Path -> M W U A)
    (k : Path -> A -> M W U B) :
  (forall t, logs_only inside_scope (body t)) ->
  (forall t x, silent (k t x)) ->
  scoped P (bind (perform CallMkdtemp (mkdtemp P))
                 (fun t =>
                    bind (finally_ (body t)
                                   (perform (CallRmtree t) (rmtree P t)))
                         (k t))).
Proof.
  intros Hb Hk s. unfold bind at 1, perform at 1.
  destruct (mkdtemp P (world s)) as [[d|e] w1] eqn:E.
  2:{ exists [CallMkdtemp]. split; [reflexivity|].
      right; left. exists e, w1. auto. }
  set (s1 := mkSt w1 (calls s ++ [CallMkdtemp]) (ui s)).
  destruct (Hb d s1) as [mid [Hm Fm]].
  assert (Hf : calls (snd (finally_ (body d)
                                    (perform (CallRmtree d) (rmtree P d)) s1))
               = (calls s1 ++ mid ++ [CallRmtree d])%list).
  { unfold finally_, bind, catch, perform, lift_res.
    destruct (body d s1) as [r s2]. cbn [snd] in Hm.
    destruct (rmtree P d (world s2)) as [[[]|e] w3]; cbn [snd calls];
      rewrite Hm, <- app_assoc; reflexivity. }
  exists (CallMkdtemp :: mid ++ [CallRmtree d])%list.
  split.
  - unfold bind.
    destruct (finally_ (body d) (perform (CallRmtree d) (rmtree P d)) s1)
      as [[x|e] s3]; cbn [snd] in *.
    + destruct (Hk d x s3) as [_ Hc]. rewrite Hc, Hf. subst s1. cbn [calls].
      rewrite <- app_assoc. reflexivity.
    + rewrite Hf. subst s1. cbn [calls]. rewrite <- app_assoc. reflexivity.
  - right; right. exists d, w1, mid. auto.
Qed.

(** The same when the [with] block is the last statement. *)
Lemma scoped_tempdir_last {A} (body : Path -> M W U A) :
  (forall t, logs_only inside_scope (body t)) ->
  scoped P (bind (perform CallMkdtemp (mkdtemp P))
                 (fun t => finally_ (body t)
                                    (perform (CallRmtree t) (rmtree P t)))).
Proof.
  intros Hb s. unfold bind at 1, perform at 1.
  destruct (mkdtemp P (world s)) as [[d|e] w1] eqn:E.
  2:{ exists [CallMkdtemp]. split; [reflexivity|].
      right; left. exists e, w1. auto. }
  set (s1 := mkSt w1 (calls s ++ [CallMkdtemp]) (ui s)).
  destruct (Hb d s1) as [mid [Hm Fm]].
  exists (CallMkdtemp :: mid ++ [CallRmtree d])%list.
  split.
  - unfold finally_, bind, catch, perform, lift_res.
    destruct (body d s1) as [r s2]. cbn [snd] in Hm.
    destruct (rmtree P d (world s2)) as [[[]|e] w3]; cbn [snd calls];
      rewrite Hm; subst s1; cbn [calls]; rewrite <- !app_assoc; reflexivity.
  - right; right. exists d, w1, mid. auto.
Qed.

End Scope.

(** Walks a run that makes no call. *)
Ltac silent_step :=
  lazymatch goal with
  | |- silent (ret _) => apply silent_ret
  | |- silent (raise _) => apply silent_raise
  | |- silent (lift_res _) => apply silent_lift_res
  | |- silent (ask _) => apply silent_ask
  | |- silent (ask_res _) => apply silent_ask_res
  | |- silent (call_cb _) => apply silent_call_cb
  | |- silent (emit_progress _ _ _) => apply silent_emit_progress
  | |- silent (emit_status _ _) => apply silent_emit_status
  | |- silent (bind _ _) => apply silent_bind; [|intros]
  | |- silent (match ?x with _ => _ end) => destruct x
  end.

Ltac silent_walk := repeat silent_step.

Section ScopedSteps.

Variables W U : Type.
Variable P : Platform W.

Lemma extract_rar_in_scope src dst cb a b :
  logs_only inside_scope (extract_rar_archive (U := U) P src dst cb a b).
Proof. unfold extract_rar_archive. footprint. Qed.

Lemma extract_zip_in_scope src dst cb a b :
  logs_only inside_scope (extract_zip_archive (U := U) P src dst cb a b).
Proof. unfold extract_zip_archive. footprint. Qed.

Lemma create_zip_in_scope src dst cb a b :
  logs_only inside_scope (create_zip_archive (U := U) P src dst cb a b).
Proof. unfold create_zip_archive. footprint. Qed.

Lemma create_rar_in_scope src dst cb a b :
  logs_only inside_scope (create_rar_archive (U := U) P src dst cb a b).
Proof. unfold create_rar_archive. footprint. Qed.

Lemma convert_archive_scoped src fmt out pcb scb a b c d :
  scoped P (ArchiveArchiveConverter.convert_archive (U := U) P src fmt out
              pcb scb a b c d).
Proof.
  unfold ArchiveArchiveConverter.convert_archive,
    ArchiveArchiveConverter.detect_archive_format.
  destruct fmt as [[| |]|]; cbn [ArchiveArchiveConverter.FORMAT_MAP];
    try apply scoped_bind_raise;
    apply scoped_bind_ret;
    (apply scoped_bind_silent; [silent_walk | intros src_exists]);
    (destruct (negb src_exists); [apply scoped_of_silent; silent_walk|]);
    (apply scoped_bind_silent; [silent_walk | intros detected]);
    (destruct (negb _); [apply scoped_of_silent; silent_walk|]);
    (apply scoped_bind_silent; [silent_walk | intros output_path]);
    (apply scoped_then_silent; [|intros r; silent_walk]);
    apply scoped_catch;
    (apply scoped_bind_silent; [silent_walk | intros _]);
    (apply scoped_tempdir; [intros t | intros t x; silent_walk]);
    cbn [ArchiveArchiveConverter.extract ArchiveArchiveConverter.create];
    repeat footprint_step;
    auto using extract_rar_in_scope, extract_zip_in_scope,
      create_zip_in_scope, create_rar_in_scope.
Qed.

Lemma convert_pdf_to_cbz_scoped src out pcb scb a b c d :
  scoped P (PdfArchiveConverter.convert_pdf_to_cbz (U := U) P src out pcb scb
              a b c d).
Proof.
  unfold PdfArchiveConverter.convert_pdf_to_cbz,
    PdfArchiveConverter.detect_archive_format.
  apply scoped_bind_silent; [silent_walk | intros src_exists].
  destruct (negb src_exists); [apply scoped_of_silent; silent_walk|].
  apply scoped_bind_silent; [silent_walk | intros detected].
  destruct (negb _); [apply scoped_of_silent; silent_walk|].
  apply scoped_bind_silent; [silent_walk | intros output_path].
  apply scoped_then_silent; [|intros r; silent_walk].
  apply scoped_catch.
  apply scoped_bind_silent; [silent_walk | intros _].
  apply scoped_tempdir_last. intros t.
  repeat footprint_step. apply create_zip_in_scope.
Qed.

Lemma convert_cbz_to_pdf_scoped src out pcb scb a b c d :
  scoped P (PdfArchiveConverter.convert_cbz_to_pdf (U := U) P src out pcb scb
              a b c d).
Proof.
  unfold PdfArchiveConverter.convert_cbz_to_pdf,
    PdfArchiveConverter.detect_archive_format.
  apply scoped_bind_silent; [silent_walk | intros src_exists].
  destruct (negb src_exists); [apply scoped_of_silent; silent_walk|].
  apply scoped_bind_silent; [silent_walk | intros detected].
  destruct (negb _); [apply scoped_of_silent; silent_walk|].
  apply scoped_bind_silent; [silent_walk | intros output_path].
  apply scoped_then_silent; [|intros r; silent_walk].
  apply scoped_catch.
  apply scoped_bind_silent; [silent_walk | intros _].
  apply scoped_tempdir_last. intros t.
  repeat footprint_step.
Qed.

(** X7. The conversion step of either orchestrator makes no call at all
    (the gate or a check refused the file), or only a failed attempt to
    create the temporary directory, or it creates one temporary directory,
    works without creating or removing any other, and removes that same
    directory as its last call, whether the work returned or raised. *)
Theorem X7_temporary_directory_is_always_removed
    (c : Converter) (file : Path) (target : string) (converted : Path)
    (pcb : option (Progress U)) (scb : option (Status U)) (s : St W U) :
  exists l,
    calls (snd (converter_convert_step P c file target converted pcb scb s))
    = (calls s ++ l)%list
    /\ (l = []
        \/ (exists e w1, mkdtemp P (world s) = (Raise e, w1) /\ l = [CallMkdtemp])
        \/ (exists d w1 mid,
              mkdtemp P (world s) = (Ok d, w1)
              /\ l = (CallMkdtemp :: mid ++ [CallRmtree d])%list
              /\ Forall inside_scope mid)).
Proof.
  revert s. change (scoped P (converter_convert_step P c file target converted
                                pcb scb)).
  destruct c; cbn [converter_convert_step].
  - unfold ArchiveArchiveConverter.convert_step,
      ArchiveArchiveConverter.detect_archive_format.
    apply scoped_bind_silent; [silent_walk | intros source_format].
    destruct (ArchiveArchiveConverter.supported target source_format);
      [|apply scoped_of_silent; silent_walk].
    apply scoped_bind_silent; [silent_walk | intros _].
    apply scoped_then_silent; [|intros; silent_walk].
    apply convert_archive_scoped.
  - unfold PdfArchiveConverter.convert_step,
      PdfArchiveConverter.detect_archive_format.
    apply scoped_bind_silent; [silent_walk | intros source_format].
    apply scoped_bind_silent; [silent_walk | intros ok].
    destruct ok; [|apply scoped_of_silent; silent_walk].
    apply scoped_bind_silent; [silent_walk | intros _].
    destruct (String.eqb (PyStr.lower target) "cbz").
    + apply convert_pdf_to_cbz_scoped.
    + apply convert_cbz_to_pdf_scoped.
Qed.

End ScopedSteps.

(* ================================================================= *)
(** ** The converted path and the gates *)

Section ConvertedPath.

Variables W U : Type.
Variable P : Platform W.

Lemma string_append_assoc (a b c : string) : (a ++ b) ++ c = a ++ (b ++ c).
Proof. induction a as [|x a IH]; cbn; [reflexivity | rewrite IH; reflexivity]. Qed.

Lemma join_ends_with_last (sep : string) (l : list string) (x : string) :
  exists pre, PyStr.join sep (l ++ [x]) = pre ++ x.
Proof.
  induction l as [|y l IH].
  - exists "". reflexivity.
  - destruct IH as [pre IH]. cbn [app PyStr.join].
    destruct (l ++ [x])%list as [|z r] eqn:E.
    + destruct l; discriminate.
    + exists (y ++ sep ++ pre)%string. rewrite IH, !string_append_assoc. reflexivity.
Qed.

(** [with_suffix] changes the final component only, and the new path ends
    with the suffix. *)
Lemma with_suffix_shape (p q : Path) (sfx : string) :
  PurePath.with_suffix p sfx = Ok q ->
  (exists pre, PurePath.str q = pre ++ sfx)
  /\ path_root q = path_root p
  /\ removelast (path_parts q) = removelast (path_parts p).
Proof.
  unfold PurePath.with_suffix.
  destruct (negb (PurePath.valid_suffix sfx)); [discriminate|].
  destruct (String.eqb (PurePath.name p) ""); [discriminate|].
  intros H. injection H as <-. cbn [path_root path_parts].
  split; [|split; [reflexivity | apply removelast_last]].
  unfold PurePath.str. cbn [path_root path_parts].
  set (nm := substring 0 _ (PurePath.name p)).
  destruct (join_ends_with_last "/" (removelast (path_parts p)) (nm ++ sfx))
    as [pre Hj].
  destruct (removelast (path_parts p) ++ [(nm ++ sfx)%string])%list
    as [|z r] eqn:E.
  { destruct (removelast (path_parts p)); discriminate. }
  exists ((path_root p ++ pre) ++ nm)%string.
  destruct (path_root p); cbv iota; rewrite Hj, !string_append_assoc;
    reflexivity.
Qed.

(** X8. Every result [convert_file] returns names its own file as the
    original, and a converted path that lies beside it (same root, same
    directory parts) and ends with a dot and the target token, which the
    PDF orchestrator puts in lower case first. *)
Theorem X8_converted_path_ends_with_the_target
    (c : Converter) (file : Path) (target : string) (del : bool)
    (pcb : option (Progress U)) (scb : option (Status U)) (s : St W U)
    (res : ConversionResult) (s2 : St W U) :
  converter_convert_file P c file target del pcb scb s = (Ok res, s2) ->
  original_path res = PurePath.str file
  /\ exists converted pre,
       converted_path res = PurePath.str converted
       /\ PurePath.str converted = pre ++ converter_suffix c target
       /\ path_root converted = path_root file
       /\ removelast (path_parts converted) = removelast (path_parts file).
Proof.
  intros H.
  destruct (PurePath.with_suffix file (converter_suffix c target))
    as [converted|e] eqn:E.
  2:{ rewrite (convert_file_escapes W U P c file target del pcb scb e s E) in H.
      discriminate. }
  destruct (convert_file_returns W U P c file target del pcb scb converted s E)
    as [res' [s2' [R [Ho Hc]]]].
  rewrite R in H. injection H as <- <-.
  destruct (with_suffix_shape file converted _ E) as [[pre Hp] [Hr Hl]].
  split; [exact Ho|]. exists converted, pre. auto.
Qed.

(** X9. The container orchestrator compares the target token as it is
    written: with any token other than exactly [cbz] or [cbr], and with any
    file detected as a PDF, it returns the unsupported-conversion failure
    and leaves the world, the call log and the callbacks untouched. *)
Theorem X9_container_orchestrator_refuses_other_targets
    (file : Path) (target : string) (del : bool)
    (pcb : option (Progress U)) (scb : option (Status U)) (s : St W U)
    (converted : Path) :
  PurePath.with_suffix file ("." ++ target) = Ok converted ->
  (target <> "cbz" /\ target <> "cbr")
  \/ ArchiveConverter.detect_archive_format P file (world s) = Some PDF ->
  ArchiveArchiveConverter.convert_file P file target del pcb scb s
  = (Ok (mkResult (PurePath.str file) (PurePath.str converted) false
                  unsupported_conversion), s).
Proof.
  intros E H. apply container_gate_rejects; [exact E|].
  unfold ArchiveArchiveConverter.supported.
  destruct H as [[Hz Hr]|Hd].
  - apply String.eqb_neq in Hz. apply String.eqb_neq in Hr.
    rewrite Hz, Hr. reflexivity.
  - rewrite Hd. cbn. rewrite !andb_false_r. reflexivity.
Qed.

(** X10. The PDF orchestrator never converts a file detected as a RAR
    archive: whatever the target token, the result is the
    unsupported-conversion failure and nothing is touched. *)
Theorem X10_pdf_orchestrator_refuses_rar_sources
    (file : Path) (target : string) (del : bool)
    (pcb : option (Progress U)) (scb : option (Status U)) (s : St W U)
    (converted : Path) :
  PurePath.with_suffix file ("." ++ PyStr.lower target) = Ok converted ->
  ArchiveConverter.detect_archive_format P file (world s) = Some CBR ->
  PdfArchiveConverter.convert_file P file target del pcb scb s
  = (Ok (mkResult (PurePath.str file) (PurePath.str converted) false
                  unsupported_conversion), s).
Proof.
  intros E D.
  apply (pdf_gate_rejects_known_format W U P file target del pcb scb converted
           CBR s E D).
  unfold PdfArchiveConverter.supported, PdfArchiveConverter.lazy_and.
  destruct (String.eqb (PyStr.lower target) "cbz");
    destruct (String.eqb (PyStr.lower target) "pdf"); reflexivity.
Qed.

End ConvertedPath.

Lemma X8_witness :
  converter_convert_file Sim.platform UseArchiveArchiveConverter z_cbz "cbr"
    true None None (Sim.start world_undeletable)
  = (Ok (result_of run_undeletable), snd run_undeletable)
  /\ original_path (result_of run_undeletable) = PurePath.str z_cbz
  /\ exists converted pre,
       converted_path (result_of run_undeletable) = PurePath.str converted
       /\ PurePath.str converted
          = pre ++ converter_suffix UseArchiveArchiveConverter "cbr"
       /\ path_root converted = path_root z_cbz
       /\ removelast (path_parts converted) = removelast (path_parts z_cbz).
Proof.
  assert (H : converter_convert_file Sim.platform UseArchiveArchiveConverter
                z_cbz "cbr" true None None (Sim.start world_undeletable)
              = (Ok (result_of run_undeletable), snd run_undeletable))
    by (vm_compute; reflexivity).
  split; [exact H|].
  exact (X8_converted_path_ends_with_the_target Sim.World Sim.UI Sim.platform
           UseArchiveArchiveConverter z_cbz "cbr" true None None
           (Sim.start world_undeletable) _ _ H).
Defined.

Lemma X9_witness :
  (PurePath.with_suffix (PurePath.of_string "/c/a.cbr") ("." ++ "CBZ")
   = Ok (PurePath.of_string "/c/a.CBZ")
   /\ (("CBZ" <> "cbz" /\ "CBZ" <> "cbr")
       \/ ArchiveConverter.detect_archive_format Sim.platform
            (PurePath.of_string "/c/a.cbr") (world (Sim.start sample_world))
          = Some PDF))
  /\ ArchiveArchiveConverter.convert_file Sim.platform
       (PurePath.of_string "/c/a.cbr") "CBZ" false
       (Some Sim.progress_sink) (Some Sim.status_sink) (Sim.start sample_world)
     = (Ok (mkResult "/c/a.cbr" "/c/a.CBZ" false unsupported_conversion),
        Sim.start sample_world).
Proof.
  assert (H : ("CBZ" <> "cbz" /\ "CBZ" <> "cbr")
              \/ ArchiveConverter.detect_archive_format Sim.platform
                   (PurePath.of_string "/c/a.cbr")
                   (world (Sim.start sample_world)) = Some PDF)
    by (left; split; discriminate).
  split; [split; [reflexivity | exact H]|].
  exact (X9_container_orchestrator_refuses_other_targets Sim.World Sim.UI
           Sim.platform (PurePath.of_string "/c/a.cbr") "CBZ" false
           (Some Sim.progress_sink) (Some Sim.status_sink)
           (Sim.start sample_world) (PurePath.of_string "/c/a.CBZ") eq_refl H).
Defined.

Lemma X10_witness :
  (PurePath.with_suffix (PurePath.of_string "/c/a.cbr") ("." ++ PyStr.lower "cbz")
   = Ok (PurePath.of_string "/c/a.cbz")
   /\ ArchiveConverter.detect_archive_format Sim.platform
        (PurePath.of_string "/c/a.cbr") (world (Sim.start sample_world))
      = Some CBR)
  /\ PdfArchiveConverter.convert_file Sim.platform
       (PurePath.of_string "/c/a.cbr") "cbz" false
       (Some Sim.progress_sink) (Some Sim.status_sink) (Sim.start sample_world)
     = (Ok (mkResult "/c/a.cbr" "/c/a.cbz" false unsupported_conversion),
        Sim.start sample_world).
Proof.
  split; [split; reflexivity|].
  exact (X10_pdf_orchestrator_refuses_rar_sources Sim.World Sim.UI Sim.platform
           (PurePath.of_string "/c/a.cbr") "cbz" false
           (Some Sim.progress_sink) (Some Sim.status_sink)
           (Sim.start sample_world) (PurePath.of_string "/c/a.cbz")
           eq_refl eq_refl).
Defined.

Lemma X4_witness :
  let entry := ArchiveArchiveConverter.mkEntry Sim.World Sim.UI
                 (extract_rar_archive Sim.platform)
                 (create_zip_archive Sim.platform) ".cbz" "CBZ" in
  let source := PurePath.of_string "/c/a.cbr" in
  let dest := PurePath.of_string "/tmp/t0" in
  let s := Sim.start sample_world in
  ArchiveArchiveConverter.FORMAT_MAP Sim.platform CBR = Some entry
  /\ (let run := ArchiveArchiveConverter.extract Sim.World Sim.UI entry source
                   dest (Some Sim.progress_sink) 0 40 s in
      (forall e, fst run = Raise e -> exn_class e = RuntimeError)
      /\ match archive_namelist Sim.platform CBR source (world s) with
         | Raise _ => calls (snd run) = calls s /\ fst run <> Ok tt
         | Ok names =>
             exists k,
               (k <= List.length names)%nat
               /\ calls (snd run)
                  = (calls s
                     ++ map (extract_call CBR source dest) (firstn k names))%list
               /\ (fst run = Ok tt -> k = List.length names)
         end).
Proof.
  intros entry source dest s. split; [reflexivity|].
  exact (X4_extraction_follows_the_entry_list Sim.World Sim.UI Sim.platform
           CBR entry source dest (Some Sim.progress_sink) 0 40 s eq_refl).
Defined.

Lemma X6_witness :
  let source := PurePath.of_string "/tmp/t0" in
  let target := PurePath.of_string "/c/new.cbr" in
  let s := Sim.start sample_world in
  run_rar_probe Sim.platform (world s) = Ok tt
  /\ (let run := create_rar_archive Sim.platform source target None 50 100 s in
      (calls (snd run) = calls s
       \/ calls (snd run) = (calls s ++ [CallRarAdd target source])%list)
      /\ (forall e, fst run = Raise e -> exn_class e = RuntimeError)
      /\ (fst run = Ok tt ->
          exists stderr w1,
            run_rar_add Sim.platform target source (world s)
            = (Ok (0, stderr), w1))
      /\ (forall returncode stderr w1,
            run_rar_add Sim.platform target source (world s)
            = (Ok (returncode, stderr), w1) ->
            returncode <> 0 ->
            fst (emit_progress None (50 + 10)
                   (Z.of_nat (List.length
                      (os_walk_files Sim.platform source (world s)))) s)
            = Ok tt ->
            fst run
            = Raise (mkExn RuntimeError
                       ("Failed to create RAR archive: RAR creation failed: "
                        ++ stderr)))).
Proof.
  intros source target s. split; [reflexivity|].
  exact (X6_rar_creation_reports_the_exit_code Sim.World Sim.UI Sim.platform
           source target None 50 100 s eq_refl).
Defined.

(* ================================================================= *)
(** ** What reaches the callbacks *)

Section UiRuns.

Variables W U : Type.
Variable J : U -> Prop.

Lemma ui_ret {A} (a : A) : ui_keeps J (ret a : M W U A).
Proof. intros s H. exact H. Qed.

Lemma ui_raise {A} e : ui_keeps J (raise e : M W U A).
Proof. intros s H. exact H. Qed.

Lemma ui_lift_res {A} (r : Res A) : ui_keeps J (lift_res r : M W U A).
Proof. intros s H. exact H. Qed.

Lemma ui_ask {A} (f : W -> A) : ui_keeps J (ask f : M W U A).
Proof. intros s H. exact H. Qed.

Lemma ui_ask_res {A} (f : W -> Res A) : ui_keeps J (ask_res f : M W U A).
Proof. intros s H. exact H. Qed.

Lemma ui_perform {A} c (f : W -> Res A * W) : ui_keeps J (perform c f : M W U A).
Proof. intros s H. unfold perform. destruct (f (world s)). exact H. Qed.

Lemma ui_call_cb (f : U -> Res unit * U) :
  (forall u, J u -> J (snd (f u))) -> ui_keeps J (call_cb f : M W U unit).
Proof.
  intros Hf s H. unfold call_cb. specialize (Hf _ H).
  destruct (f (ui s)). exact Hf.
Qed.

Lemma ui_bind {A B} (m : M W U A) (f : A -> M W U B) :
  ui_keeps J m -> (forall a, ui_keeps J (f a)) -> ui_keeps J (bind m f).
Proof.
  intros Hm Hf s H. unfold bind. specialize (Hm s H).
  destruct (m s) as [[a|e] s1]; cbn [snd] in Hm.
  - apply Hf. exact Hm.
  - exact Hm.
Qed.

Lemma ui_bind_ret {A B} (a : A) (f : A -> M W U B) :
  ui_keeps J (f a) -> ui_keeps J (bind (ret a) f).
Proof. intros H s. exact (H s). Qed.

Lemma ui_bind_raise {A B} e (f : A -> M W U B) :
  ui_keeps J (bind (raise e) f).
Proof. intros s H. exact H. Qed.

Lemma ui_catch {A} (m : M W U A) : ui_keeps J m -> ui_keeps J (catch m).
Proof.
  intros Hm s H. unfold catch. specialize (Hm s H).
  destruct (m s) as [r s1]. exact Hm.
Qed.

Lemma ui_finally {A} (body : M W U A) (release : M W U unit) :
  ui_keeps J body -> ui_keeps J release -> ui_keeps J (finally_ body release).
Proof.
  intros Hb Hr. unfold finally_.
  apply ui_bind; [apply ui_catch; exact Hb | intros r].
  apply ui_bind; [exact Hr | intros _]. apply ui_lift_res.
Qed.

Lemma ui_for_enumerate {A} (f : nat -> A -> M W U unit) :
  (forall i x, ui_keeps J (f i x)) ->
  forall l i, ui_keeps J (for_enumerate f i l).
Proof.
  intros Hf l. induction l as [|x r IH]; intros i; cbn [for_enumerate].
  - apply ui_ret.
  - apply ui_bind; [apply Hf | intros _; apply IH].
Qed.

Lemma ui_map_m {A B} (f : A -> M W U B) :
  (forall x, ui_keeps J (f x)) -> forall l, ui_keeps J (map_m f l).
Proof.
  intros Hf l. induction l as [|x r IH]; cbn [map_m].
  - apply ui_ret.
  - apply ui_bind; [apply Hf | intros y].
    apply ui_bind; [apply IH | intros ys; apply ui_ret].
Qed.

Lemma ui_map_enumerate_m {A B} (f : nat -> A -> M W U B) :
  (forall i x, ui_keeps J (f i x)) ->
  forall l i, ui_keeps J (map_enumerate_m f i l).
Proof.
  intros Hf l. induction l as [|x r IH]; intros i; cbn [map_enumerate_m].
  - apply ui_ret.
  - apply ui_bind; [apply Hf | intros y].
    apply ui_bind; [apply IH | intros ys; apply ui_ret].
Qed.

Lemma ui_emit_progress cb current total :
  progress_keeps J cb -> ui_keeps J (emit_progress cb current total : M W U unit).
Proof.
  intros H. destruct cb as [f|]; cbn [emit_progress].
  - apply ui_call_cb. exact (H current total).
  - apply ui_ret.
Qed.

Lemma ui_emit_status cb message :
  status_keeps J cb -> ui_keeps J (emit_status cb message : M W U unit).
Proof.
  intros H. destruct cb as [f|]; cbn [emit_status].
  - apply ui_call_cb. exact (H message).
  - apply ui_ret.
Qed.

(** The per-file callback keeps what its sink keeps on the pairs
    [(p, 100)] it can forward. *)
Lemma per_file_callback_keeps (sink : option (Progress U))
    (file_index total_files : Z) (is_last_file : bool) :
  (forall f p u, sink = Some f -> 0 <= p <= 100 ->
                 (is_last_file = false -> p <= 99) ->
                 J u -> J (snd (f p 100 u))) ->
  progress_keeps J
    (Some (create_per_file_progress_callback sink file_index total_files
             is_last_file)).
Proof.
  intros H current total u Hu.
  unfold create_per_file_progress_callback, callback_percent.
  destruct sink as [f|]; [|exact Hu].
  destruct (0 <? total).
  - destruct (raw_percentage current total) as [x|e]; cbn [res_bind snd];
      [|exact Hu].
    apply (H f _ u eq_refl); [| |exact Hu].
    + destruct (negb is_last_file && (Z.min 100 (Z.max 0 x) =? 100))%bool; lia.
    + intros ->. cbn [negb andb].
      destruct (Z.eqb_spec (Z.min 100 (Z.max 0 x)) 100); lia.
  - cbn [snd]. apply (H f _ u eq_refl); [| |exact Hu].
    + destruct (negb is_last_file && (0 =? 100))%bool; lia.
    + intros ->. cbn. lia.
Qed.

End UiRuns.

(** One step along a run, by the head of the run. *)
Ltac ui_step :=
  lazymatch goal with
  | |- ui_keeps _ (ret _) => apply ui_ret
  | |- ui_keeps _ (raise _) => apply ui_raise
  | |- ui_keeps _ (lift_res _) => apply ui_lift_res
  | |- ui_keeps _ (ask _) => apply ui_ask
  | |- ui_keeps _ (ask_res _) => apply ui_ask_res
  | |- ui_keeps _ (perform _ _) => apply ui_perform
  | |- ui_keeps _ (call_cb _) =>
      apply ui_call_cb;
      match goal with H : progress_keeps _ (Some _) |- _ => exact (H _ _) end
  | |- ui_keeps _ (emit_progress _ _ _) => apply ui_emit_progress; assumption
  | |- ui_keeps _ (emit_status _ _) => apply ui_emit_status; assumption
  | |- ui_keeps _ (catch _) => apply ui_catch
  | |- ui_keeps _ (finally_ _ _) => apply ui_finally
  | |- ui_keeps _ (for_enumerate _ _ _) => apply ui_for_enumerate; intros
  | |- ui_keeps _ (map_enumerate_m _ _ _) => apply ui_map_enumerate_m; intros
  | |- ui_keeps _ (map_m _ _) => apply ui_map_m; intros
  | |- ui_keeps _ (bind (ret _) _) => apply ui_bind_ret
  | |- ui_keeps _ (bind (raise _) _) => apply ui_bind_raise
  | |- ui_keeps _ (bind _ _) => apply ui_bind; [|intros]
  | |- ui_keeps _ (match ?x with _ => _ end) => destruct x
  end.

Section UiSteps.

Variables W U : Type.
Variable P : Platform W.
Variable J : U -> Prop.

Lemma extract_rar_ui src dst cb a b :
  progress_keeps J cb -> ui_keeps J (extract_rar_archive (W := W) P src dst cb a b).
Proof. intros Hp. unfold extract_rar_archive. repeat ui_step. Qed.

Lemma extract_zip_ui src dst cb a b :
  progress_keeps J cb -> ui_keeps J (extract_zip_archive (W := W) P src dst cb a b).
Proof. intros Hp. unfold extract_zip_archive. repeat ui_step. Qed.

Lemma create_zip_ui src dst cb a b :
  progress_keeps J cb -> ui_keeps J (create_zip_archive (W := W) P src dst cb a b).
Proof. intros Hp. unfold create_zip_archive. repeat ui_step. Qed.

Lemma create_rar_ui src dst cb a b :
  progress_keeps J cb -> ui_keeps J (create_rar_archive (W := W) P src dst cb a b).
Proof. intros Hp. unfold create_rar_archive. repeat ui_step. Qed.

Lemma convert_archive_ui src fmt out pcb scb a b c d :
  progress_keeps J pcb -> status_keeps J scb ->
  ui_keeps J (ArchiveArchiveConverter.convert_archive P src fmt out pcb scb a b c d).
Proof.
  intros Hp Hs.
  unfold ArchiveArchiveConverter.convert_archive,
    ArchiveArchiveConverter.detect_archive_format.
  destruct fmt as [[| |]|]; cbn [ArchiveArchiveConverter.FORMAT_MAP];
    repeat ui_step;
    cbn [ArchiveArchiveConverter.extract ArchiveArchiveConverter.create];
    auto using extract_rar_ui, extract_zip_ui, create_zip_ui, create_rar_ui.
Qed.

Lemma convert_pdf_to_cbz_ui src out pcb scb a b c d :
  progress_keeps J pcb -> status_keeps J scb ->
  ui_keeps J (PdfArchiveConverter.convert_pdf_to_cbz P src out pcb scb a b c d).
Proof.
  intros Hp Hs.
  unfold PdfArchiveConverter.convert_pdf_to_cbz,
    PdfArchiveConverter.detect_archive_format.
  repeat ui_step; auto using create_zip_ui.
Qed.

Lemma convert_cbz_to_pdf_ui src out pcb scb a b c d :
  progress_keeps J pcb -> status_keeps J scb ->
  ui_keeps J (PdfArchiveConverter.convert_cbz_to_pdf P src out pcb scb a b c d).
Proof.
  intros Hp Hs.
  unfold PdfArchiveConverter.convert_cbz_to_pdf,
    PdfArchiveConverter.detect_archive_format.
  repeat ui_step.
Qed.

(** [convert_file] reaches the callbacks' state through its two callbacks
    only. *)
Lemma convert_file_ui (c : Converter) file target del pcb scb :
  progress_keeps J pcb -> status_keeps J scb ->
  ui_keeps J (converter_convert_file P c file target del pcb scb).
Proof.
  intros Hp Hs. destruct c; cbn [converter_convert_file].
  - unfold ArchiveArchiveConverter.convert_file,
      ArchiveArchiveConverter.convert_step,
      ArchiveArchiveConverter.detect_archive_format.
    repeat ui_step; auto using convert_archive_ui.
  - unfold PdfArchiveConverter.convert_file, PdfArchiveConverter.convert_step,
      PdfArchiveConverter.detect_archive_format.
    repeat ui_step; auto using convert_pdf_to_cbz_ui, convert_cbz_to_pdf_ui.
Qed.

End UiSteps.

Section BatchSignals.

Variables W U : Type.
Variable P : Platform W.

Lemma carry_over (I : nat -> U -> Prop) (n : nat) :
  (forall k u, (k < n)%nat -> I k u -> I (S k) u) ->
  forall d k u, (k + d = n)%nat -> I k u -> I n u.
Proof.
  intros Hn d. induction d as [|d IH]; intros k u E H.
  - replace n with k by lia. exact H.
  - apply (IH (S k)); [lia|]. apply Hn; [lia | exact H].
Qed.

(** The loop of [convert_batch] from index [idx]. *)
Lemma convert_batch_from_ui (c : Converter) (sink : option (Progress U))
    (ssink : option (Status U)) (n : nat) (target : string) (del : bool)
    (I : nat -> U -> Prop) :
  (forall f k p u, sink = Some f -> (k < n)%nat -> 0 <= p <= 100 ->
                   ((S k < n)%nat -> p <= 99) ->
                   I k u -> I k (snd (f p 100 u))) ->
  (forall g k msg u, ssink = Some g -> (k < n)%nat ->
                     I k u -> I k (snd (g (file_message (k + 1) n msg) u))) ->
  (forall k u, (k < n)%nat -> I k u -> I (S k) u) ->
  forall (l : list string) (idx : nat) (acc : list ConversionResult) (s : St W U),
    (idx + List.length l = n)%nat ->
    I idx (ui s) ->
    I n (ui (snd (converter_convert_batch_from P c sink n target del ssink idx l
                    acc s))).
Proof.
  intros Hp Hs Hn l. induction l as [|p0 rest IH]; intros idx acc s E H.
  - rewrite convert_batch_from_nil. cbn [snd List.length] in *.
    replace n with idx by lia. exact H.
  - cbn [List.length] in E. rewrite convert_batch_from_cons. unfold bind at 1.
    assert (K : ui_keeps (W := W) (I idx)
                  (converter_convert_file P c (PurePath.of_string p0) target del
                     (Some (create_per_file_progress_callback sink (Z.of_nat idx)
                              (Z.of_nat n) (Z.of_nat idx =? Z.of_nat n - 1)))
                     (Some (file_status ssink idx n)))).
    { apply convert_file_ui.
      - apply per_file_callback_keeps. intros f p u Ef Hb Hl Hu.
        apply (Hp f idx p u Ef); [lia | exact Hb | | exact Hu].
        intros Hk. apply Hl. apply Z.eqb_neq. lia.
      - intros msg u Hu. unfold file_status. destruct ssink as [g|]; [|exact Hu].
        apply (Hs g idx msg u eq_refl); [lia | exact Hu]. }
    specialize (K s H).
    destruct (converter_convert_file P c (PurePath.of_string p0) target del _ _ s)
      as [[r0|e] s0]; cbn [snd] in *.
    + apply IH; [lia|]. apply Hn; [lia | exact K].
    + apply (carry_over I n Hn (S (List.length rest)) idx); [lia | exact K].
Qed.

(** X11. Whatever the two sinks do, a batch calls the progress sink only
    with [(p, 100)] where [0 <= p <= 100], and [p <= 99] while a file other
    than the last is converted; it calls the status sink only with messages
    that start with [File k/n: ] for the file being converted; and it takes
    the files in order. So a property of the callbacks' state that such
    calls keep for file [k], and that carries over to file [k + 1], holds
    at the end of the batch when it held at the start. *)
Theorem X11_batch_calls_the_sinks_in_file_order
    (c : Converter) (sink : option (Progress U)) (ssink : option (Status U))
    (file_paths : list string) (target : string) (del : bool)
    (I : nat -> U -> Prop) (s : St W U) :
  (forall f k p u, sink = Some f -> (k < List.length file_paths)%nat ->
                   0 <= p <= 100 ->
                   ((S k < List.length file_paths)%nat -> p <= 99) ->
                   I k u -> I k (snd (f p 100 u))) ->
  (forall g k msg u, ssink = Some g -> (k < List.length file_paths)%nat ->
                     I k u ->
                     I k (snd (g (file_message (k + 1) (List.length file_paths)
                                    msg) u))) ->
  (forall k u, (k < List.length file_paths)%nat -> I k u -> I (S k) u) ->
  I 0%nat (ui s) ->
  I (List.length file_paths)
    (ui (snd (converter_convert_batch P c sink file_paths target del ssink s))).
Proof.
  intros Hp Hs Hn H.
  pose proof (convert_batch_from_ui c sink ssink (List.length file_paths) target
                del I Hp Hs Hn file_paths 0%nat [] s eq_refl H) as K.
  destruct c; exact K.
Qed.

End BatchSignals.

Lemma X11_witness :
  let files := ["/c/a.cbr"; "/c/nope.cbr"; "/c/z.cbz"] in
  let I := fun (k : nat) (u : Sim.UI) =>
             Forall (well_formed_signal (List.length files)) u in
  ((forall f k p u, Some Sim.progress_sink = Some f ->
                    (k < List.length files)%nat -> 0 <= p <= 100 ->
                    ((S k < List.length files)%nat -> p <= 99) ->
                    I k u -> I k (snd (f p 100 u)))
   /\ (forall g k msg u, Some Sim.status_sink = Some g ->
                         (k < List.length files)%nat -> I k u ->
                         I k (snd (g (file_message (k + 1) (List.length files)
                                        msg) u)))
   /\ (forall k u, (k < List.length files)%nat -> I k u -> I (S k) u)
   /\ I 0%nat (ui (Sim.start sample_world)))
  /\ Forall (well_formed_signal 3)
       (ui (snd (converter_convert_batch Sim.platform UseArchiveArchiveConverter
                   (Some Sim.progress_sink) files "cbz" false
                   (Some Sim.status_sink) (Sim.start sample_world)))).
Proof.
  intros files I.
  assert (Hp : forall f k p u, Some Sim.progress_sink = Some f ->
                 (k < List.length files)%nat -> 0 <= p <= 100 ->
                 ((S k < List.length files)%nat -> p <= 99) ->
                 I k u -> I k (snd (f p 100 u))).
  { intros f k p u Ef _ Hb _ Hu. injection Ef as <-.
    apply Forall_app. split; [exact Hu|].
    constructor; [split; [reflexivity | exact Hb] | constructor]. }
  assert (Hs : forall g k msg u, Some Sim.status_sink = Some g ->
                 (k < List.length files)%nat -> I k u ->
                 I k (snd (g (file_message (k + 1) (List.length files) msg) u))).
  { intros g k msg u Eg Hk Hu. injection Eg as <-.
    apply Forall_app. split; [exact Hu|].
    constructor; [|constructor].
    exists (k + 1)%nat, msg. split; [lia | reflexivity]. }
  assert (Hn : forall k u, (k < List.length files)%nat -> I k u -> I (S k) u).
  { intros k u _ Hu. exact Hu. }
  assert (H0 : I 0%nat (ui (Sim.start sample_world))).
  { constructor. }
  split; [repeat split; assumption|].
  exact (X11_batch_calls_the_sinks_in_file_order Sim.World Sim.UI Sim.platform
           UseArchiveArchiveConverter (Some Sim.progress_sink)
           (Some Sim.status_sink) files "cbz" false I (Sim.start sample_world)
           Hp Hs Hn H0).
Defined.

(* ================================================================= *)
(** ** The worker *)

Section Worker.

Variable W : Type.
Variable P : Platform W.

Import ConversionWorker.

Lemma percent_of_hundred : raw_percentage 100 100 = Ok 100.
Proof. vm_compute. reflexivity. Qed.

(** [int((p / 100) * 100)] is [p] or one less. *)
Lemma percent_out_of_hundred (p : Z) :
  0 <= p <= 100 ->
  exists x, raw_percentage p 100 = Ok x /\ p - 1 <= x <= p.
Proof.
  intros Hb. pose proof (truncation_on_grid p 100 Hb ltac:(lia)) as T.
  unfold truncation_check in T.
  destruct (raw_percentage p 100) as [x|e]; [|discriminate].
  exists x. split; [reflexivity|].
  replace (100 * p / 100) with p in T by (rewrite Z.mul_comm, Z.div_mul; lia).
  apply orb_true_iff in T. destruct T as [T|T].
  - apply Z.eqb_eq in T. lia.
  - apply andb_true_iff in T. destruct T as [T _]. apply Z.eqb_eq in T. lia.
Qed.

(** X12. Called as a batch calls it, with [(p, 100)] and [0 <= p <= 100],
    the worker's [emit_progress] never raises and changes nothing but the
    signals and the remembered percentage: it emits nothing, or the pair as
    it came. It always emits [(100, 100)], and it emits whenever the
    remembered percentage is neither [p] nor [p - 1]. *)
Theorem X12_worker_forwards_batch_progress (p : Z) (self : Self) :
  0 <= p <= 100 ->
  exists self',
    emit_progress p 100 self = (Ok tt, self')
    /\ (self' = self
        \/ (emitted self' = (emitted self ++ [progress p 100])%list
            /\ p - 1 <= last_progress_percent self' <= p))
    /\ ((p = 100
         \/ (last_progress_percent self <> p
             /\ last_progress_percent self <> p - 1)) ->
        emitted self' = (emitted self ++ [progress p 100])%list)
    /\ file_paths self' = file_paths self
    /\ target_format self' = target_format self
    /\ delete_original self' = delete_original self
    /\ conversion_done self' = conversion_done self.
Proof.
  intros Hb. destruct (percent_out_of_hundred p Hb) as [x [Ex Hx]].
  unfold emit_progress. cbn [Z.ltb Z.compare]. rewrite Ex.
  destruct ((1 <=? Z.abs (x - last_progress_percent self)) || (x =? 100))%bool
    eqn:C.
  - eexists. split; [reflexivity|]. cbn. repeat split; auto.
  - exists self. split; [reflexivity|].
    apply orb_false_iff in C. destruct C as [C1 C2].
    apply Z.leb_gt in C1. apply Z.eqb_neq in C2.
    repeat split; auto.
    intros [->|[H1 H2]].
    + rewrite percent_of_hundred in Ex. injection Ex as <-. contradiction.
    + lia.
Qed.






End Worker.

Lemma X12_witness :
  0 <= 29 <= 100
  /\ exists self',
       ConversionWorker.emit_progress 29 100
         (ConversionWorker.__init__ ["/c/a.cbr"] "cbz" false)
       = (Ok tt, self')
       /\ (self' = ConversionWorker.__init__ ["/c/a.cbr"] "cbz" false
           \/ (ConversionWorker.emitted self'
               = (ConversionWorker.emitted
                    (ConversionWorker.__init__ ["/c/a.cbr"] "cbz" false)
                  ++ [ConversionWorker.progress 29 100])%list
               /\ 29 - 1 <= ConversionWorker.last_progress_percent self' <= 29))
       /\ ((29 = 100
            \/ (ConversionWorker.last_progress_percent
                  (ConversionWorker.__init__ ["/c/a.cbr"] "cbz" false) <> 29
                /\ ConversionWorker.last_progress_percent
                     (ConversionWorker.__init__ ["/c/a.cbr"] "cbz" false)
                   <> 29 - 1)) ->
           ConversionWorker.emitted self'
           = (ConversionWorker.emitted
                (ConversionWorker.__init__ ["/c/a.cbr"] "cbz" false)
              ++ [ConversionWorker.progress 29 100])%list)
       /\ ConversionWorker.file_paths self' = ["/c/a.cbr"]
       /\ ConversionWorker.target_format self' = "cbz"
       /\ ConversionWorker.delete_original self' = false
       /\ ConversionWorker.conversion_done self' = false.
Proof.
  split; [lia|].
  exact (X12_worker_forwards_batch_progress 29
           (ConversionWorker.__init__ ["/c/a.cbr"] "cbz" false) ltac:(lia)).
Defined.

(* ================================================================= *)
(** ** A RAR archive in a batch of the PDF orchestrator *)

Section MixedBatch.

Variables W U : Type.
Variable P : Platform W.

(** X14. In a batch of the PDF orchestrator, which the worker uses for the
    whole selection as soon as one path ends with [.pdf], a file that is
    detected as a RAR archive when its turn comes is never converted: its
    result, at its own index, is the unsupported-conversion failure,
    whatever the target. *)
Theorem X14_pdf_batch_refuses_rar_files
    (spc : option (Progress U)) (file_paths : list string) (target : string)
    (del : bool) (scb : option (Status U)) (s : St W U) :
  PurePath.valid_suffix ("." ++ PyStr.lower target) = true ->
  Forall (fun p => PurePath.name (PurePath.of_string p) <> "") file_paths ->
  exists results s',
    PdfArchiveConverter.convert_batch P spc file_paths target del scb s
    = (Ok results, s')
    /\ forall k p, nth_error file_paths k = Some p ->
         exists sk,
           PdfArchiveConverter.convert_batch_from P spc (List.length file_paths)
             target del scb 0 (firstn k file_paths) [] s
           = (Ok (firstn k results), sk)
           /\ (ArchiveConverter.detect_archive_format P (PurePath.of_string p)
                 (world sk) = Some CBR ->
               exists converted,
                 PurePath.with_suffix (PurePath.of_string p)
                   ("." ++ PyStr.lower target) = Ok converted
                 /\ nth_error results k
                    = Some (mkResult (PurePath.str (PurePath.of_string p))
                                     (PurePath.str converted) false
                                     unsupported_conversion)).
Proof.
  intros Hs Hall.
  destruct (convert_batch_from_spec W U P UsePdfArchiveConverter spc
              (List.length file_paths) target del scb Hs file_paths 0%nat [] s
              Hall) as [rs [s' [B [L K]]]].
  exists rs, s'. split; [exact B|].
  intros k p Hk. destruct (K k p Hk) as [r [sk [sk' [Bk [Fk [Nk _]]]]]].
  exists sk. split; [exact Bk|]. intros D.
  assert (Hp : PurePath.name (PurePath.of_string p) <> "").
  { rewrite Forall_forall in Hall. apply Hall.
    apply nth_error_In with (n := k). exact Hk. }
  destruct (with_suffix_ok (PurePath.of_string p) _ Hs Hp) as [converted E].
  exists converted. split; [exact E|].
  cbn [converter_convert_file] in Fk.
  rewrite (pdf_gate_rejects_known_format W U P (PurePath.of_string p) target
             del _ _ converted CBR sk E D) in Fk.
  - injection Fk as <- _. exact Nk.
  - unfold PdfArchiveConverter.supported, PdfArchiveConverter.lazy_and.
    destruct (String.eqb (PyStr.lower target) "cbz");
      destruct (String.eqb (PyStr.lower target) "pdf"); reflexivity.
Qed.

End MixedBatch.

Lemma X14_witness :
  (PurePath.valid_suffix ("." ++ PyStr.lower "cbz") = true
   /\ Forall (fun p => PurePath.name (PurePath.of_string p) <> "")
        ["/c/p.pdf"; "/c/a.cbr"])
  /\ exists results s',
       PdfArchiveConverter.convert_batch Sim.platform (Some Sim.progress_sink)
         ["/c/p.pdf"; "/c/a.cbr"] "cbz" false (Some Sim.status_sink)
         (Sim.start sample_world)
       = (Ok results, s')
       /\ forall k p, nth_error ["/c/p.pdf"; "/c/a.cbr"] k = Some p ->
            exists sk,
              PdfArchiveConverter.convert_batch_from Sim.platform
                (Some Sim.progress_sink) (List.length ["/c/p.pdf"; "/c/a.cbr"])
                "cbz" false (Some Sim.status_sink) 0
                (firstn k ["/c/p.pdf"; "/c/a.cbr"]) [] (Sim.start sample_world)
              = (Ok (firstn k results), sk)
              /\ (ArchiveConverter.detect_archive_format Sim.platform
                    (PurePath.of_string p) (world sk) = Some CBR ->
                  exists converted,
                    PurePath.with_suffix (PurePath.of_string p)
                      ("." ++ PyStr.lower "cbz") = Ok converted
                    /\ nth_error results k
                       = Some (mkResult (PurePath.str (PurePath.of_string p))
                                        (PurePath.str converted) false
                                        unsupported_conversion)).
Proof.
  assert (Hs : PurePath.valid_suffix ("." ++ PyStr.lower "cbz") = true)
    by reflexivity.
  assert (Hall : Forall (fun p => PurePath.name (PurePath.of_string p) <> "")
                   ["/c/p.pdf"; "/c/a.cbr"])
    by (repeat constructor; discriminate).
  split; [split; assumption|].
  exact (X14_pdf_batch_refuses_rar_files Sim.World Sim.UI Sim.platform
           (Some Sim.progress_sink) ["/c/p.pdf"; "/c/a.cbr"] "cbz" false
           (Some Sim.status_sink) (Sim.start sample_world) Hs Hall).
Defined.
